(** * Kontent.ai migration toolkit: import/export reconciliation core

    A shallow embedding of the parts of the toolkit that decide what is
    created, updated, skipped or moved through a workflow, and the
    properties of those decisions.

    Layout:
    - [Js], [Chalk]  string helpers with the semantics of the JavaScript
                  built-ins and of the colour functions the sources call;
    - [Effects], [Mapi]  outcomes (return / throw / process exit), the
                  Management API client as a record of handlers over an
                  abstract environment, and the monad that threads the
                  environment, the requests sent and the log;
    - one module per source file: [ImportWorkflowService],
                  [ImportWorkflowHelper], [ImportContentItemHelper],
                  [AssetUpdate], [ElementTranslationHelper],
                  [ExportContextService];
    - [InMemoryEnvironment]  a concrete environment to run the helpers;
    - [Vocabulary] and the properties, one module per component. *)

From Stdlib Require Import String Ascii List Bool ZArith Lia.
From Stdlib Require Import DecimalString.
Import ListNotations.
Open Scope list_scope.
Open Scope string_scope.

(* ===================================================================== *)
(** * JavaScript string helpers *)
(* ===================================================================== *)

Module Js.

(** [String.prototype.toLowerCase], on the ASCII range (codenames of the
    platform are lower-case ASCII identifiers). *)
Definition lowerAscii (c : ascii) : ascii :=
  let n := nat_of_ascii c in
  if Nat.leb 65 n && Nat.leb n 90 then ascii_of_nat (n + 32) else c.

Fixpoint toLowerCase (s : string) : string :=
  match s with
  | EmptyString => EmptyString
  | String c s' => String (lowerAscii c) (toLowerCase s')
  end.

(** [s.replaceAll(a, b)] for one-character [a] and [b]. *)
Fixpoint replaceAllChar (a b : ascii) (s : string) : string :=
  match s with
  | EmptyString => EmptyString
  | String c s' =>
      String (if Ascii.eqb c a then b else c) (replaceAllChar a b s')
  end.

(** [Array.prototype.join(sep)] on an array of strings. *)
Fixpoint join (sep : string) (l : list string) : string :=
  match l with
  | [] => ""
  | [x] => x
  | x :: rest => x ++ sep ++ join sep rest
  end.

(** [`${n}`] for a non-negative integer. *)
Definition numberToString (n : nat) : string :=
  NilEmpty.string_of_uint (Nat.to_uint n).

(** [Array.prototype.find]. *)
Definition find {A : Type} (p : A -> bool) (l : list A) : option A :=
  List.find p l.

(** [hay] has [needle] as a contiguous part. *)
Definition contains (needle hay : string) : Prop :=
  exists pre post, hay = pre ++ needle ++ post.

Fixpoint isPrefix (p s : string) : bool :=
  match p, s with
  | EmptyString, _ => true
  | String a p', String b s' => Ascii.eqb a b && isPrefix p' s'
  | String _ _, EmptyString => false
  end.

Fixpoint isInfix (needle hay : string) : bool :=
  isPrefix needle hay
  || match hay with
     | EmptyString => false
     | String _ hay' => isInfix needle hay'
     end.

End Js.

(* ===================================================================== *)
(** * Terminal colours *)
(* ===================================================================== *)

(** [chalk] (and [colors]) wrap a string in ANSI escape sequences when the
    terminal supports colours and return it unchanged otherwise. *)
Module Chalk.

Definition esc : string := String (ascii_of_nat 27) "[".

Definition paint (enabled : bool) (code : string) (s : string) : string :=
  if enabled then esc ++ code ++ "m" ++ s ++ esc ++ "39m" else s.

Definition red (enabled : bool) := paint enabled "31".
Definition cyan (enabled : bool) := paint enabled "36".
Definition yellow (enabled : bool) := paint enabled "33".

End Chalk.

(* ===================================================================== *)
(** * Effects *)
(* ===================================================================== *)

Module Effects.

(** What a [catch] clause may receive.  The toolkit distinguishes errors
    of the Management SDK ([SharedModels.ContentManagementBaseKontentError],
    which carry the HTTP status of the response) from everything else. *)
Inductive JsError : Type :=
| ContentManagementBaseKontentError (status : Z) (message : string)
| OtherError (message : string).

Definition errorMessage (e : JsError) : string :=
  match e with
  | ContentManagementBaseKontentError _ m => m
  | OtherError m => m
  end.

(** [error instanceof SharedModels.ContentManagementBaseKontentError] *)
Definition isContentManagementError (e : JsError) : bool :=
  match e with
  | ContentManagementBaseKontentError _ _ => true
  | OtherError _ => false
  end.

(** Modelled from the spec: [is404Error] is exported by [core/], which is
    not among the sources.  The spec speaks of the "404-class" outcome of
    a lookup, "absent content item/asset on lookup": a Management SDK
    error whose response status is 404. *)
Definition is404Error (e : JsError) : bool :=
  match e with
  | ContentManagementBaseKontentError status _ => Z.eqb status 404
  | OtherError _ => false
  end.

(** How a call ends: it returns, it throws, or it ends with a fatal
    error ([logErrorAndExit], below and in [Mapi]), which no [catch]
    handles. *)
Inductive outcome (A : Type) : Type :=
| Ok (a : A)
| Throw (e : JsError)
| Exit (message : string).
Arguments Ok {A} a.
Arguments Throw {A} e.
Arguments Exit {A} message.

(** How a request to the Management API ends. *)
Inductive response (A : Type) : Type :=
| Success (data : A)
| Failure (error : JsError).
Arguments Success {A} data.
Arguments Failure {A} error.

Definition outcomeOfResponse {A} (r : response A) : outcome A :=
  match r with
  | Success data => Ok data
  | Failure error => Throw error
  end.

Record LogEntry : Type := {
  log_type : string;
  log_message : string;
  log_parts : list string
}.

Definition logEntry (t m : string) : LogEntry :=
  {| log_type := t; log_message := m; log_parts := [] |}.

(** Modelled from the spec: [logErrorAndExit] is exported by [core/],
    which is not among the sources.  The errors it reports (an invalid
    collection, a missing content type or element definition, a
    malformed snippet reference) are the fatal errors of the spec,
    which always propagate: the call that meets one does not return
    (the sources use the looked-up value right after the call), and no
    [catch] handles the error.  [Exit] with the message is that
    outcome.  Whether the error reaches the caller as a thrown [Error]
    or as the end of the process is not decided by the sources: what
    is proved of such a failure is stated with [Vocabulary.failsWith],
    which holds either way.  This is the outcome alone, for the code
    that keeps no log. *)
Definition fatalError {A} (message : string) : outcome A := Exit message.

End Effects.

(* ===================================================================== *)
(** * Data model shared by the import and export sides *)
(* ===================================================================== *)

Module Models.

(** [WorkflowModels.Workflow] of the Management SDK, with the fields the
    toolkit reads. *)
Record WorkflowStep : Type := {
  step_codename : string;
  step_id : string
}.

Record Workflow : Type := {
  wf_codename : string;
  wf_id : string;
  wf_steps : list WorkflowStep;
  wf_publishedStep : WorkflowStep;
  wf_scheduledStep : WorkflowStep;
  wf_archivedStep : WorkflowStep
}.

(** [CollectionModels.Collection], [LanguageModels.LanguageModel] *)
Record Collection : Type := {
  collection_id : string;
  collection_codename : string
}.

Record Language : Type := {
  language_id : string;
  language_codename : string
}.

(** [ContentItemModels.ContentItem]: the item as the environment holds
    it; its collection and type are references by id. *)
Record ContentItem : Type := {
  ci_id : string;
  ci_name : string;
  ci_codename : string;
  ci_type_id : string;
  ci_collection_id : string
}.

(** [AssetModels.Asset]: the asset as the environment holds it.
    [asset_collection_id] is [collection?.reference?.id]; a description
    may be [null]. *)
Record AssetDescription : Type := {
  ad_language_id : string;
  ad_description : option string
}.

Record Asset : Type := {
  asset_id : string;
  asset_codename : string;
  asset_fileName : string;
  asset_title : option string;
  asset_size : Z;
  asset_collection_id : option string;
  asset_descriptions : list AssetDescription
}.

(** [IParsedContentItem.system] of the import helper. *)
Record ParsedSystem : Type := {
  ps_codename : string;
  ps_name : string;
  ps_language : string;
  ps_type : string;
  ps_collection : string;
  ps_workflow_step : option string
}.

Record IParsedContentItem : Type := {
  system : ParsedSystem
}.

(** Payloads of the two content-item mutations. *)
Record AddContentItemData : Type := {
  add_name : string;
  add_type_codename : string;
  add_codename : string;
  add_collection_codename : string
}.

Record UpsertContentItemData : Type := {
  upsert_name : string;
  upsert_collection_codename : string
}.

(** Payload of [changeWorkflowOfLanguageVariant().withData]. *)
Record WorkflowChangeData : Type := {
  step_identifier : string;
  workflow_identifier : string
}.

End Models.

Module Mapi.
Import Effects Models.

(** Requests the toolkit sends to the Management API. *)
Inductive ApiCall : Type :=
| ViewContentItemByCodename (codename : string)
| ViewContentItemById (id : string)
| ViewAssetById (id : string)
| AddContentItem (data : AddContentItemData)
| UpsertContentItemByCodename (codename : string)
    (data : UpsertContentItemData)
| PublishLanguageVariant (item language : string)
| UnpublishLanguageVariant (item language : string)
| ChangeWorkflowOfLanguageVariant (item language : string)
    (data : WorkflowChangeData).

Definition isPublishCall (c : ApiCall) : bool :=
  match c with PublishLanguageVariant _ _ => true | _ => false end.
Definition isUnpublishCall (c : ApiCall) : bool :=
  match c with UnpublishLanguageVariant _ _ => true | _ => false end.
Definition isChangeWorkflowCall (c : ApiCall) : bool :=
  match c with ChangeWorkflowOfLanguageVariant _ _ _ => true | _ => false end.
Definition isUpsertCall (c : ApiCall) : bool :=
  match c with UpsertContentItemByCodename _ _ => true | _ => false end.
Definition isAddCall (c : ApiCall) : bool :=
  match c with AddContentItem _ => true | _ => false end.

Section World.
(** The environment behind the client: any state, any behaviour. *)
Context {S : Type}.

(** [ManagementClient]: each request is answered from the state of
    the environment and may change it. *)
Record ManagementClient : Type := {
  viewContentItemByCodename : string -> S -> response ContentItem * S;
  viewContentItemById : string -> S -> response ContentItem * S;
  viewAssetById : string -> S -> response Asset * S;
  addContentItem : AddContentItemData -> S -> response ContentItem * S;
  upsertContentItem :
    string -> UpsertContentItemData -> S -> response ContentItem * S;
  publishLanguageVariant : string -> string -> S -> response unit * S;
  unpublishLanguageVariant : string -> string -> S -> response unit * S;
  changeWorkflowOfLanguageVariant :
    string -> string -> WorkflowChangeData -> S -> response unit * S
}.

(** What a run can observe and change: the environment, the requests
    sent so far, the log, and the [importedData.contentItems]
    accumulator that the import helpers share. *)
Record World : Type := {
  server : S;
  calls : list ApiCall;
  logs : list LogEntry;
  importedContentItems : list (IParsedContentItem * ContentItem);
  preparedItems : list ContentItem
}.

Definition M (A : Type) : Type := World -> outcome A * World.

Definition ret {A} (a : A) : M A := fun w => (Ok a, w).

Definition bind {A B} (m : M A) (k : A -> M B) : M B :=
  fun w =>
    match m w with
    | (Ok a, w') => k a w'
    | (Throw e, w') => (Throw e, w')
    | (Exit msg, w') => (Exit msg, w')
    end.

Definition throw {A} (e : JsError) : M A := fun w => (Throw e, w).

(** A function that returns or throws without touching the world. *)
Definition lift {A} (o : outcome A) : M A := fun w => (o, w).

(** [try { body } catch (error) { handler }]; a process exit is not an
    exception and is not caught. *)
Definition tryCatch {A} (body : M A) (handler : JsError -> M A) : M A :=
  fun w =>
    match body w with
    | (Throw e, w') => handler e w'
    | r => r
    end.

Definition log (entry : LogEntry) : M unit :=
  fun w =>
    (Ok tt,
     {| server := server w; calls := calls w;
        logs := (logs w ++ [entry])%list;
        importedContentItems := importedContentItems w;
        preparedItems := preparedItems w |}).

(** Modelled from the spec: [logErrorAndExit] is exported by [core/],
    which is not among the sources.  It reports the fatal errors of
    the spec, which always propagate: the message is logged, the call
    does not return and no [catch] handles the error (see
    [Effects.fatalError]). *)
Definition logErrorAndExit {A} (message : string) : M A :=
  fun w =>
    (Exit message,
     {| server := server w; calls := calls w;
        logs := (logs w ++ [logEntry "error" message])%list;
        importedContentItems := importedContentItems w;
        preparedItems := preparedItems w |}).

(** Send one request: it is recorded, then answered by the
    environment. *)
Definition request {A} (c : ApiCall) (handler : S -> response A * S)
  : M A :=
  fun w =>
    let (r, s') := handler (server w) in
    (outcomeOfResponse r,
     {| server := s'; calls := (calls w ++ [c])%list; logs := logs w;
        importedContentItems := importedContentItems w;
        preparedItems := preparedItems w |}).

(** [importedData.contentItems.push({ original, imported })] *)
Definition pushImportedContentItem
  (original : IParsedContentItem) (imported : ContentItem) : M unit :=
  fun w =>
    (Ok tt,
     {| server := server w; calls := calls w; logs := logs w;
        importedContentItems :=
          (importedContentItems w ++ [(original, imported)])%list;
        preparedItems := preparedItems w |}).

(** The [preparedItems] array of one [importContentItemsAsync] run: it
    is created empty, handed to the per-item helper, which pushes to
    it, and returned at the end. *)
Definition newPreparedItems : M unit :=
  fun w =>
    (Ok tt,
     {| server := server w; calls := calls w; logs := logs w;
        importedContentItems := importedContentItems w;
        preparedItems := [] |}).

Definition pushPreparedItem (item : ContentItem) : M unit :=
  fun w =>
    (Ok tt,
     {| server := server w; calls := calls w; logs := logs w;
        importedContentItems := importedContentItems w;
        preparedItems := (preparedItems w ++ [item])%list |}).

Definition getPreparedItems : M (list ContentItem) :=
  fun w => (Ok (preparedItems w), w).

(** Modelled from the spec: [runMapiRequestAsync] is exported by
    [core/], which is not among the sources.  Retries belong to the
    transport ("all calls are idempotent-safe retried by the
    collaborator transport; this core only supplies the call and
    interprets success/404/domain-error outcomes") and the logger is
    "purely observational, never affects control flow": the wrapper
    reports the action and awaits [func] once, returning what it
    returns and throwing what it throws. *)
Definition runMapiRequestAsync {A} (action type itemName : string)
  (func : M A) : M A :=
  bind (log {| log_type := action; log_message := type;
               log_parts := [itemName] |})
       (fun _ => func).

End World.

Arguments ManagementClient : clear implicits.
Arguments World : clear implicits.
Arguments M : clear implicits.

End Mapi.

Declare Scope mapi_scope.
Delimit Scope mapi_scope with mapi.
Notation "x <- c ;; k" := (Mapi.bind c (fun x => k))
  (at level 61, c at next level, right associativity) : mapi_scope.
Notation "c ;;; k" := (Mapi.bind c (fun _ => k))
  (at level 61, right associativity) : mapi_scope.

(* ===================================================================== *)
(** * Workflow State Transition Engine ([ImportWorkflowService]) *)
(* ===================================================================== *)

Module ImportWorkflowService.
Import Effects Models Mapi.
Local Open Scope mapi_scope.

(** The service reads [system.codename], [system.name] and
    [system.language] of the migration item. *)
Definition IMigrationItem : Type := IParsedContentItem.

Record IWorkflowAndStep : Type := {
  workflow : Workflow;
  step : WorkflowStep
}.

Definition workflowNotFoundMessage (colors : bool)
  (workflowCodename : string) (workflows : list Workflow) : string :=
  Js.join ". "
    [ "Workflow with codename '" ++ Chalk.red colors workflowCodename
        ++ "' does not exist in target project";
      "Available workflows are ("
        ++ Js.numberToString (List.length workflows) ++ "): "
        ++ Js.join ", "
             (List.map (fun m => Chalk.cyan colors (wf_codename m))
                workflows) ].

Definition stepNotFoundMessage (colors : bool)
  (workflowStepCodename : string) (workflow : Workflow) : string :=
  "Workflow step with codename '" ++ Chalk.red colors workflowStepCodename
    ++ "' does not exist within worklflow '"
    ++ Chalk.cyan colors (wf_codename workflow) ++ "'".

Definition getWorkflowStep (workflow : Workflow) (stepCodename : string)
  : option WorkflowStep :=
  if String.eqb (step_codename (wf_archivedStep workflow)) stepCodename then
    Some {| step_codename := step_codename (wf_archivedStep workflow);
            step_id := step_id (wf_archivedStep workflow) |}
  else if String.eqb (step_codename (wf_publishedStep workflow)) stepCodename
  then
    Some {| step_codename := step_codename (wf_publishedStep workflow);
            step_id := step_id (wf_publishedStep workflow) |}
  else if String.eqb (step_codename (wf_scheduledStep workflow)) stepCodename
  then
    Some {| step_codename := step_codename (wf_scheduledStep workflow);
            step_id := step_id (wf_scheduledStep workflow) |}
  else
    match Js.find (fun m => String.eqb (step_codename m) stepCodename)
            (wf_steps workflow) with
    | Some step =>
        Some {| step_codename := step_codename step;
                step_id := step_id step |}
    | None => None
    end.

Definition getWorkflowAndStep (colors : bool)
  (workflowStepCodename workflowCodename : string)
  (workflows : list Workflow) : outcome IWorkflowAndStep :=
  match
    Js.find
      (fun m =>
         String.eqb (Js.toLowerCase (wf_codename m))
           (Js.toLowerCase workflowCodename))
      workflows
  with
  | None =>
      Throw (OtherError
               (workflowNotFoundMessage colors workflowCodename workflows))
  | Some workflow =>
      match getWorkflowStep workflow workflowStepCodename with
      | None =>
          Throw (OtherError
                   (stepNotFoundMessage colors workflowStepCodename
                      workflow))
      | Some workflowStep =>
          Ok {| step := workflowStep; workflow := workflow |}
      end
  end.

Fixpoint doesWorkflowStepCodenameRepresentPublishedStep
  (stepCodename : string) (workflows : list Workflow) : bool :=
  match workflows with
  | [] => false
  | workflow :: rest =>
      if String.eqb (step_codename (wf_publishedStep workflow)) stepCodename
      then true
      else doesWorkflowStepCodenameRepresentPublishedStep stepCodename rest
  end.

Fixpoint doesWorkflowStepCodenameRepresentArchivedStep
  (workflowStepCodename : string) (workflows : list Workflow) : bool :=
  match workflows with
  | [] => false
  | workflow :: rest =>
      if String.eqb (step_codename (wf_archivedStep workflow))
           workflowStepCodename
      then true
      else doesWorkflowStepCodenameRepresentArchivedStep
             workflowStepCodename rest
  end.

Fixpoint doesWorkflowStepCodenameRepresentScheduledStep
  (stepCodename : string) (workflows : list Workflow) : bool :=
  match workflows with
  | [] => false
  | workflow :: rest =>
      if String.eqb (step_codename (wf_scheduledStep workflow)) stepCodename
      then true
      else doesWorkflowStepCodenameRepresentScheduledStep stepCodename rest
  end.

Definition unpublishFailedMessage (error : JsError) : string :=
  "Unpublish failed, but this may be expected behavior as we cannot determine if there is a published version already. Error received: "
    ++ errorMessage error.

Section Service.
Context {S : Type}.
Variable colors : bool.
Variable managementClient : ManagementClient S.

Definition itemName (migrationItem : IMigrationItem) : string :=
  ps_codename (system migrationItem) ++ " ("
    ++ ps_language (system migrationItem) ++ ")".

Definition setWorkflowOfLanguageVariantAsync
  (workflowCodename workflowStepCodename : string)
  (migrationItem : IMigrationItem) (workflows : list Workflow)
  : M S unit :=
  ws <- lift (getWorkflowAndStep colors workflowStepCodename
                workflowCodename workflows) ;;
  let workflow := workflow ws in
  let step := step ws in
  if doesWorkflowStepCodenameRepresentPublishedStep workflowStepCodename
       workflows
  then
    runMapiRequestAsync "publish" "languageVariant"
      (itemName migrationItem)
      (request
         (PublishLanguageVariant (ps_codename (system migrationItem))
            (ps_language (system migrationItem)))
         (publishLanguageVariant managementClient
            (ps_codename (system migrationItem))
            (ps_language (system migrationItem))))
  else if doesWorkflowStepCodenameRepresentScheduledStep
            workflowStepCodename workflows
  then
    log (logEntry "skip"
           ("Skipping scheduled workflow step for item '"
              ++ Chalk.yellow colors (ps_name (system migrationItem))
              ++ "'"))
  else if doesWorkflowStepCodenameRepresentArchivedStep
            workflowStepCodename workflows
  then
    (* unpublish the language variant first if published: there is no
       way to determine if language variant is published via MAPI *)
    tryCatch
      (runMapiRequestAsync "unpublish" "languageVariant"
         (itemName migrationItem)
         (request
            (UnpublishLanguageVariant (ps_codename (system migrationItem))
               (ps_language (system migrationItem)))
            (unpublishLanguageVariant managementClient
               (ps_codename (system migrationItem))
               (ps_language (system migrationItem)))))
      (fun error =>
         if isContentManagementError error then
           log (logEntry "unpublish" (unpublishFailedMessage error))
         else throw error) ;;;
    let data :=
      {| step_identifier := step_codename (wf_archivedStep workflow);
         workflow_identifier := wf_codename workflow |} in
    runMapiRequestAsync "archive" "languageVariant"
      (itemName migrationItem ++ " -> "
         ++ step_codename (wf_archivedStep workflow))
      (request
         (ChangeWorkflowOfLanguageVariant
            (ps_codename (system migrationItem))
            (ps_language (system migrationItem)) data)
         (changeWorkflowOfLanguageVariant managementClient
            (ps_codename (system migrationItem))
            (ps_language (system migrationItem)) data))
  else if String.eqb (wf_codename workflow) workflowStepCodename then
    (* item is already in the target workflow step *)
    ret tt
  else
    let data :=
      {| step_identifier := step_codename step;
         workflow_identifier := wf_codename workflow |} in
    runMapiRequestAsync "changeWorkflowStep" "languageVariant"
      (itemName migrationItem ++ " -> " ++ step_codename step)
      (request
         (ChangeWorkflowOfLanguageVariant
            (ps_codename (system migrationItem))
            (ps_language (system migrationItem)) data)
         (changeWorkflowOfLanguageVariant managementClient
            (ps_codename (system migrationItem))
            (ps_language (system migrationItem)) data)).

End Service.

End ImportWorkflowService.

(** The earlier [ImportWorkflowHelper] resolves the workflow the same
    way. *)
Module ImportWorkflowHelper.
Import Effects Models.

Definition getWorkflowByCodename (colors : bool)
  (workflowCodename : string) (workflows : list Workflow)
  : outcome Workflow :=
  match
    Js.find
      (fun m =>
         String.eqb (Js.toLowerCase (wf_codename m))
           (Js.toLowerCase workflowCodename))
      workflows
  with
  | None =>
      Throw (OtherError
               (ImportWorkflowService.workflowNotFoundMessage colors
                  workflowCodename workflows))
  | Some workflow => Ok workflow
  end.

(** [doesWorkflowStepExist] of the helper: the workflow is resolved
    again (and the resolution may throw), then the step is searched among
    the archived, published and scheduled steps and the regular
    steps. *)
Definition doesWorkflowStepExist (colors : bool)
  (workflowCodename stepCodename : string) (workflows : list Workflow)
  : outcome bool :=
  match getWorkflowByCodename colors workflowCodename workflows with
  | Throw e => Throw e
  | Exit m => Exit m
  | Ok workflow =>
      if String.eqb (step_codename (wf_archivedStep workflow)) stepCodename
      then Ok true
      else if String.eqb (step_codename (wf_publishedStep workflow))
                stepCodename
      then Ok true
      else if String.eqb (step_codename (wf_scheduledStep workflow))
                stepCodename
      then Ok true
      else
        match Js.find (fun m => String.eqb (step_codename m) stepCodename)
                (wf_steps workflow) with
        | Some _ => Ok true
        | None => Ok false
        end
  end.

End ImportWorkflowHelper.

(* ===================================================================== *)
(** * Content item reconciliation ([ImportContentItemHelper]) *)
(* ===================================================================== *)

Module ImportContentItemHelper.
Import Effects Models Mapi.
Local Open Scope mapi_scope.

Record ICategorizedParsedItems : Type := {
  componentItems : list IParsedContentItem;
  regularItems : list IParsedContentItem
}.

Inductive PrepareStatus : Type := created | itemAlreadyExists.

Record PreparedContentItemResult : Type := {
  contentItem : ContentItem;
  status : PrepareStatus
}.

Record Config : Type := { skipFailedItems : bool }.

(** [logAction(action, itemType, { title, codename })] *)
Definition logAction (action itemType title : string)
  (codename : option string) : LogEntry :=
  {| log_type := action; log_message := title;
     log_parts := itemType :: match codename with
                              | Some c => [c]
                              | None => []
                              end |}.

(** Modelled from the spec: [parsedItemsHelper.categorizeParsedItems] is
    defined in a file that is not among the sources.  An incoming item
    "represents an inline component (never created as a standalone
    item)" when it has no workflow step (the migration model: "undefined
    only if migration item represents components in RTE"); the others
    are regular items. *)
Definition categorizeByWorkflowStep (items : list IParsedContentItem)
  : ICategorizedParsedItems :=
  {| componentItems :=
       List.filter
         (fun m => match ps_workflow_step (system m) with
                   | Some _ => false
                   | None => true
                   end) items;
     regularItems :=
       List.filter
         (fun m => match ps_workflow_step (system m) with
                   | Some _ => true
                   | None => false
                   end) items |}.

Section Helper.
Context {S : Type}.
Variable managementClient : ManagementClient S.

(** The helper below works with any categorisation of the parsed
    items. *)
Variable categorizeParsedItems :
  list IParsedContentItem -> ICategorizedParsedItems.

Definition prepareContentItemAsync (parsedContentItem : IParsedContentItem)
  : M S PreparedContentItemResult :=
  tryCatch
    (contentItem <-
       request
         (ViewContentItemByCodename
            (ps_codename (system parsedContentItem)))
         (viewContentItemByCodename managementClient
            (ps_codename (system parsedContentItem))) ;;
     log (logAction "fetch" "contentItem"
            ("Loading item '" ++ ci_name contentItem ++ "'")
            (Some (ci_codename contentItem))) ;;;
     pushImportedContentItem parsedContentItem contentItem ;;;
     ret {| contentItem := contentItem; status := itemAlreadyExists |})
    (fun error =>
       if is404Error error then
         let data :=
           {| add_name := ps_name (system parsedContentItem);
              add_type_codename := ps_type (system parsedContentItem);
              add_codename := ps_codename (system parsedContentItem);
              add_collection_codename :=
                ps_collection (system parsedContentItem) |} in
         contentItem <-
           request (AddContentItem data)
             (addContentItem managementClient data) ;;
         pushImportedContentItem parsedContentItem contentItem ;;;
         log (logAction "create" "contentItem"
                ("Creating item '" ++ ci_name contentItem ++ "'")
                (Some (ci_codename contentItem))) ;;;
         ret {| contentItem := contentItem; status := created |}
       else throw error).

Definition shouldUpdateContentItem (parsedContentItem : IParsedContentItem)
  (contentItem : ContentItem) (collections : list Collection)
  : M S bool :=
  match
    Js.find
      (fun m =>
         String.eqb (collection_codename m)
           (ps_collection (system parsedContentItem)))
      collections
  with
  | None =>
      logErrorAndExit
        ("Invalid collection '"
           ++ ps_collection (system parsedContentItem) ++ "'")
  | Some collection =>
      ret (negb (String.eqb (ps_name (system parsedContentItem))
                   (ci_name contentItem))
           || negb (String.eqb (ps_collection (system parsedContentItem))
                      (collection_codename collection)))
  end.

Definition importContentItemAsync (importContentItem : IParsedContentItem)
  (collections : list Collection) : M S unit :=
  preparedContentItemResult <- prepareContentItemAsync importContentItem ;;
  pushPreparedItem (contentItem preparedContentItemResult) ;;;
  (* check if name should be updated, no other changes are supported *)
  match status preparedContentItemResult with
  | itemAlreadyExists =>
      update <- shouldUpdateContentItem importContentItem
                  (contentItem preparedContentItemResult) collections ;;
      if (update : bool) then
        let data :=
          {| upsert_name := ps_name (system importContentItem);
             upsert_collection_codename :=
               ps_collection (system importContentItem) |} in
        upsertedContentItem <-
          request
            (UpsertContentItemByCodename
               (ps_codename (system importContentItem)) data)
            (upsertContentItem managementClient
               (ps_codename (system importContentItem)) data) ;;
        log (logAction "upsert" "contentItem"
               ("Upserting item '" ++ ci_name upsertedContentItem ++ "'")
               (Some (ps_codename (system importContentItem))))
      else
        log (logAction "skip" "contentItem"
               ("Item '" ++ ps_name (system importContentItem)
                  ++ "' already exists")
               (Some (ps_codename (system importContentItem))))
  | created => ret tt
  end.

(** The body of the [for ... of] loop over the regular items, with
    the running [itemIndex]. *)
Fixpoint importLoop (config : Config) (collections : list Collection)
  (totalCount : nat) (itemIndex : nat) (items : list IParsedContentItem)
  : M S unit :=
  match items with
  | [] => ret tt
  | importContentItem :: rest =>
      let itemIndex := Datatypes.S itemIndex in
      log {| log_type := "contentItem";
             log_message :=
               "'" ++ ps_name (system importContentItem) ++ "' of type '"
                 ++ ps_type (system importContentItem) ++ "'";
             log_parts := [Js.numberToString itemIndex;
                           Js.numberToString totalCount] |} ;;;
      importContentItemAsync importContentItem collections ;;;
      (* the [try] block that follows the call in the source is empty *)
      tryCatch (ret tt)
        (fun error =>
           if skipFailedItems config then
             log {| log_type := "error";
                    log_message := "Failed to import content item";
                    log_parts :=
                      [ps_codename (system importContentItem);
                       errorMessage error] |}
           else throw error) ;;;
      importLoop config collections totalCount itemIndex rest
  end.

Definition importContentItemsAsync
  (parsedContentItems : list IParsedContentItem)
  (collections : list Collection) (config : Config)
  : M S (list ContentItem) :=
  newPreparedItems ;;;
  let categorizedParsedItems := categorizeParsedItems parsedContentItems in
  log (logAction "skip" "contentItem"
         ("Skipping '"
            ++ Js.numberToString
                 (List.length (componentItems categorizedParsedItems))
            ++ "' because they represent component items")
         None) ;;;
  importLoop config collections
    (List.length (regularItems categorizedParsedItems)) 0
    (regularItems categorizedParsedItems) ;;;
  getPreparedItems.

End Helper.

End ImportContentItemHelper.

(* ===================================================================== *)
(** * Asset update decision ([shouldUpdateAsset], [shouldReplaceBinaryFile]) *)
(* ===================================================================== *)

Module AssetUpdate.
Import Effects Models.

(** [Buffer | Blob], reduced to the bytes held. *)
Inductive BinaryData : Type :=
| Blob (content : list Byte.byte)
| Buffer (content : list Byte.byte).

Record MigrationReference : Type := { ref_codename : string }.

Record MigrationAssetDescription : Type := {
  mad_language : MigrationReference;
  mad_description : option string
}.

Record MigrationAsset : Type := {
  ma_zipFilename : string;
  ma_codename : string;
  ma_binaryData : option BinaryData;
  ma_filename : string;
  ma_title : option string;
  ma_collection : option MigrationReference;
  ma_descriptions : option (list MigrationAssetDescription)
}.

(** [geSizeInBytes]: [data.size] of a Blob, [data.byteLength] of a
    Buffer. *)
Definition geSizeInBytes (data : BinaryData) : Z :=
  match data with
  | Blob content => Z.of_nat (List.length content)
  | Buffer content => Z.of_nat (List.length content)
  end.

(** Sequencing of functions that may throw. *)
Definition andThen {A B} (o : outcome A) (k : A -> outcome B) : outcome B :=
  match o with
  | Ok a => k a
  | Throw e => Throw e
  | Exit m => Exit m
  end.

(** Modelled from the spec: [findRequired] is exported by [core/], which
    is not among the sources; it is [find] that throws the given message
    when nothing matches (the spec lists a missing definition among the
    errors that "always propagate"). *)
Definition findRequired {A} (array : list A) (predicate : A -> bool)
  (errorMessage : string) : outcome A :=
  match Js.find predicate array with
  | Some a => Ok a
  | None => Throw (OtherError errorMessage)
  end.

(** [Array.prototype.toSorted()] without a compare function: elements
    are ordered by their [ToString] images, compared by code units, and
    the sort is stable. *)
Section DefaultSort.
Context {A : Type}.
Variable toString : A -> string.

Fixpoint insertSorted (x : A) (sorted : list A) : list A :=
  match sorted with
  | [] => [x]
  | y :: rest =>
      if String.ltb (toString x) (toString y) then x :: y :: rest
      else y :: insertSorted x rest
  end.

Definition toSorted (l : list A) : list A :=
  List.fold_left (fun acc x => insertSorted x acc) l [].
End DefaultSort.

(** [ToString] of a plain object. *)
Definition objectToString {A : Type} (_ : A) : string := "[object Object]".

(** [x?.length ? x : undefined] *)
Definition nonEmptyOrUndefined (x : option string) : option string :=
  match x with
  | Some s => if Nat.eqb (String.length s) 0 then None else Some s
  | None => None
  end.

Definition optionStringEq (a b : option string) : bool :=
  match a, b with
  | Some x, Some y => String.eqb x y
  | None, None => true
  | _, _ => false
  end.

(** [deepEqual] of the [deep-equal] package on two arrays of
    descriptions: same length and, index by index, the same
    [description] and the same [language.codename]. *)
Definition descriptionEqual (a b : MigrationAssetDescription) : bool :=
  optionStringEq (mad_description a) (mad_description b)
  && String.eqb (ref_codename (mad_language a))
       (ref_codename (mad_language b)).

Fixpoint deepEqual (l1 l2 : list MigrationAssetDescription) : bool :=
  match l1, l2 with
  | [], [] => true
  | a :: l1', b :: l2' => descriptionEqual a b && deepEqual l1' l2'
  | _, _ => false
  end.

Definition isBinaryFileIdentical (migrationAsset : MigrationAsset)
  (targetAsset : Asset) : outcome bool :=
  match ma_binaryData migrationAsset with
  | None =>
      (* [geSizeInBytes(undefined)] reads [undefined.byteLength] *)
      Throw (OtherError
               "TypeError: Cannot read properties of undefined (reading 'byteLength')")
  | Some data =>
      let sourceFileSize := geSizeInBytes data in
      let targetFileSize := asset_size targetAsset in
      let sourceFilename := ma_filename migrationAsset in
      let targetFilename := asset_fileName targetAsset in
      Ok (Z.eqb sourceFileSize targetFileSize
          && String.eqb sourceFilename targetFilename)
  end.

Definition isTitleIdentical (migrationAsset : MigrationAsset)
  (targetAsset : Asset) : bool :=
  let sourceTitle := nonEmptyOrUndefined (ma_title migrationAsset) in
  let targetTitle := nonEmptyOrUndefined (asset_title targetAsset) in
  optionStringEq sourceTitle targetTitle.

(** [collections.find((m) => m.id === targetAsset.collection?.reference?.id)?.codename] *)
Definition targetCollectionCodename (targetAsset : Asset)
  (collections : list Collection) : option string :=
  match
    Js.find
      (fun m =>
         match asset_collection_id targetAsset with
         | Some id => String.eqb (collection_id m) id
         | None => false
         end)
      collections
  with
  | Some c => Some (collection_codename c)
  | None => None
  end.

Definition isInSameCollection (migrationAsset : MigrationAsset)
  (targetAsset : Asset) (collections : list Collection) : bool :=
  optionStringEq (targetCollectionCodename targetAsset collections)
    (match ma_collection migrationAsset with
     | Some r => Some (ref_codename r)
     | None => None
     end).

Fixpoint mapTargetDescriptions (languages : list Language)
  (descriptions : list AssetDescription)
  : outcome (list MigrationAssetDescription) :=
  match descriptions with
  | [] => Ok []
  | description :: rest =>
      let languageId := ad_language_id description in
      andThen
        (findRequired languages
           (fun language => String.eqb (language_id language) languageId)
           ("Could not find language with id '" ++ languageId ++ "'"))
        (fun language =>
           andThen (mapTargetDescriptions languages rest)
             (fun rest' =>
                Ok ({| mad_description :=
                         nonEmptyOrUndefined (ad_description description);
                       mad_language :=
                         {| ref_codename := language_codename language |} |}
                      :: rest')))
  end.

Definition mapToMigrationDescriptions (targetAsset : Asset)
  (languages : list Language) : outcome (list MigrationAssetDescription) :=
  mapTargetDescriptions languages (asset_descriptions targetAsset).

Definition sourceDescriptions (migrationAsset : MigrationAsset)
  : list MigrationAssetDescription :=
  List.map
    (fun description =>
       {| mad_description :=
            nonEmptyOrUndefined (mad_description description);
          mad_language :=
            {| ref_codename := ref_codename (mad_language description) |} |})
    (match ma_descriptions migrationAsset with
     | Some l => l
     | None => []
     end).

Definition areDescriptionsIdentical (migrationAsset : MigrationAsset)
  (targetAsset : Asset) (languages : list Language) : outcome bool :=
  let sourceMigrationDescriptions :=
    toSorted objectToString (sourceDescriptions migrationAsset) in
  andThen (mapToMigrationDescriptions targetAsset languages)
    (fun mapped =>
       let targetMigrationDescriptions := toSorted objectToString mapped in
       Ok (deepEqual sourceMigrationDescriptions
             targetMigrationDescriptions)).

Definition shouldUpdateAsset (migrationAsset : MigrationAsset)
  (targetAsset : Asset) (collections : list Collection)
  (languages : list Language) : outcome bool :=
  if negb (isInSameCollection migrationAsset targetAsset collections) then
    Ok true
  else
    andThen (areDescriptionsIdentical migrationAsset targetAsset languages)
      (fun identical =>
         if negb identical then Ok true
         else if negb (isTitleIdentical migrationAsset targetAsset) then
           Ok true
         else
           andThen (isBinaryFileIdentical migrationAsset targetAsset)
             (fun same => if negb same then Ok true else Ok false)).

Definition shouldReplaceBinaryFile (migrationAsset : MigrationAsset)
  (targetAsset : Asset) : outcome bool :=
  andThen (isBinaryFileIdentical migrationAsset targetAsset)
    (fun same => if negb same then Ok true else Ok false).

End AssetUpdate.

(* ===================================================================== *)
(** * Element value transforms ([ElementTranslationHelper]) *)
(* ===================================================================== *)

Module ElementTranslationHelper.

(** The portable value handed to an import transform:
    [string | string[] | undefined]. *)
Inductive ImportValue : Type :=
| Undefined
| Str (s : string)
| Arr (items : list string).

(** [value?.toString()]: [undefined] stays [undefined], a string is
    itself, an array is its elements joined by commas. *)
Definition optionalToString (value : ImportValue) : option string :=
  match value with
  | Undefined => None
  | Str s => Some s
  | Arr items => Some (Js.join "," items)
  end.

(** The value of an element contract sent to the Management API. *)
Inductive ContractValue : Type :=
| Null
| StringValue (s : string).

(** What [elementsBuilder.textElement] / [customElement] return: the
    contract they are given. *)
Record ElementContract : Type := {
  element_codename : string;
  value : ContractValue
}.

Module importTransforms.

Definition custom (elementCodename : string) (value : ImportValue)
  : ElementContract :=
  {| element_codename := elementCodename;
     value := match optionalToString value with
              | Some s => StringValue s
              | None => StringValue ""
              end |}.

Definition text (elementCodename : string) (value : ImportValue)
  : ElementContract :=
  {| element_codename := elementCodename;
     value := match optionalToString value with
              | Some s => StringValue s
              | None => Null
              end |}.

End importTransforms.

Section ComponentId.
(** [validate] of the [uuid] package and the default export of
    [uuid-by-string]: two functions on strings. *)
Variable validate : string -> bool.
Variable uuidByString : string -> string.

Definition convertComponentCodenameToId (codename : string) : string :=
  let uuidCandidate := Js.replaceAllChar "_" "-" codename in
  if negb (validate uuidCandidate) then
    (* generate hash of uuid from the source *)
    uuidByString codename
  else uuidCandidate.
End ComponentId.

End ElementTranslationHelper.

(* ===================================================================== *)
(** * Export context ([ExportContextService]) *)
(* ===================================================================== *)

Module ExportContextService.
Import Effects Models Mapi.
Local Open Scope mapi_scope.

Inductive SourceState : Type := exists_ | doesNotExists.

(** [ItemStateInSourceEnvironmentById] and
    [AssetStateInSourceEnvironmentById] *)
Record ItemStateInSourceEnvironmentById : Type := {
  item_state_id : string;
  item : option ContentItem;
  item_state : SourceState
}.

Record AssetStateInSourceEnvironmentById : Type := {
  asset_state_id : string;
  asset : option Asset;
  asset_state : SourceState
}.

Section Service.
Context {S : Type}.
Variable managementClient : ManagementClient S.

(** Modelled from the spec: [processInChunksAsync] is exported by
    [core/], which is not among the sources.  With [chunkSize: 1]
    the "bounded-concurrency work queue" is "effectively serial":
    the ids are processed one after the other, in input order, and
    the first error that escapes [processAsync] ends the run.  The
    two loops below are [processInChunksAsync] at [chunkSize: 1]
    with the [processAsync] bodies of the source; [contentItems] /
    [assets] is the array the callbacks push to. *)
Fixpoint getContentItemsByIdsLoop (itemIds : list string)
  (contentItems : list ContentItem) : M S (list ContentItem) :=
  match itemIds with
  | [] => ret contentItems
  | id :: rest =>
      contentItems' <-
        tryCatch
          (contentItem <-
             runMapiRequestAsync "view" "contentItem" ("id -> " ++ id)
               (request (ViewContentItemById id)
                  (viewContentItemById managementClient id)) ;;
           ret (contentItems ++ [contentItem])%list)
          (fun error =>
             if negb (is404Error error) then throw error
             else ret contentItems) ;;
      getContentItemsByIdsLoop rest contentItems'
  end.

Definition getContentItemsByIdsAsync (itemIds : list string)
  : M S (list ContentItem) :=
  getContentItemsByIdsLoop itemIds [].

Fixpoint getAssetsByIdsLoop (itemIds : list string)
  (assets : list Asset) : M S (list Asset) :=
  match itemIds with
  | [] => ret assets
  | id :: rest =>
      assets' <-
        tryCatch
          (asset <-
             runMapiRequestAsync "view" "asset" ("id -> " ++ id)
               (request (ViewAssetById id)
                  (viewAssetById managementClient id)) ;;
           ret (assets ++ [asset])%list)
          (fun error =>
             if negb (is404Error error) then throw error
             else ret assets) ;;
      getAssetsByIdsLoop rest assets'
  end.

Definition getAssetsByIdsAsync (itemIds : list string)
  : M S (list Asset) :=
  getAssetsByIdsLoop itemIds [].

(** The [for (const itemId of itemIds)] loop of
    [getItemStatesAsync]. *)
Fixpoint itemStatesOf (items : list ContentItem) (itemIds : list string)
  : list ItemStateInSourceEnvironmentById :=
  match itemIds with
  | [] => []
  | itemId :: rest =>
      match Js.find (fun m => String.eqb (ci_id m) itemId) items with
      | Some found =>
          {| item_state_id := itemId; item := Some found;
             item_state := exists_ |}
      | None =>
          {| item_state_id := itemId; item := None;
             item_state := doesNotExists |}
      end :: itemStatesOf items rest
  end.

Definition getItemStatesAsync (itemIds : list string)
  : M S (list ItemStateInSourceEnvironmentById) :=
  items <- getContentItemsByIdsAsync itemIds ;;
  ret (itemStatesOf items itemIds).

Fixpoint assetStatesOf (assets : list Asset) (assetIds : list string)
  : list AssetStateInSourceEnvironmentById :=
  match assetIds with
  | [] => []
  | assetId :: rest =>
      match Js.find (fun m => String.eqb (asset_id m) assetId) assets with
      | Some found =>
          {| asset_state_id := assetId; asset := Some found;
             asset_state := exists_ |}
      | None =>
          {| asset_state_id := assetId; asset := None;
             asset_state := doesNotExists |}
      end :: assetStatesOf assets rest
  end.

Definition getAssetStatesAsync (assetIds : list string)
  : M S (list AssetStateInSourceEnvironmentById) :=
  assets <- getAssetsByIdsAsync assetIds ;;
  ret (assetStatesOf assets assetIds).

End Service.

(** The two lookup closures of the export context, over the state
    lists they capture. *)
Definition getAssetStateInSourceEnvironment
  (assetStates : list AssetStateInSourceEnvironmentById) (id : string)
  : outcome AssetStateInSourceEnvironmentById :=
  match Js.find (fun m => String.eqb (asset_state_id m) id) assetStates with
  | None =>
      Throw (OtherError
               ("Invalid state for asset '" ++ id
                  ++ "'. It is expected that all asset states will exist"))
  | Some assetSate => Ok assetSate
  end.

Definition getItemStateInSourceEnvironment
  (itemStates : list ItemStateInSourceEnvironmentById) (id : string)
  : outcome ItemStateInSourceEnvironmentById :=
  match Js.find (fun m => String.eqb (item_state_id m) id) itemStates with
  | None =>
      Throw (OtherError
               ("Invalid state for item '" ++ id
                  ++ "'. It is expected that all item states will exist"))
  | Some itemState => Ok itemState
  end.

(** The part of [LanguageVariantModels.ContentItemLanguageVariant] the
    export context reads: [workflow.workflowIdentifier.id] and
    [workflow.stepIdentifier.id], each possibly absent. *)
Record LanguageVariantWorkflow : Type := {
  lv_workflow_id : option string;
  lv_step_id : option string
}.

(** [step.id === variantStepId], the right-hand side possibly
    [undefined]. *)
Definition idIs (id : string) (variantStepId : option string) : bool :=
  match variantStepId with
  | Some v => String.eqb id v
  | None => false
  end.

Fixpoint firstStepWithId (steps : list WorkflowStep)
  (variantStepId : option string) : option string :=
  match steps with
  | [] => None
  | step :: rest =>
      if idIs (step_id step) variantStepId then Some (step_codename step)
      else firstStepWithId rest variantStepId
  end.

Definition getWorkflowStepCodename (workflow : Workflow)
  (languageVariant : LanguageVariantWorkflow) : option string :=
  let variantStepId := lv_step_id languageVariant in
  match firstStepWithId (wf_steps workflow) variantStepId with
  | Some codename => Some codename
  | None =>
      if idIs (step_id (wf_archivedStep workflow)) variantStepId then
        Some (step_codename (wf_archivedStep workflow))
      else if idIs (step_id (wf_scheduledStep workflow)) variantStepId then
        Some (step_codename (wf_scheduledStep workflow))
      else if idIs (step_id (wf_publishedStep workflow)) variantStepId then
        Some (step_codename (wf_publishedStep workflow))
      else None
  end.

End ExportContextService.

(* ===================================================================== *)
(** * Export of assets ([exportManager]) *)
(* ===================================================================== *)

Module ExportManager.
Import Effects Models AssetUpdate.

(** The descriptions of an exported asset: the language of each is
    resolved by id among the languages of the environment (and must be
    found), the text is kept, [null] becoming [undefined]. *)
Fixpoint exportDescriptions (colors : bool) (assetCodename : string)
  (languages : list Language) (descriptions : list AssetDescription)
  : outcome (list MigrationAssetDescription) :=
  match descriptions with
  | [] => Ok []
  | description :: rest =>
      andThen
        (findRequired languages
           (fun language =>
              String.eqb (language_id language) (ad_language_id description))
           ("Could not find language with id '"
              ++ Chalk.red colors (ad_language_id description)
              ++ "' requested by asset '"
              ++ Chalk.red colors assetCodename ++ "'"))
        (fun language =>
           andThen (exportDescriptions colors assetCodename languages rest)
             (fun rest' =>
                Ok ({| mad_description := ad_description description;
                       mad_language :=
                         {| ref_codename := language_codename language |} |}
                      :: rest')))
  end.

(** The body of the [processAsync] callback of
    [getMigrationAssetsWithBinaryDataAsync], after the download:
    [binaryData] is what [getBinaryDataFromUrlAsync] returned for the
    asset.  [_zipFilename] is not set by the export and is left to the
    caller. *)
Definition toMigrationAsset (colors : bool) (zipFilename : string)
  (asset : Asset) (binaryData : BinaryData)
  (collections : list Collection) (languages : list Language)
  : outcome MigrationAsset :=
  let assetCollection :=
    Js.find
      (fun m =>
         match asset_collection_id asset with
         | Some id => String.eqb (collection_id m) id
         | None => false
         end)
      collections in
  andThen
    (exportDescriptions colors (asset_codename asset) languages
       (asset_descriptions asset))
    (fun descriptions =>
       Ok {| ma_zipFilename := zipFilename;
             ma_codename := asset_codename asset;
             ma_binaryData := Some binaryData;
             ma_filename := asset_fileName asset;
             ma_title := Some (match asset_title asset with
                               | Some title => title
                               | None => ""
                               end);
             ma_collection :=
               match assetCollection with
               | Some c => Some {| ref_codename := collection_codename c |}
               | None => None
               end;
             ma_descriptions := Some descriptions |}).

End ExportManager.

(* ===================================================================== *)
(** * Export transforms ([exportTransforms]) *)
(* ===================================================================== *)

Module ExportTransforms.
Import Effects Models AssetUpdate ExportContextService.

(** [SharedModels.ReferenceObject]: every member is optional. *)
Record ReferenceObject : Type := {
  ro_id : option string;
  ro_codename : option string;
  ro_external_id : option string
}.

Section Values.
(** JavaScript numbers are left abstract; a transform only asks whether
    a number is falsy (zero or NaN). *)
Context {Num : Type}.
Variable numberIsFalsy : Num -> bool.

(** [ExportElement.value] *)
Inductive ElementValue : Type :=
| VUndefined
| VNull
| VString (s : string)
| VNumber (n : Num)
| VReferences (references : list ReferenceObject).

(** [!value] *)
Definition isFalsy (value : ElementValue) : bool :=
  match value with
  | VUndefined | VNull => true
  | VString s => Nat.eqb (String.length s) 0
  | VNumber n => numberIsFalsy n
  | VReferences _ => false
  end.

(** [value.map((m) => m.id).filter(isNotUndefined)] *)
Fixpoint definedIds (references : list ReferenceObject) : list string :=
  match references with
  | [] => []
  | r :: rest =>
      match ro_id r with
      | Some id => id :: definedIds rest
      | None => definedIds rest
      end
  end.

(** [ids.map<MigrationReference>(f)] for a callback that may throw. *)
Fixpoint mapThrowing {A B} (f : A -> outcome B) (l : list A)
  : outcome (list B) :=
  match l with
  | [] => Ok []
  | x :: rest =>
      andThen (f x)
        (fun y => andThen (mapThrowing f rest) (fun ys => Ok (y :: ys)))
  end.

Definition modular_content (colors : bool)
  (getItemStateInSourceEnvironment :
     string -> outcome ItemStateInSourceEnvironmentById)
  (value : ElementValue) : outcome (list MigrationReference) :=
  if isFalsy value then Ok []
  else
    match value with
    | VReferences references =>
        (* translate item id to codename *)
        mapThrowing
          (fun id =>
             andThen (getItemStateInSourceEnvironment id)
               (fun itemState =>
                  match item itemState with
                  | Some found =>
                      (* reference item by codename *)
                      Ok {| ref_codename := ci_codename found |}
                  | None =>
                      Throw (OtherError
                               ("Missing item with id '"
                                  ++ Chalk.red colors id ++ "'"))
                  end))
          (definedIds references)
    | _ => Throw (OtherError "Expected value to be an array")
    end.

Definition subpages (colors : bool)
  (getItemStateInSourceEnvironment :
     string -> outcome ItemStateInSourceEnvironmentById)
  (value : ElementValue) : outcome (list MigrationReference) :=
  if isFalsy value then Ok []
  else
    match value with
    | VReferences references =>
        (* translate item id to codename *)
        mapThrowing
          (fun id =>
             andThen (getItemStateInSourceEnvironment id)
               (fun itemState =>
                  match item itemState with
                  | Some found =>
                      Ok {| ref_codename := ci_codename found |}
                  | None =>
                      Throw (OtherError
                               ("Missing item with id '"
                                  ++ Chalk.red colors id ++ "'"))
                  end))
          (definedIds references)
    | _ => Throw (OtherError "Expected value to be an array")
    end.

Definition asset (colors : bool)
  (getAssetStateInSourceEnvironment :
     string -> outcome AssetStateInSourceEnvironmentById)
  (value : ElementValue) : outcome (list MigrationReference) :=
  if isFalsy value then Ok []
  else
    match value with
    | VReferences references =>
        (* translate asset id to codename *)
        mapThrowing
          (fun id =>
             andThen (getAssetStateInSourceEnvironment id)
               (fun assetState =>
                  match ExportContextService.asset assetState with
                  | Some found =>
                      (* reference asset by codename *)
                      Ok {| ref_codename := asset_codename found |}
                  | None =>
                      Throw (OtherError
                               ("Missing asset with id '"
                                  ++ Chalk.red colors id ++ "'"))
                  end))
          (definedIds references)
    | _ => Throw (OtherError "Expected value to be an array")
    end.

(** An option of a multiple choice element
    ([ContentTypeElements.IMultipleChoiceElement.options]). *)
Record MultipleChoiceOption : Type := {
  option_id : string;
  option_name : string;
  option_codename : option string
}.

Definition multiple_choice (colors : bool)
  (options : list MultipleChoiceOption) (value : ElementValue)
  : outcome (list MigrationReference) :=
  if isFalsy value then Ok []
  else
    match value with
    | VReferences references =>
        (* translate multiple choice option id to codename *)
        mapThrowing
          (fun id =>
             andThen
               (findRequired options
                  (fun option => String.eqb (option_id option) id)
                  ("Could not find multiple choice element with option id '"
                     ++ Chalk.red colors id ++ "'"))
               (fun option =>
                  match option_codename option with
                  | Some codename =>
                      if Nat.eqb (String.length codename) 0 then
                        Throw (OtherError
                                 ("Invalid codename for multiple choice option '"
                                    ++ Chalk.red colors (option_name option)
                                    ++ "'"))
                      else Ok {| ref_codename := codename |}
                  | None =>
                      Throw (OtherError
                               ("Invalid codename for multiple choice option '"
                                  ++ Chalk.red colors (option_name option)
                                  ++ "'"))
                  end))
          (definedIds references)
    | _ => Throw (OtherError "Expected value to be an array")
    end.

End Values.

(** [TaxonomyModels.Taxonomy]: a taxonomy group or term with its child
    terms (an absent [terms] is an empty list here: both skip the
    search). *)
#[warnings="-register-all"]
Inductive Taxonomy : Type :=
| mkTaxonomy (id codename : string) (terms : list Taxonomy).

Definition taxonomy_id (t : Taxonomy) : string :=
  match t with mkTaxonomy id _ _ => id end.
Definition taxonomy_codename (t : Taxonomy) : string :=
  match t with mkTaxonomy _ codename _ => codename end.
Definition taxonomy_terms (t : Taxonomy) : list Taxonomy :=
  match t with mkTaxonomy _ _ terms => terms end.

Definition isDefined {A} (o : option A) : bool :=
  match o with Some _ => true | None => false end.

Fixpoint findTaxonomy (termId : string) (taxonomy : Taxonomy)
  : option Taxonomy :=
  match taxonomy with
  | mkTaxonomy id _ terms =>
      if String.eqb id termId then Some taxonomy
      else
        match
          Js.find (fun term => isDefined (findTaxonomy termId term)) terms
        with
        | Some foundTerm => Some foundTerm
        | None => None
        end
  end.

End ExportTransforms.

(* ===================================================================== *)
(** * Flattened content types ([getContentTypeElements]) *)
(* ===================================================================== *)

Module FlattenedContentTypes.
Import Effects.

(** [ContentTypeElements.ContentTypeElementModel]: codename and id may be
    absent; [el_snippet_id] is [snippet.id] of a snippet element. *)
Record ContentTypeElement : Type := {
  el_codename : option string;
  el_id : option string;
  el_type : string;
  el_snippet_id : option string
}.

Record ContentTypeSnippet : Type := {
  snippet_id : string;
  snippet_elements : list ContentTypeElement
}.

Record ContentType : Type := {
  ct_codename : string;
  ct_id : string;
  ct_elements : list ContentTypeElement
}.

Record IFlattenedContentTypeElement : Type := {
  fe_codename : string;
  fe_id : string;
  fe_type : string;
  fe_element : ContentTypeElement
}.

Definition excludedFlattenedElements : list string := ["guidelines"].

Definition excludeElement (element : ContentTypeElement) : bool :=
  List.existsb (String.eqb (el_type element)) excludedFlattenedElements.

(** A string member that is present and not empty, as [!x] tests it. *)
Definition truthy (x : option string) : option string :=
  match x with
  | Some s => if Nat.eqb (String.length s) 0 then None else Some s
  | None => None
  end.

(** The inner loop over the elements of a snippet; [element] is the
    snippet element of the content type that refers to the snippet. *)
Fixpoint snippetElements (element : ContentTypeElement)
  (elements : list ContentTypeElement)
  : list IFlattenedContentTypeElement :=
  match elements with
  | [] => []
  | snippetElement :: rest =>
      match truthy (el_codename snippetElement),
            truthy (el_id snippetElement) with
      | Some codename, Some id =>
          if excludeElement snippetElement then snippetElements element rest
          else
            {| fe_codename := codename;
               fe_type := el_type snippetElement;
               fe_id := id;
               fe_element := element |}
              :: snippetElements element rest
      | _, _ => snippetElements element rest
      end
  end.

Definition snippetNotFoundMessage (colors : bool)
  (contentType : ContentType) : string :=
  "Could not find content type snippet for element. This snippet is referenced in type '"
    ++ Chalk.red colors (ct_codename contentType) ++ "'".

(** The loop over the elements of the content type; [elements] is the
    array built so far. *)
Fixpoint flattenLoop (colors : bool) (contentType : ContentType)
  (contentTypeSnippets : list ContentTypeSnippet)
  (remaining : list ContentTypeElement)
  (elements : list IFlattenedContentTypeElement)
  : outcome (list IFlattenedContentTypeElement) :=
  match remaining with
  | [] => Ok elements
  | element :: rest =>
      match truthy (el_codename element), truthy (el_id element) with
      | Some codename, Some id =>
          if excludeElement element then
            flattenLoop colors contentType contentTypeSnippets rest elements
          else if String.eqb (el_type element) "snippet" then
            (* replace snippet element with actual elements *)
            match
              Js.find
                (fun m =>
                   match el_snippet_id element with
                   | Some sid =>
                       String.eqb (Js.toLowerCase (snippet_id m))
                         (Js.toLowerCase sid)
                   | None => false
                   end)
                contentTypeSnippets
            with
            | None => fatalError (snippetNotFoundMessage colors contentType)
            | Some contentTypeSnippet =>
                flattenLoop colors contentType contentTypeSnippets rest
                  (elements
                     ++ snippetElements element
                          (snippet_elements contentTypeSnippet))%list
            end
          else
            flattenLoop colors contentType contentTypeSnippets rest
              (elements
                 ++ [{| fe_codename := codename; fe_id := id;
                        fe_type := el_type element;
                        fe_element := element |}])%list
      | _, _ =>
          flattenLoop colors contentType contentTypeSnippets rest elements
      end
  end.

Definition getContentTypeElements (colors : bool) (contentType : ContentType)
  (contentTypeSnippets : list ContentTypeSnippet)
  : outcome (list IFlattenedContentTypeElement) :=
  flattenLoop colors contentType contentTypeSnippets
    (ct_elements contentType) [].

End FlattenedContentTypes.

(* ===================================================================== *)
(** * Import adapter ([DefaultImportAdapter.filterDataToImport]) *)
(* ===================================================================== *)

Module DefaultImportAdapter.
Import Effects Mapi.
Local Open Scope mapi_scope.

Section Filter.
Context {S MigrationAsset MigrationItem : Type}.

Record ImportData : Type := {
  assets : list MigrationAsset;
  items : list MigrationItem
}.

(** [config.canImport]: either predicate may be absent. *)
Record CanImport : Type := {
  canImportAsset : option (MigrationAsset -> bool);
  canImportContentItem : option (MigrationItem -> bool)
}.

(** One of the two [for ... of] loops: the entries the predicate accepts
    are pushed to [kept], the others are counted. *)
Fixpoint filterLoop {X} (canImport : X -> bool) (source kept : list X)
  (removed : nat) : list X * nat :=
  match source with
  | [] => (kept, removed)
  | x :: rest =>
      if canImport x then filterLoop canImport rest (kept ++ [x])%list removed
      else filterLoop canImport rest kept (Datatypes.S removed)
  end.

Definition removedMessage (colors : bool) (removed : nat) (what : string)
  : string :=
  "Removed '" ++ Chalk.yellow colors (Js.numberToString removed) ++ "' "
    ++ what ++ " from import".

Definition filterDataToImport (colors : bool) (canImport : CanImport)
  (source : ImportData) : M S ImportData :=
  let filteredAssets :=
    match canImportAsset canImport with
    | Some predicate => filterLoop predicate (assets source) [] 0
    | None => (assets source, 0)
    end in
  let filteredItems :=
    match canImportContentItem canImport with
    | Some predicate => filterLoop predicate (items source) [] 0
    | None => (items source, 0)
    end in
  let removedAssets := snd filteredAssets in
  let removedContentItems := snd filteredItems in
  (if Nat.ltb 0 removedAssets then
     log (logEntry "info" (removedMessage colors removedAssets "assets"))
   else ret tt) ;;;
  (if negb (Nat.eqb removedContentItems 0) then
     log (logEntry "info"
            (removedMessage colors removedContentItems "content items"))
   else ret tt) ;;;
  ret {| assets := fst filteredAssets; items := fst filteredItems |}.

End Filter.

Arguments ImportData : clear implicits.
Arguments CanImport : clear implicits.

End DefaultImportAdapter.

(* ===================================================================== *)
(** * Rich text helpers *)
(* ===================================================================== *)

Module RichText.

(** A JavaScript string as its UTF-16 code units: the class [\s] of a
    regular expression is a set of code units. *)
Definition CodeUnits : Type := list N.

(** [\s]: the white space and line terminator code points of
    ECMAScript. *)
Definition isWhiteSpace (c : N) : bool :=
  List.existsb (N.eqb c)
    [9; 10; 11; 12; 13; 32; 160; 5760; 8232; 8233; 8239; 8287; 12288;
     65279]%N
  || (N.leb 8192 c && N.leb c 8202).

Definition space : N := 32%N.

(** [text.replace(/\s+/g, ' ')]: every maximal run of white space
    becomes one space.  [inRun] tells that the unit before was white
    space. *)
Fixpoint collapseRuns (inRun : bool) (text : CodeUnits) : CodeUnits :=
  match text with
  | [] => []
  | c :: rest =>
      if isWhiteSpace c then
        if inRun then collapseRuns true rest
        else space :: collapseRuns true rest
      else c :: collapseRuns false rest
  end.

Definition replaceMultipleSpacesWithSingleOne (text : CodeUnits)
  : CodeUnits :=
  collapseRuns false text.

End RichText.

(* ===================================================================== *)
(** * Binary data ([getBinaryDataFromUrlAsync]) *)
(* ===================================================================== *)

Module BinaryDataUtils.
Import Effects.

(** [url.replace('#', '%23')]: a string pattern replaces the first
    occurrence only. *)
Fixpoint replaceFirstHash (url : string) : string :=
  match url with
  | EmptyString => EmptyString
  | String c rest =>
      if Ascii.eqb c "#" then "%23" ++ rest
      else String c (replaceFirstHash rest)
  end.

Record Header : Type := { header : string; value : string }.

Section Http.
(** The HTTP service and the conversion [+value] of a header value to a
    number are taken as given. *)
Context {Data Num : Type}.
Variable getAsync : string -> outcome (Data * list Header).
Variable toNumber : string -> Num.
Variable zero : Num.

Definition getBinaryDataFromUrlAsync (url : string) : outcome (Data * Num) :=
  (* temp fix for Kontent.ai Repository not validating url *)
  let url := replaceFirstHash url in
  match getAsync url with
  | Ok (data, headers) =>
      let contentLengthHeader :=
        Js.find
          (fun m => String.eqb (Js.toLowerCase (header m)) "content-length")
          headers in
      let contentLength :=
        match contentLengthHeader with
        | Some h => toNumber (value h)
        | None => zero
        end in
      Ok (data, contentLength)
  | Throw e => Throw e
  | Exit m => Exit m
  end.

End Http.

End BinaryDataUtils.

(* ===================================================================== *)
(** * Item format services ([BaseItemProcessorService]) *)
(* ===================================================================== *)

Module BaseItemProcessorService.
Import Effects.

Record IImportContentTypeElement : Type := {
  codename : string;
  type : string
}.

Record IImportContentType : Type := {
  contentTypeCodename : string;
  elements : list IImportContentTypeElement
}.

Definition getSystemContentItemFields : list string :=
  ["type"; "codename"; "name"; "language"; "collection"; "last_modified";
   "workflow_step"].

Definition getElement (types : list IImportContentType)
  (contentItemType elementCodename : string)
  : outcome IImportContentTypeElement :=
  match
    Js.find
      (fun m =>
         String.eqb (Js.toLowerCase (contentTypeCodename m))
           (Js.toLowerCase contentItemType))
      types
  with
  | None =>
      fatalError ("Could not find content type '" ++ contentItemType ++ "'")
  | Some foundType =>
      match
        Js.find
          (fun m =>
             String.eqb (Js.toLowerCase (codename m))
               (Js.toLowerCase elementCodename))
          (elements foundType)
      with
      | None =>
          fatalError
            ("Could not find element with codename '" ++ elementCodename
               ++ "' for type '" ++ contentTypeCodename foundType ++ "'")
      | Some element => Ok element
      end
  end.

End BaseItemProcessorService.

(* ===================================================================== *)
(** * Asset element on import ([importTransforms.asset]) *)
(* ===================================================================== *)

Module ImportAssetTransform.
Import Effects Mapi.
Local Open Scope mapi_scope.

(** An entry of [importContext.importedAssets], with what the transform
    reads: [original.codename] and [imported.id]. *)
Record ImportedAsset : Type := {
  original_codename : option string;
  imported_id : string
}.

(** The contract [elementsBuilder.assetElement] returns: the element
    codename and the references, each by id. *)
Record AssetElementContract : Type := {
  asset_element_codename : string;
  asset_references : list string
}.

Definition isImportedAs (assetCodename : string) (s : ImportedAsset) : bool :=
  match original_codename s with
  | Some codename =>
      String.eqb (Js.toLowerCase codename) (Js.toLowerCase assetCodename)
  | None => false
  end.

Definition missingAssetWarning (colors : bool) (assetCodename : string)
  : LogEntry :=
  logEntry "warning"
    ("Could not find imported asset with codename '"
       ++ Chalk.red colors assetCodename ++ "'. Skipping asset.").

Section Transform.
Context {S : Type}.

(** The loop over [parseArrayValue(data.value)]; [assetReferences] is
    the array built so far. *)
Fixpoint assetLoop (colors : bool) (importedAssets : list ImportedAsset)
  (assetCodenames : list string) (assetReferences : list string)
  : M S (list string) :=
  match assetCodenames with
  | [] => ret assetReferences
  | assetCodename :: rest =>
      (* find imported asset *)
      match Js.find (isImportedAs assetCodename) importedAssets with
      | None =>
          log (missingAssetWarning colors assetCodename) ;;;
          assetLoop colors importedAssets rest assetReferences
      | Some importedAsset =>
          assetLoop colors importedAssets rest
            (assetReferences ++ [imported_id importedAsset])%list
      end
  end.

(** [assetCodenames] is [parseArrayValue(data.value)], which is defined
    in [core/]. *)
Definition asset (colors : bool) (elementCodename : string)
  (importedAssets : list ImportedAsset) (assetCodenames : list string)
  : M S AssetElementContract :=
  assetReferences <- assetLoop colors importedAssets assetCodenames [] ;;
  ret {| asset_element_codename := elementCodename;
         asset_references := assetReferences |}.

End Transform.

End ImportAssetTransform.

(* ===================================================================== *)
(** * A reference environment *)
(* ===================================================================== *)

(** A small in-memory environment behind the client, used to run the
    helpers on concrete inputs: content items and assets it holds, the
    workflow step of each language variant, the variants that have a
    published version, and the codenames for which it answers with a
    server error. *)
Module InMemoryEnvironment.
Import Effects Models Mapi.

Record Env : Type := {
  env_items : list ContentItem;
  env_assets : list Asset;
  env_variantSteps : list (string * string * string);
  env_published : list (string * string);
  env_unavailable : list string
}.

Definition notFound : JsError :=
  ContentManagementBaseKontentError 404 "The requested resource was not found".
Definition serverError : JsError :=
  ContentManagementBaseKontentError 500 "Internal server error".
Definition notPublished : JsError :=
  ContentManagementBaseKontentError 400
    "The variant does not have a published version".

Definition mem (x : string) (l : list string) : bool :=
  List.existsb (String.eqb x) l.

Definition isVariant (item language : string) (v : string * string) : bool :=
  String.eqb (fst v) item && String.eqb (snd v) language.

Definition setStep (item language step : string) (e : Env) : Env :=
  {| env_items := env_items e; env_assets := env_assets e;
     env_variantSteps :=
       (item, language, step)
         :: List.filter
              (fun v => negb (isVariant item language (fst v)))
              (env_variantSteps e);
     env_published := env_published e;
     env_unavailable := env_unavailable e |}.

Definition setPublished (published : list (string * string)) (e : Env)
  : Env :=
  {| env_items := env_items e; env_assets := env_assets e;
     env_variantSteps := env_variantSteps e;
     env_published := published;
     env_unavailable := env_unavailable e |}.

Definition setItems (items : list ContentItem) (e : Env) : Env :=
  {| env_items := items; env_assets := env_assets e;
     env_variantSteps := env_variantSteps e;
     env_published := env_published e;
     env_unavailable := env_unavailable e |}.

Definition client : ManagementClient Env :=
  {| viewContentItemByCodename := fun codename e =>
       if mem codename (env_unavailable e) then (Failure serverError, e)
       else
         match List.find (fun i => String.eqb (ci_codename i) codename)
                 (env_items e) with
         | Some i => (Success i, e)
         | None => (Failure notFound, e)
         end;
     viewContentItemById := fun id e =>
       if mem id (env_unavailable e) then (Failure serverError, e)
       else
         match List.find (fun i => String.eqb (ci_id i) id) (env_items e) with
         | Some i => (Success i, e)
         | None => (Failure notFound, e)
         end;
     viewAssetById := fun id e =>
       if mem id (env_unavailable e) then (Failure serverError, e)
       else
         match List.find (fun a => String.eqb (asset_id a) id)
                 (env_assets e) with
         | Some a => (Success a, e)
         | None => (Failure notFound, e)
         end;
     addContentItem := fun data e =>
       let created :=
         {| ci_id := "id-" ++ add_codename data;
            ci_name := add_name data;
            ci_codename := add_codename data;
            ci_type_id := "type-" ++ add_type_codename data;
            ci_collection_id :=
              "collection-" ++ add_collection_codename data |} in
       (Success created, setItems (env_items e ++ [created])%list e);
     upsertContentItem := fun codename data e =>
       match List.find (fun i => String.eqb (ci_codename i) codename)
               (env_items e) with
       | Some i =>
           let updated :=
             {| ci_id := ci_id i; ci_name := upsert_name data;
                ci_codename := ci_codename i; ci_type_id := ci_type_id i;
                ci_collection_id :=
                  "collection-" ++ upsert_collection_codename data |} in
           (Success updated,
            setItems
              (List.map
                 (fun j =>
                    if String.eqb (ci_codename j) codename then updated
                    else j)
                 (env_items e)) e)
       | None => (Failure notFound, e)
       end;
     publishLanguageVariant := fun item language e =>
       (Success tt,
        setStep item language "published"
          (setPublished ((item, language) :: env_published e) e));
     unpublishLanguageVariant := fun item language e =>
       if List.existsb (isVariant item language) (env_published e) then
         (Success tt,
          setPublished
            (List.filter (fun v => negb (isVariant item language v))
               (env_published e)) e)
       else (Failure notPublished, e);
     changeWorkflowOfLanguageVariant := fun item language data e =>
       (Success tt, setStep item language (step_identifier data) e) |}.

Definition start (e : Env) : World Env :=
  {| server := e; calls := []; logs := [];
     importedContentItems := []; preparedItems := [] |}.

Definition emptyEnv : Env :=
  {| env_items := []; env_assets := []; env_variantSteps := [];
     env_published := []; env_unavailable := [] |}.

(** A workflow with the steps draft and review besides the three
    structural ones. *)
Definition defaultWorkflow : Workflow :=
  {| wf_codename := "default"; wf_id := "wf-default";
     wf_steps := [ {| step_codename := "draft"; step_id := "s-draft" |};
                   {| step_codename := "review"; step_id := "s-review" |} ];
     wf_publishedStep :=
       {| step_codename := "published"; step_id := "s-published" |};
     wf_scheduledStep :=
       {| step_codename := "scheduled"; step_id := "s-scheduled" |};
     wf_archivedStep :=
       {| step_codename := "archived"; step_id := "s-archived" |} |}.

Definition article : IParsedContentItem :=
  {| system := {| ps_codename := "article"; ps_name := "Article";
                  ps_language := "en"; ps_type := "post";
                  ps_collection := "default";
                  ps_workflow_step := Some "draft" |} |}.

Definition page : IParsedContentItem :=
  {| system := {| ps_codename := "page"; ps_name := "Page";
                  ps_language := "en"; ps_type := "page";
                  ps_collection := "default";
                  ps_workflow_step := Some "draft" |} |}.

(** The variant "article (en)" is in the step draft of the workflow
    "default". *)
Definition articleInDraft : Env := setStep "article" "en" "draft" emptyEnv.

(** The item "article" exists, named "Article", in the collection
    "default"; the environment also has the collection "news". *)
Definition existingArticle : ContentItem :=
  {| ci_id := "id-article"; ci_name := "Article";
     ci_codename := "article"; ci_type_id := "type-post";
     ci_collection_id := "collection-default" |}.

Definition withArticle : Env := setItems [existingArticle] emptyEnv.

Definition twoCollections : list Collection :=
  [ {| collection_id := "collection-default";
       collection_codename := "default" |};
    {| collection_id := "collection-news";
       collection_codename := "news" |} ].

(** The incoming "article" with the same name, moved to "news". *)
Definition articleInNews : IParsedContentItem :=
  {| system := {| ps_codename := "article"; ps_name := "Article";
                  ps_language := "en"; ps_type := "post";
                  ps_collection := "news";
                  ps_workflow_step := Some "draft" |} |}.

(** The environment answers requests about "article" with a server
    error. *)
Definition articleUnavailable : Env :=
  {| env_items := []; env_assets := []; env_variantSteps := [];
     env_published := []; env_unavailable := ["article"] |}.

(** An asset with an English and a Czech description; the environment
    lists the same two descriptions in the other order. *)
Definition twoLanguages : list Language :=
  [ {| language_id := "lang-en"; language_codename := "en" |};
    {| language_id := "lang-cs"; language_codename := "cs" |} ].

Definition photoBytes : list Byte.byte := [Byte.x89; Byte.x50; Byte.x4e].

Definition photo : AssetUpdate.MigrationAsset :=
  {| AssetUpdate.ma_zipFilename := "photo.png";
     AssetUpdate.ma_codename := "photo";
     AssetUpdate.ma_binaryData := Some (AssetUpdate.Buffer photoBytes);
     AssetUpdate.ma_filename := "photo.png";
     AssetUpdate.ma_title := Some "Photo";
     AssetUpdate.ma_collection :=
       Some {| AssetUpdate.ref_codename := "default" |};
     AssetUpdate.ma_descriptions :=
       Some
         [ {| AssetUpdate.mad_language :=
                {| AssetUpdate.ref_codename := "en" |};
              AssetUpdate.mad_description := Some "A photo" |};
           {| AssetUpdate.mad_language :=
                {| AssetUpdate.ref_codename := "cs" |};
              AssetUpdate.mad_description := Some "Fotka" |} ] |}.

Definition photoInTarget : Asset :=
  {| asset_id := "id-photo"; asset_codename := "photo";
     asset_fileName := "photo.png"; asset_title := Some "Photo";
     asset_size := 3;
     asset_collection_id := Some "collection-default";
     asset_descriptions :=
       [ {| ad_language_id := "lang-cs"; ad_description := Some "Fotka" |};
         {| ad_language_id := "lang-en";
            ad_description := Some "A photo" |} ] |}.

(** The same asset in the environment with the descriptions in the order
    of the source. *)
Definition photoInTargetSameOrder : Asset :=
  {| asset_id := "id-photo"; asset_codename := "photo";
     asset_fileName := "photo.png"; asset_title := Some "Photo";
     asset_size := 3;
     asset_collection_id := Some "collection-default";
     asset_descriptions :=
       [ {| ad_language_id := "lang-en"; ad_description := Some "A photo" |};
         {| ad_language_id := "lang-cs";
            ad_description := Some "Fotka" |} ] |}.

(** The pattern [validate] of the [uuid] package accepts: five groups of
    8, 4, 4, 4 and 12 hexadecimal digits separated by dashes, the third
    starting with a version digit 1-8 and the fourth with 8, 9, a or b,
    in either case; or the nil or the max UUID. *)
Definition isHexDigit (c : ascii) : bool :=
  let n := nat_of_ascii (Js.lowerAscii c) in
  (Nat.leb 48 n && Nat.leb n 57) || (Nat.leb 97 n && Nat.leb n 102).

Fixpoint allHexDigits (s : string) : bool :=
  match s with
  | EmptyString => true
  | String c s' => isHexDigit c && allHexDigits s'
  end.

Definition startsWithOneOf (chars : string) (s : string) : bool :=
  match s with
  | EmptyString => false
  | String c _ => Js.isInfix (String (Js.lowerAscii c) "") chars
  end.

Definition uuidValidate (s : string) : bool :=
  let group from len := String.substring from len s in
  let dashAt n := String.eqb (String.substring n 1 s) "-" in
  (Nat.eqb (String.length s) 36
   && allHexDigits (group 0 8) && dashAt 8
   && allHexDigits (group 9 4) && dashAt 13
   && allHexDigits (group 14 4) && startsWithOneOf "12345678" (group 14 4)
   && dashAt 18
   && allHexDigits (group 19 4) && startsWithOneOf "89ab" (group 19 4)
   && dashAt 23
   && allHexDigits (group 24 12))
  || String.eqb s "00000000-0000-0000-0000-000000000000"
  || String.eqb (Js.toLowerCase s) "ffffffff-ffff-ffff-ffff-ffffffffffff".

(** A stand-in for the hash of [uuid-by-string], which derives the
    identifier from the string alone. *)
Definition taggedHash (s : string) : string := "uuid-by-string:" ++ s.

(** The incoming "article" renamed to "Article (new)", still in the
    collection "default"; and the incoming "article" in a collection the
    environment does not have. *)
Definition articleRenamed : IParsedContentItem :=
  {| system := {| ps_codename := "article"; ps_name := "Article (new)";
                  ps_language := "en"; ps_type := "post";
                  ps_collection := "default";
                  ps_workflow_step := Some "draft" |} |}.

Definition articleInUnknownCollection : IParsedContentItem :=
  {| system := {| ps_codename := "article"; ps_name := "Article";
                  ps_language := "en"; ps_type := "post";
                  ps_collection := "press";
                  ps_workflow_step := Some "draft" |} |}.

(** A component: a parsed item without a workflow step. *)
Definition heroComponent : IParsedContentItem :=
  {| system := {| ps_codename := "hero"; ps_name := "Hero";
                  ps_language := "en"; ps_type := "hero";
                  ps_collection := "default";
                  ps_workflow_step := None |} |}.

(** A taxonomy group with a term that has a child term. *)
Definition topics : ExportTransforms.Taxonomy :=
  ExportTransforms.mkTaxonomy "t-topics" "topics"
    [ ExportTransforms.mkTaxonomy "t-sport" "sport"
        [ ExportTransforms.mkTaxonomy "t-football" "football" [] ];
      ExportTransforms.mkTaxonomy "t-culture" "culture" [] ].

End InMemoryEnvironment.

(* ===================================================================== *)
(** * Vocabulary of the properties *)
(* ===================================================================== *)

Module Vocabulary.
Import Effects Models Mapi.

(** An error message names a codename when the codename occurs in it. *)
Definition names (message codename : string) : Prop :=
  Js.contains codename message.

(** It enumerates a set of codenames when it names each of them. *)
Definition enumerates (message : string) (codenames : list string) : Prop :=
  List.Forall (names message) codenames.

(** No workflow of the list has the codename (workflow codenames are
    compared case-insensitively). *)
Definition workflowAbsent (workflowCodename : string)
  (workflows : list Workflow) : Prop :=
  forall w, In w workflows ->
    Js.toLowerCase (wf_codename w) <> Js.toLowerCase workflowCodename.

(** The step codenames a workflow accepts. *)
Definition validStepCodenames (workflow : Workflow) : list string :=
  step_codename (wf_archivedStep workflow)
    :: step_codename (wf_publishedStep workflow)
    :: step_codename (wf_scheduledStep workflow)
    :: List.map step_codename (wf_steps workflow).

(** The codename of the collection an item of the environment lies in:
    the item refers to its collection by id. *)
Definition collectionCodenameOf (existing : ContentItem)
  (collections : list Collection) : option string :=
  match
    Js.find
      (fun m => String.eqb (collection_id m) (ci_collection_id existing))
      collections
  with
  | Some c => Some (collection_codename c)
  | None => None
  end.

(** The archived step of a workflow is not taken for a published or a
    scheduled step: no workflow of the list uses the codename of an
    archived step for its published or its scheduled step. *)
Definition archivedStepsDistinguished (workflows : list Workflow) : bool :=
  List.forallb
    (fun a =>
       List.forallb
         (fun b =>
            negb (String.eqb (step_codename (wf_publishedStep b))
                    (step_codename (wf_archivedStep a)))
            && negb (String.eqb (step_codename (wf_scheduledStep b))
                       (step_codename (wf_archivedStep a))))
         workflows)
    workflows.

(** Requests sent by a run: those of the final world that the initial
    world did not have. *)
Definition sent {S} (before after : World S) (requests : list ApiCall)
  : Prop :=
  calls after = (calls before ++ requests)%list.

Definition count (p : ApiCall -> bool) (requests : list ApiCall) : nat :=
  List.length (List.filter p requests).

(** The description an asset holds for a language, after the
    normalisation that treats an empty description as none. *)
Definition descriptionFor (language : string)
  (descriptions : list AssetUpdate.MigrationAssetDescription)
  : option string :=
  match
    Js.find
      (fun d =>
         String.eqb
           (AssetUpdate.ref_codename (AssetUpdate.mad_language d)) language)
      descriptions
  with
  | Some d => AssetUpdate.nonEmptyOrUndefined (AssetUpdate.mad_description d)
  | None => None
  end.

(** Source and target agree on the per-language descriptions. *)
Definition sameDescriptionsPerLanguage
  (source target : list AssetUpdate.MigrationAssetDescription) : Prop :=
  forall language,
    descriptionFor language source = descriptionFor language target.

(** A state entry is well formed when it is either ['exists'] with the
    entity of that id, or ['doesNotExists'] without an entity. *)
Definition itemStateWellFormed
  (st : ExportContextService.ItemStateInSourceEnvironmentById) : Prop :=
  match ExportContextService.item st with
  | Some found =>
      ExportContextService.item_state st = ExportContextService.exists_
      /\ ci_id found = ExportContextService.item_state_id st
  | None =>
      ExportContextService.item_state st = ExportContextService.doesNotExists
  end.

Definition assetStateWellFormed
  (st : ExportContextService.AssetStateInSourceEnvironmentById) : Prop :=
  match ExportContextService.asset st with
  | Some found =>
      ExportContextService.asset_state st = ExportContextService.exists_
      /\ asset_id found = ExportContextService.asset_state_id st
  | None =>
      ExportContextService.asset_state st = ExportContextService.doesNotExists
  end.

(** The answers of the environment to the views of [ids], asked in
    this order from the environment [s]: each id with the answer to its
    view, every view asked of the environment the view before left. *)
Fixpoint answersOf {S A} (view : string -> S -> response A * S)
  (ids : list string) (s : S) : list (string * response A) :=
  match ids with
  | [] => []
  | id :: rest =>
      (id, fst (view id s)) :: answersOf view rest (snd (view id s))
  end.

(** The entities the environment returned, in the order of its
    answers. *)
Fixpoint returnedBy {A} (answers : list (string * response A)) : list A :=
  match answers with
  | [] => []
  | (_, Success data) :: rest => data :: returnedBy rest
  | (_, Failure _) :: rest => returnedBy rest
  end.

(** The environment returned the entity or answered 404. *)
Definition foundOr404 {A} (answer : string * response A) : Prop :=
  match snd answer with
  | Success _ => True
  | Failure error => is404Error error = true
  end.

(** The call does not return: it ends with the fatal error [message],
    be it as the end of the process or as a thrown [Error] with that
    message. *)
Definition failsWith {A} (r : outcome A) (message : string) : Prop :=
  r = Exit message \/ r = Throw (OtherError message).

(** All the steps of a workflow, in the order the export context
    searches them. *)
Definition allSteps (workflow : Workflow) : list WorkflowStep :=
  (wf_steps workflow
     ++ [wf_archivedStep workflow; wf_scheduledStep workflow;
         wf_publishedStep workflow])%list.

(** The codename of the content item a request is about. *)
Definition requestCodename (c : ApiCall) : option string :=
  match c with
  | ViewContentItemByCodename codename => Some codename
  | AddContentItem data => Some (add_codename data)
  | UpsertContentItemByCodename codename _ => Some codename
  | _ => None
  end.

(** The world after one logged request: the request and the log entry
    are appended and the environment is the one the request left. *)
Definition viewed {S} (w : World S) (c : ApiCall) (entry : LogEntry)
  (s1 : S) : World S :=
  {| server := s1; calls := (calls w ++ [c])%list;
     logs := (logs w ++ [entry])%list;
     importedContentItems := importedContentItems w;
     preparedItems := preparedItems w |}.

(** The requests of a fetch loop against the [answers] of the
    environment.  The loop returns when every answer is an entity or a
    404, and then it has sent one view per id, in order: a 404 does not
    stop it.  It throws when some answer is another error: the views up
    to and including the first such id were sent, the answers before it
    were entities or 404s, and the error thrown is that answer. *)
Definition requestsOfFetch {A B} (view : string -> ApiCall)
  (ids : list string) (answers : list (string * response B))
  (r : outcome A) (requests : list ApiCall) : Prop :=
  match r with
  | Ok _ =>
      requests = List.map view ids /\ List.Forall foundOr404 answers
  | Throw error =>
      exists before id after,
        ids = (before ++ id :: after)%list
        /\ requests = List.map view (before ++ [id])%list
        /\ List.Forall foundOr404 (List.firstn (List.length before) answers)
        /\ List.nth_error answers (List.length before)
           = Some (id, Failure error)
        /\ is404Error error = false
  | Exit _ => False
  end.

(** A migration asset with empty texts written as absent ones: the
    title and every description. *)
Definition withoutEmptyTexts (m : AssetUpdate.MigrationAsset)
  : AssetUpdate.MigrationAsset :=
  {| AssetUpdate.ma_zipFilename := AssetUpdate.ma_zipFilename m;
     AssetUpdate.ma_codename := AssetUpdate.ma_codename m;
     AssetUpdate.ma_binaryData := AssetUpdate.ma_binaryData m;
     AssetUpdate.ma_filename := AssetUpdate.ma_filename m;
     AssetUpdate.ma_title :=
       AssetUpdate.nonEmptyOrUndefined (AssetUpdate.ma_title m);
     AssetUpdate.ma_collection := AssetUpdate.ma_collection m;
     AssetUpdate.ma_descriptions :=
       Some (AssetUpdate.sourceDescriptions m) |}.

(** The id occurs in the taxonomy: it is the id of the taxonomy itself
    or occurs in one of its terms. *)
Fixpoint occursIn (termId : string) (taxonomy : ExportTransforms.Taxonomy)
  : bool :=
  match taxonomy with
  | ExportTransforms.mkTaxonomy id _ terms =>
      String.eqb id termId || List.existsb (occursIn termId) terms
  end.

(** What a content type element that is not a snippet contributes to the
    flattened type: itself when it has a codename and an id and is not
    excluded, nothing otherwise. *)
Definition plainFlattened (element : FlattenedContentTypes.ContentTypeElement)
  : list FlattenedContentTypes.IFlattenedContentTypeElement :=
  match FlattenedContentTypes.truthy
          (FlattenedContentTypes.el_codename element),
        FlattenedContentTypes.truthy (FlattenedContentTypes.el_id element)
  with
  | Some codename, Some id =>
      if FlattenedContentTypes.excludeElement element then []
      else
        [{| FlattenedContentTypes.fe_codename := codename;
            FlattenedContentTypes.fe_id := id;
            FlattenedContentTypes.fe_type :=
              FlattenedContentTypes.el_type element;
            FlattenedContentTypes.fe_element := element |}]
  | _, _ => []
  end.

Definition flattenedWellFormed
  (f : FlattenedContentTypes.IFlattenedContentTypeElement) : Prop :=
  FlattenedContentTypes.fe_type f <> "guidelines"
  /\ FlattenedContentTypes.fe_codename f <> ""
  /\ FlattenedContentTypes.fe_id f <> "".

(** Two neighbouring code units are both white space. *)
Fixpoint hasAdjacentWhiteSpace (text : RichText.CodeUnits) : bool :=
  match text with
  | [] => false
  | c :: rest =>
      match rest with
      | [] => false
      | d :: _ =>
          (RichText.isWhiteSpace c && RichText.isWhiteSpace d)
          || hasAdjacentWhiteSpace rest
      end
  end.

(** The code units that are not white space, in order. *)
Definition visibleUnits (text : RichText.CodeUnits) : RichText.CodeUnits :=
  List.filter (fun c => negb (RichText.isWhiteSpace c)) text.

(** The string has a '#'. *)
Fixpoint hasHash (s : string) : bool :=
  match s with
  | EmptyString => false
  | String c rest => Ascii.eqb c "#" || hasHash rest
  end.

End Vocabulary.

(* ===================================================================== *)
(** * Properties *)
(* ===================================================================== *)

(** ** Facts about the string helpers *)

Module JsFacts.
Import Js.

Lemma append_assoc (a b c : string) : (a ++ b) ++ c = a ++ (b ++ c).
Proof.
  induction a as [|x a IH]; simpl; [reflexivity | now rewrite IH].
Qed.

Lemma append_empty_r (a : string) : a ++ "" = a.
Proof.
  induction a as [|x a IH]; simpl; [reflexivity | now rewrite IH].
Qed.

Lemma contains_refl (s : string) : contains s s.
Proof. exists "", "". simpl. now rewrite append_empty_r. Qed.

Lemma contains_app_l (n a b : string) : contains n a -> contains n (a ++ b).
Proof.
  intros (pre & post & ->). exists pre, (post ++ b).
  now rewrite !append_assoc.
Qed.

Lemma contains_app_r (n a b : string) : contains n b -> contains n (a ++ b).
Proof.
  intros (pre & post & ->). exists (a ++ pre), post.
  now rewrite !append_assoc.
Qed.

Lemma contains_trans (a b c : string) :
  contains a b -> contains b c -> contains a c.
Proof.
  intros (p1 & q1 & ->) (p2 & q2 & ->).
  exists (p2 ++ p1), (q1 ++ q2). now rewrite !append_assoc.
Qed.

Lemma contains_join (sep x : string) (l : list string) :
  In x l -> contains x (join sep l).
Proof.
  induction l as [|y l IH]; intros Hin; [contradiction|].
  destruct Hin as [-> | Hin].
  - destruct l as [|z l]; simpl.
    + apply contains_refl.
    + apply contains_app_l, contains_refl.
  - destruct l as [|z l]; [contradiction|].
    change (join sep (y :: z :: l)) with (y ++ sep ++ join sep (z :: l)).
    now apply contains_app_r, contains_app_r, IH.
Qed.

Lemma contains_paint (enabled : bool) (code s : string) :
  contains s (Chalk.paint enabled code s).
Proof.
  unfold Chalk.paint. destruct enabled; [|apply contains_refl].
  apply contains_app_r, contains_app_r, contains_app_r, contains_app_l,
    contains_refl.
Qed.

Lemma isPrefix_app (n post : string) : isPrefix n (n ++ post) = true.
Proof.
  induction n as [|c n IH]; simpl; [reflexivity|].
  now rewrite Ascii.eqb_refl, IH.
Qed.

Lemma isInfix_complete (n h : string) : contains n h -> isInfix n h = true.
Proof.
  intros (pre & post & ->). induction pre as [|c pre IH].
  - simpl. destruct (n ++ post) eqn:E; simpl;
      rewrite <- E, isPrefix_app; reflexivity.
  - simpl. rewrite IH. apply orb_true_r.
Qed.

Lemma not_contains (n h : string) : isInfix n h = false -> ~ contains n h.
Proof.
  intros Hf Hc. apply isInfix_complete in Hc. congruence.
Qed.

Lemma find_none_iff {A} (p : A -> bool) (l : list A) :
  find p l = None <-> forall x, In x l -> p x = false.
Proof.
  unfold find. split.
  - apply List.find_none.
  - induction l as [|a l IH]; intros H; simpl; [reflexivity|].
    rewrite (H a (or_introl eq_refl)). apply IH.
    intros x Hx. apply H. now right.
Qed.

End JsFacts.

(** ** Workflow State Transition Engine *)

Module WorkflowProperties.
Import Effects Models Mapi Vocabulary ImportWorkflowService.
Import InMemoryEnvironment.

Lemma getWorkflowStep_none (wf : Workflow) (sc : string) :
  getWorkflowStep wf sc = None <-> ~ In sc (validStepCodenames wf).
Proof.
  unfold getWorkflowStep, validStepCodenames.
  destruct (String.eqb_spec (step_codename (wf_archivedStep wf)) sc) as [E1|N1].
  { split; [discriminate | intros H; exfalso; apply H; now left]. }
  destruct (String.eqb_spec (step_codename (wf_publishedStep wf)) sc) as [E2|N2].
  { split; [discriminate | intros H; exfalso; apply H; right; now left]. }
  destruct (String.eqb_spec (step_codename (wf_scheduledStep wf)) sc) as [E3|N3].
  { split; [discriminate | intros H; exfalso; apply H; right; right; now left]. }
  destruct (Js.find _ (wf_steps wf)) as [st|] eqn:F.
  - split; [discriminate|]. intros H. exfalso. apply H.
    apply List.find_some in F. destruct F as [Hin Heq].
    apply String.eqb_eq in Heq. subst sc.
    do 3 right. now apply List.in_map.
  - split; [|reflexivity]. intros _ Hin.
    destruct Hin as [?|[?|[?|Hin]]]; try contradiction.
    apply List.in_map_iff in Hin. destruct Hin as (st & <- & Hst).
    apply (List.find_none _ _ F) in Hst.
    now rewrite String.eqb_refl in Hst.
Qed.

Lemma workflowAbsent_find (wc : string) (wfs : list Workflow) :
  workflowAbsent wc wfs ->
  Js.find
    (fun m => String.eqb (Js.toLowerCase (wf_codename m)) (Js.toLowerCase wc))
    wfs = None.
Proof.
  intros H. apply JsFacts.find_none_iff. intros w Hw.
  apply String.eqb_neq. now apply H.
Qed.

Lemma workflowNotFoundMessage_names (colors : bool) (wc : string)
  (wfs : list Workflow) :
  names (workflowNotFoundMessage colors wc wfs) wc.
Proof.
  unfold names, workflowNotFoundMessage.
  cbn [Js.join]. apply JsFacts.contains_app_l, JsFacts.contains_app_r,
    JsFacts.contains_app_l. apply JsFacts.contains_paint.
Qed.

Lemma workflowNotFoundMessage_enumerates (colors : bool) (wc : string)
  (wfs : list Workflow) :
  enumerates (workflowNotFoundMessage colors wc wfs)
    (List.map wf_codename wfs).
Proof.
  unfold enumerates. apply List.Forall_forall. intros c Hc.
  apply List.in_map_iff in Hc. destruct Hc as (w & <- & Hw).
  unfold names, workflowNotFoundMessage. cbn [Js.join].
  do 5 apply JsFacts.contains_app_r.
  apply JsFacts.contains_trans with (b := Chalk.cyan colors (wf_codename w)).
  - apply JsFacts.contains_paint.
  - apply JsFacts.contains_join.
    apply (List.in_map (fun m => Chalk.cyan colors (wf_codename m))), Hw.
Qed.

Lemma stepNotFoundMessage_names (colors : bool) (sc : string)
  (wf : Workflow) :
  names (stepNotFoundMessage colors sc wf) sc
  /\ names (stepNotFoundMessage colors sc wf) (wf_codename wf).
Proof.
  unfold names, stepNotFoundMessage. split.
  - apply JsFacts.contains_app_r, JsFacts.contains_app_l,
      JsFacts.contains_paint.
  - do 3 apply JsFacts.contains_app_r.
    apply JsFacts.contains_app_l, JsFacts.contains_paint.
Qed.

(** C8, as stated, fails for the step: the error for an unknown step
    of the workflow "default" names the step and the workflow but not
    the valid step "draft". *)
Lemma step_error_does_not_enumerate :
  exists message,
    getWorkflowAndStep true "nope" "default" [defaultWorkflow]
      = Throw (OtherError message)
    /\ In "draft" (validStepCodenames defaultWorkflow)
    /\ ~ enumerates message (validStepCodenames defaultWorkflow).
Proof.
  eexists. split; [reflexivity|]. split.
  - simpl. tauto.
  - intros H. unfold enumerates in H.
    rewrite List.Forall_forall in H.
    specialize (H "draft" ltac:(simpl; tauto)).
    revert H. apply JsFacts.not_contains. vm_compute. reflexivity.
Qed.

(** C8 (amended): an unknown workflow codename makes
    [getWorkflowAndStep] and [getWorkflowByCodename] throw an error
    that names the codename and enumerates the codenames of the
    available workflows; a step codename unknown to the resolved
    workflow makes [getWorkflowAndStep] throw an error that names the
    step codename and the workflow, without a list of steps. *)
Theorem invalid_workflow_or_step_is_reported
  (colors : bool) (sc wc : string) (wfs : list Workflow) :
  (workflowAbsent wc wfs ->
   exists message,
     getWorkflowAndStep colors sc wc wfs = Throw (OtherError message)
     /\ ImportWorkflowHelper.getWorkflowByCodename colors wc wfs
        = Throw (OtherError message)
     /\ names message wc
     /\ enumerates message (List.map wf_codename wfs))
  /\
  (forall wf,
     ImportWorkflowHelper.getWorkflowByCodename colors wc wfs = Ok wf ->
     ~ In sc (validStepCodenames wf) ->
     exists message,
       getWorkflowAndStep colors sc wc wfs = Throw (OtherError message)
       /\ names message sc
       /\ names message (wf_codename wf)).
Proof.
  split.
  - intros Habs. exists (workflowNotFoundMessage colors wc wfs).
    unfold getWorkflowAndStep, ImportWorkflowHelper.getWorkflowByCodename.
    rewrite (workflowAbsent_find _ _ Habs).
    repeat split; auto using workflowNotFoundMessage_names,
      workflowNotFoundMessage_enumerates.
  - intros wf Hwf Hstep. exists (stepNotFoundMessage colors sc wf).
    unfold getWorkflowAndStep.
    unfold ImportWorkflowHelper.getWorkflowByCodename in Hwf.
    destruct (Js.find _ wfs) as [wf'|]; [|discriminate].
    injection Hwf as ->.
    apply getWorkflowStep_none in Hstep. rewrite Hstep.
    split; [reflexivity|]. apply stepNotFoundMessage_names.
Qed.

Lemma invalid_workflow_or_step_is_reported_witness :
  (exists message,
     getWorkflowAndStep true "draft" "missing" [defaultWorkflow]
       = Throw (OtherError message)
     /\ ImportWorkflowHelper.getWorkflowByCodename true "missing"
          [defaultWorkflow] = Throw (OtherError message)
     /\ names message "missing"
     /\ enumerates message ["default"])
  /\
  (exists message,
     getWorkflowAndStep true "nope" "Default" [defaultWorkflow]
       = Throw (OtherError message)
     /\ names message "nope"
     /\ names message "default").
Proof.
  destruct (invalid_workflow_or_step_is_reported true "draft" "missing"
              [defaultWorkflow]) as [H1 _].
  destruct (invalid_workflow_or_step_is_reported true "nope" "Default"
              [defaultWorkflow]) as [_ H2].
  split.
  - apply H1. intros w [<-|[]]. vm_compute. discriminate.
  - apply (H2 defaultWorkflow).
    + reflexivity.
    + simpl. intros [H|[H|[H|[H|[H|[]]]]]]; discriminate.
Defined.

Lemma archived_step_is_recognised (wf : Workflow) (wfs : list Workflow) :
  In wf wfs ->
  doesWorkflowStepCodenameRepresentArchivedStep
    (step_codename (wf_archivedStep wf)) wfs = true.
Proof.
  induction wfs as [|w wfs IH]; intros Hin; [contradiction|]. simpl.
  destruct Hin as [-> | Hin].
  - now rewrite String.eqb_refl.
  - destruct (String.eqb _ _); [reflexivity | now apply IH].
Qed.

Lemma archived_step_is_not_published_or_scheduled
  (wf : Workflow) (wfs : list Workflow) :
  archivedStepsDistinguished wfs = true ->
  In wf wfs ->
  doesWorkflowStepCodenameRepresentPublishedStep
    (step_codename (wf_archivedStep wf)) wfs = false
  /\ doesWorkflowStepCodenameRepresentScheduledStep
       (step_codename (wf_archivedStep wf)) wfs = false.
Proof.
  unfold archivedStepsDistinguished. intros Hd Hin.
  rewrite List.forallb_forall in Hd. specialize (Hd wf Hin).
  induction wfs as [|b rest IH] in Hd |- *; [now split|].
  cbn [List.forallb] in Hd.
  apply andb_true_iff in Hd. destruct Hd as [Hb Hrest].
  apply andb_true_iff in Hb. destruct Hb as [Hp Hs].
  apply negb_true_iff in Hp, Hs.
  destruct (IH Hrest) as [IHp IHs].
  cbn [doesWorkflowStepCodenameRepresentPublishedStep
         doesWorkflowStepCodenameRepresentScheduledStep].
  now rewrite Hp, Hs.
Qed.

Lemma getWorkflowAndStep_ok (colors : bool) (sc wc : string)
  (wfs : list Workflow) (ws : IWorkflowAndStep) :
  getWorkflowAndStep colors sc wc wfs = Ok ws ->
  In (workflow ws) wfs /\ getWorkflowStep (workflow ws) sc = Some (step ws).
Proof.
  unfold getWorkflowAndStep.
  destruct (Js.find _ wfs) as [wf|] eqn:F; [|discriminate].
  destruct (getWorkflowStep wf sc) as [st|] eqn:G; [|discriminate].
  intros [= <-]. simpl. split; [|assumption].
  now apply List.find_some in F.
Qed.

(** C3 at a concrete input: the variant is in draft, the target step is
    draft, and the service still sends one change-workflow request. *)
Lemma draft_to_draft_sends_change_workflow :
  let run :=
    setWorkflowOfLanguageVariantAsync false client "default" "draft"
      article [defaultWorkflow] (start articleInDraft) in
  List.In ("article", "en", "draft") (env_variantSteps articleInDraft)
  /\ fst run = Ok tt
  /\ calls (snd run)
     = [ChangeWorkflowOfLanguageVariant "article" "en"
          {| step_identifier := "draft";
             workflow_identifier := "default" |}]
  /\ count isChangeWorkflowCall (calls (snd run)) = 1.
Proof.
  vm_compute. repeat split. now left.
Qed.

Section AnyEnvironment.
Context {S : Type}.
Variable colors : bool.
Variable managementClient : ManagementClient S.

(** For a regular step the only test before the request compares the
    codename of the workflow with the codename of the step; the
    step the variant is in plays no part. *)
Lemma regular_step_sends_change_workflow
  (wc sc : string) (migrationItem : IMigrationItem)
  (wfs : list Workflow) (ws : IWorkflowAndStep) (w : World S) :
  getWorkflowAndStep colors sc wc wfs = Ok ws ->
  doesWorkflowStepCodenameRepresentPublishedStep sc wfs = false ->
  doesWorkflowStepCodenameRepresentScheduledStep sc wfs = false ->
  doesWorkflowStepCodenameRepresentArchivedStep sc wfs = false ->
  wf_codename (workflow ws) <> sc ->
  sent w
    (snd (setWorkflowOfLanguageVariantAsync colors managementClient
            wc sc migrationItem wfs w))
    [ChangeWorkflowOfLanguageVariant
       (ps_codename (system migrationItem))
       (ps_language (system migrationItem))
       {| step_identifier := step_codename (step ws);
          workflow_identifier := wf_codename (workflow ws) |}].
Proof.
  intros Hws Hp Hs Ha Hne.
  unfold sent, setWorkflowOfLanguageVariantAsync, bind, lift.
  rewrite Hws, Hp, Hs, Ha.
  apply String.eqb_neq in Hne. rewrite Hne.
  unfold runMapiRequestAsync, bind, log, request. simpl.
  now destruct (changeWorkflowOfLanguageVariant _ _ _ _ _).
Qed.

(** C4: when the target step is the archived step of the resolved
    workflow (archived steps being distinguished from published and
    scheduled steps), the service first sends the unpublish request.
    If that succeeds, or fails with a Management API error (which is
    logged), exactly one change-workflow request to the archived step
    of the workflow follows and its outcome is the outcome of the
    call; any other unpublish error is rethrown and nothing else is
    sent. *)
Theorem archive_unpublishes_first_then_archives
  (wc sc : string) (migrationItem : IMigrationItem)
  (wfs : list Workflow) (ws : IWorkflowAndStep) (w : World S) :
  getWorkflowAndStep colors sc wc wfs = Ok ws ->
  sc = step_codename (wf_archivedStep (workflow ws)) ->
  archivedStepsDistinguished wfs = true ->
  let itemCodename := ps_codename (system migrationItem) in
  let language := ps_language (system migrationItem) in
  let data :=
    {| step_identifier := step_codename (wf_archivedStep (workflow ws));
       workflow_identifier := wf_codename (workflow ws) |} in
  let unpublish := UnpublishLanguageVariant itemCodename language in
  let archive :=
    ChangeWorkflowOfLanguageVariant itemCodename language data in
  let run :=
    setWorkflowOfLanguageVariantAsync colors managementClient wc sc
      migrationItem wfs w in
  let unpublished :=
    unpublishLanguageVariant managementClient itemCodename language
      (server w) in
  let archived :=
    changeWorkflowOfLanguageVariant managementClient itemCodename
      language data (snd unpublished) in
  match fst unpublished with
  | Success _ =>
      sent w (snd run) [unpublish; archive]
      /\ count isChangeWorkflowCall [unpublish; archive] = 1
      /\ fst run = outcomeOfResponse (fst archived)
  | Failure error =>
      if isContentManagementError error then
        sent w (snd run) [unpublish; archive]
        /\ count isChangeWorkflowCall [unpublish; archive] = 1
        /\ In (logEntry "unpublish" (unpublishFailedMessage error))
             (logs (snd run))
        /\ fst run = outcomeOfResponse (fst archived)
      else
        sent w (snd run) [unpublish] /\ fst run = Throw error
  end.
Proof.
  intros Hws Hsc Hd. cbv zeta.
  destruct (getWorkflowAndStep_ok _ _ _ _ _ Hws) as [Hin _].
  pose proof (archived_step_is_recognised _ _ Hin) as Ha.
  rewrite <- Hsc in Ha.
  destruct (archived_step_is_not_published_or_scheduled _ _ Hd Hin)
    as [Hp Hs].
  rewrite <- Hsc in Hp, Hs.
  unfold sent, setWorkflowOfLanguageVariantAsync, bind, lift.
  rewrite Hws, Hp, Hs, Ha.
  unfold tryCatch, runMapiRequestAsync, bind, log, request. cbn [server].
  destruct (unpublishLanguageVariant managementClient _ _ (server w))
    as [[[]|error] s1]; cbn.
  - destruct (changeWorkflowOfLanguageVariant managementClient _ _ _ s1)
      as [r s2]; cbn.
    rewrite <- List.app_assoc. destruct r; cbn; auto.
  - destruct (isContentManagementError error); cbn.
    + destruct (changeWorkflowOfLanguageVariant managementClient _ _ _ s1)
        as [r s2]; cbn.
      rewrite <- List.app_assoc.
      assert (Hlog : forall l1 (x y : LogEntry),
                 In x ((l1 ++ [x]) ++ [y])%list).
      { intros. apply List.in_or_app. left. apply List.in_or_app.
        right. now left. }
      destruct r; cbn; repeat split; auto.
    + auto.
Qed.

End AnyEnvironment.

(** The theorem at work: a variant without a published version is
    archived; the refused unpublish is logged and the archive request
    follows. *)
Lemma archive_unpublishes_first_then_archives_witness :
  let run :=
    setWorkflowOfLanguageVariantAsync false client "default" "archived"
      article [defaultWorkflow] (start articleInDraft) in
  let data :=
    {| step_identifier := "archived"; workflow_identifier := "default" |} in
  sent (start articleInDraft) (snd run)
    [UnpublishLanguageVariant "article" "en";
     ChangeWorkflowOfLanguageVariant "article" "en" data]
  /\ count isChangeWorkflowCall
       [UnpublishLanguageVariant "article" "en";
        ChangeWorkflowOfLanguageVariant "article" "en" data] = 1
  /\ In (logEntry "unpublish" (unpublishFailedMessage notPublished))
       (logs (snd run))
  /\ fst run = Ok tt.
Proof.
  exact (archive_unpublishes_first_then_archives false client
           "default" "archived" article [defaultWorkflow]
           {| workflow := defaultWorkflow;
              step := {| step_codename := "archived";
                         step_id := "s-archived" |} |}
           (start articleInDraft)
           eq_refl eq_refl eq_refl).
Defined.

End WorkflowProperties.

(** ** Content item reconciliation *)

Module ContentItemProperties.
Import Effects Models Mapi Vocabulary ImportContentItemHelper.
Import InMemoryEnvironment.

(** C1 at a concrete input: with [skipFailedItems] set, the view of the
    first of two items fails with a server error; the error leaves
    [importContentItemsAsync] and the second item is never looked at. *)
Lemma failed_item_aborts_batch_despite_skipFailedItems :
  let run :=
    importContentItemsAsync client categorizeByWorkflowStep
      [article; page] twoCollections {| skipFailedItems := true |}
      (start articleUnavailable) in
  fst run = Throw serverError
  /\ calls (snd run) = [ViewContentItemByCodename "article"]
  /\ ~ In (ViewContentItemByCodename "page") (calls (snd run))
  /\ List.filter (fun e => String.eqb (log_type e) "error") (logs (snd run))
     = [].
Proof.
  vm_compute. repeat split; try reflexivity.
  intros [H|[]]. discriminate.
Qed.

(** C2 at a concrete input: the item exists in the collection "default"
    under the same name and arrives in the collection "news"; it is
    skipped and no upsert is sent. *)
Lemma collection_change_is_not_upserted :
  let run :=
    importContentItemAsync client articleInNews twoCollections
      (start withArticle) in
  ps_name (system articleInNews) = ci_name existingArticle
  /\ collectionCodenameOf existingArticle twoCollections = Some "default"
  /\ ps_collection (system articleInNews) = "news"
  /\ fst run = Ok tt
  /\ calls (snd run) = [ViewContentItemByCodename "article"]
  /\ count isUpsertCall (calls (snd run)) = 0.
Proof.
  vm_compute. repeat split; reflexivity.
Qed.

Section AnyEnvironment.
Context {S : Type}.
Variable managementClient : ManagementClient S.
Variable categorizeParsedItems :
  list IParsedContentItem -> ICategorizedParsedItems.

Lemma bind_ext {A B} (m : M S A) (k1 k2 : A -> M S B) (w : World S) :
  (forall a w', k1 a w' = k2 a w') -> bind m k1 w = bind m k2 w.
Proof.
  intros H. unfold bind. destruct (m w) as [[a|e|msg] w']; auto.
Qed.

(** The [catch] clause guards an empty [try]: it never runs. *)
Lemma empty_try_is_skip {A} (handler : JsError -> M S unit)
  (k : M S A) (w : World S) :
  bind (tryCatch (ret tt) handler) (fun _ => k) w = k w.
Proof. reflexivity. Qed.

(** Hence the run does not depend on [skipFailedItems]. *)
Lemma importLoop_ignores_config (config1 config2 : Config)
  (collections : list Collection) (totalCount : nat)
  (items : list IParsedContentItem) :
  forall (itemIndex : nat) (w : World S),
    importLoop managementClient config1 collections totalCount
      itemIndex items w
    = importLoop managementClient config2 collections totalCount
        itemIndex items w.
Proof.
  induction items as [|it items IH]; intros itemIndex w;
    [reflexivity|].
  cbn [importLoop]. apply bind_ext. intros _ w1.
  apply bind_ext. intros _ w2.
  rewrite !empty_try_is_skip. apply IH.
Qed.

Lemma importContentItemsAsync_ignores_skipFailedItems
  (config1 config2 : Config) (parsed : list IParsedContentItem)
  (collections : list Collection) (w : World S) :
  importContentItemsAsync managementClient categorizeParsedItems parsed
    collections config1 w
  = importContentItemsAsync managementClient categorizeParsedItems parsed
      collections config2 w.
Proof.
  unfold importContentItemsAsync.
  apply bind_ext. intros _ w1. apply bind_ext. intros _ w2.
  unfold bind.
  now rewrite (importLoop_ignores_config config1 config2).
Qed.

(** The collection looked up is the one named by the incoming item,
    so the second comparison never holds: the decision is the
    comparison of the names. *)
Lemma shouldUpdateContentItem_compares_names_only
  (parsed : IParsedContentItem) (existing : ContentItem)
  (collections : list Collection) (found : Collection) (w : World S) :
  Js.find
    (fun m =>
       String.eqb (collection_codename m) (ps_collection (system parsed)))
    collections = Some found ->
  shouldUpdateContentItem parsed existing collections w
  = (Ok (negb (String.eqb (ps_name (system parsed)) (ci_name existing))),
     w).
Proof.
  intros F. unfold shouldUpdateContentItem. rewrite F.
  apply List.find_some in F. destruct F as [_ E].
  rewrite String.eqb_sym in E. rewrite E. cbn.
  now rewrite orb_false_r.
Qed.

(** C5: [prepareContentItemAsync] views the item by codename.  If the
    view fails with a 404 error it sends one create request carrying
    the incoming name, type, codename and collection, and returns the
    created item with status [created] (or what the create request
    throws); if the view fails with another error, that error is
    rethrown and no create request is sent; if the view succeeds the
    item is returned with status [itemAlreadyExists]. *)
Theorem prepareContentItemAsync_creates_on_404
  (parsed : IParsedContentItem) (w : World S) :
  let codename := ps_codename (system parsed) in
  let data :=
    {| add_name := ps_name (system parsed);
       add_type_codename := ps_type (system parsed);
       add_codename := ps_codename (system parsed);
       add_collection_codename := ps_collection (system parsed) |} in
  let viewed :=
    viewContentItemByCodename managementClient codename (server w) in
  let added := addContentItem managementClient data (snd viewed) in
  let run := prepareContentItemAsync managementClient parsed w in
  match fst viewed with
  | Success existing =>
      sent w (snd run) [ViewContentItemByCodename codename]
      /\ fst run
         = Ok {| contentItem := existing; status := itemAlreadyExists |}
  | Failure error =>
      if is404Error error then
        sent w (snd run)
          [ViewContentItemByCodename codename; AddContentItem data]
        /\ match fst added with
           | Success newItem =>
               fst run
               = Ok {| contentItem := newItem; status := created |}
           | Failure createError => fst run = Throw createError
           end
      else
        sent w (snd run) [ViewContentItemByCodename codename]
        /\ count isAddCall [ViewContentItemByCodename codename] = 0
        /\ fst run = Throw error
  end.
Proof.
  cbv zeta. unfold sent, prepareContentItemAsync, tryCatch, bind, request.
  destruct (viewContentItemByCodename managementClient _ (server w))
    as [[existing|error] s1]; cbn.
  - auto.
  - destruct (is404Error error); cbn; [|auto].
    destruct (addContentItem managementClient _ s1)
      as [[newItem|createError] s2]; cbn;
      rewrite <- List.app_assoc; auto.
Qed.

End AnyEnvironment.

End ContentItemProperties.

(** ** Asset update decision *)

Module AssetProperties.
Import Effects Models Vocabulary AssetUpdate InMemoryEnvironment.

Lemma insertSorted_same_key {A} (toString : A -> string) (key : string)
  (x : A) (l : list A) :
  (forall a, toString a = key) ->
  String.ltb key key = false ->
  insertSorted toString x l = (l ++ [x])%list.
Proof.
  intros Hkey Hlt. induction l as [|y l IH]; [reflexivity|].
  simpl. rewrite !Hkey, Hlt. now rewrite IH.
Qed.

(** Every description object has the same [ToString] image, so the
    default sort leaves the array as it is. *)
Lemma toSorted_objects {A} (l : list A) : toSorted objectToString l = l.
Proof.
  unfold toSorted.
  enough (H : forall acc,
             List.fold_left (fun acc x => insertSorted objectToString x acc)
               l acc = (acc ++ l)%list) by apply (H []).
  induction l as [|x l IH]; intros acc; simpl.
  - now rewrite List.app_nil_r.
  - rewrite (insertSorted_same_key objectToString "[object Object]");
      [|reflexivity|reflexivity].
    rewrite IH. now rewrite <- List.app_assoc.
Qed.

Lemma optionStringEq_eq (a b : option string) :
  optionStringEq a b = true <-> a = b.
Proof.
  destruct a as [x|], b as [y|]; simpl; try (split; congruence).
  rewrite String.eqb_eq. split; congruence.
Qed.

Lemma deepEqual_eq (l1 l2 : list MigrationAssetDescription) :
  deepEqual l1 l2 = true <-> l1 = l2.
Proof.
  revert l2. induction l1 as [|a l1 IH]; intros [|b l2]; simpl;
    try (split; congruence).
  unfold descriptionEqual.
  rewrite !andb_true_iff, optionStringEq_eq, String.eqb_eq, IH.
  destruct a as [[la] da], b as [[lb] db]; simpl.
  split; [intros [[-> ->] ->]; reflexivity | intros [= -> -> ->]; auto].
Qed.

(** The descriptions are compared as sequences. *)
Lemma areDescriptionsIdentical_sequence (migrationAsset : MigrationAsset)
  (targetAsset : Asset) (languages : list Language)
  (mapped : list MigrationAssetDescription) :
  mapToMigrationDescriptions targetAsset languages = Ok mapped ->
  areDescriptionsIdentical migrationAsset targetAsset languages = Ok true
  <-> sourceDescriptions migrationAsset = mapped.
Proof.
  intros Hm. unfold areDescriptionsIdentical. rewrite Hm. simpl.
  rewrite !toSorted_objects. rewrite <- deepEqual_eq.
  split; [congruence | intros ->; reflexivity].
Qed.

(** [shouldUpdateAsset] answers [false] exactly when the four checks
    pass. *)
Lemma shouldUpdateAsset_false_iff (migrationAsset : MigrationAsset)
  (targetAsset : Asset) (collections : list Collection)
  (languages : list Language) :
  shouldUpdateAsset migrationAsset targetAsset collections languages
  = Ok false
  <-> isInSameCollection migrationAsset targetAsset collections = true
      /\ areDescriptionsIdentical migrationAsset targetAsset languages
         = Ok true
      /\ isTitleIdentical migrationAsset targetAsset = true
      /\ isBinaryFileIdentical migrationAsset targetAsset = Ok true.
Proof.
  unfold shouldUpdateAsset.
  destruct (isInSameCollection _ _ _); simpl;
    [|split; [discriminate | intros [? _]; discriminate]].
  destruct (areDescriptionsIdentical _ _ _) as [[|]|e|m]; simpl;
    try (split; [discriminate | intros (_ & ? & _); discriminate]).
  destruct (isTitleIdentical _ _); simpl;
    [|split; [discriminate | intros (_ & _ & ? & _); discriminate]].
  destruct (isBinaryFileIdentical _ _) as [[|]|e|m]; simpl;
    try (split; [discriminate | intros (_ & _ & _ & ?); discriminate]).
  tauto.
Qed.

(** The binary replacement decision reads the size and the file name
    only. *)
Lemma shouldReplaceBinaryFile_iff (migrationAsset : MigrationAsset)
  (targetAsset : Asset) (data : BinaryData) :
  ma_binaryData migrationAsset = Some data ->
  shouldReplaceBinaryFile migrationAsset targetAsset
  = Ok (negb (Z.eqb (geSizeInBytes data) (asset_size targetAsset)
              && String.eqb (ma_filename migrationAsset)
                   (asset_fileName targetAsset))).
Proof.
  intros H. unfold shouldReplaceBinaryFile, isBinaryFileIdentical.
  rewrite H. simpl. now destruct (_ && _).
Qed.

Lemma photo_descriptions_agree :
  sameDescriptionsPerLanguage
    (match ma_descriptions photo with Some l => l | None => [] end)
    [ {| mad_language := {| ref_codename := "cs" |};
         mad_description := Some "Fotka" |};
      {| mad_language := {| ref_codename := "en" |};
         mad_description := Some "A photo" |} ].
Proof.
  unfold sameDescriptionsPerLanguage. intros lang.
  unfold descriptionFor, Js.find.
  cbn [ma_descriptions photo List.find mad_language ref_codename].
  destruct (String.eqb_spec "en" lang) as [E1|N1];
    destruct (String.eqb_spec "cs" lang) as [E2|N2];
    try reflexivity.
  subst lang. discriminate E2.
Qed.

(** C6 at a concrete input: source and target hold the same collection,
    title, file (size and name) and the same description for every
    language, the environment listing them in another order;
    [shouldUpdateAsset] answers [true].  With the descriptions in the
    order of the source it answers [false]. *)
Lemma reordered_descriptions_force_update :
  isInSameCollection photo photoInTarget twoCollections = true
  /\ mapToMigrationDescriptions photoInTarget twoLanguages
     = Ok [ {| mad_language := {| ref_codename := "cs" |};
               mad_description := Some "Fotka" |};
            {| mad_language := {| ref_codename := "en" |};
               mad_description := Some "A photo" |} ]
  /\ sameDescriptionsPerLanguage
       (match ma_descriptions photo with Some l => l | None => [] end)
       [ {| mad_language := {| ref_codename := "cs" |};
            mad_description := Some "Fotka" |};
         {| mad_language := {| ref_codename := "en" |};
            mad_description := Some "A photo" |} ]
  /\ isTitleIdentical photo photoInTarget = true
  /\ isBinaryFileIdentical photo photoInTarget = Ok true
  /\ shouldUpdateAsset photo photoInTarget twoCollections twoLanguages
     = Ok true
  /\ shouldUpdateAsset photo photoInTargetSameOrder twoCollections
       twoLanguages = Ok false.
Proof.
  repeat split; try (vm_compute; reflexivity).
  apply photo_descriptions_agree.
Qed.

End AssetProperties.

(** ** Element value transforms *)

Module ElementProperties.
Import ElementTranslationHelper InMemoryEnvironment.

Lemma replaceAllChar_length (a b : ascii) (s : string) :
  String.length (Js.replaceAllChar a b s) = String.length s.
Proof.
  induction s as [|c s IH]; simpl; [reflexivity | now rewrite IH].
Qed.

(** After [replaceAll(a, b)] with [b] other than [a], no [a] is left, so
    a second replacement changes nothing. *)
Lemma replaceAllChar_idempotent (a b : ascii) (s : string) :
  a <> b ->
  Js.replaceAllChar a b (Js.replaceAllChar a b s) = Js.replaceAllChar a b s.
Proof.
  intros Hab. induction s as [|c s IH]; simpl; [reflexivity|].
  rewrite IH. f_equal.
  destruct (Ascii.eqb_spec c a) as [->|Hc].
  - destruct (Ascii.eqb_spec b a) as [E|_]; [congruence | reflexivity].
  - destruct (Ascii.eqb_spec c a); [contradiction | reflexivity].
Qed.

(** C7: [convertComponentCodenameToId] is a function of the codename
    alone.  It returns the codename with every '_' replaced by '-' when
    [validate] accepts that string, and the hash-derived identifier of
    the original codename otherwise; equal codenames give equal
    identifiers; and an identifier obtained from the first branch is
    mapped to itself. *)
Theorem convertComponentCodenameToId_is_a_function_of_the_codename
  (validate : string -> bool) (uuidByString : string -> string)
  (codename : string) :
  let normalized := Js.replaceAllChar "_" "-" codename in
  (validate normalized = true ->
   convertComponentCodenameToId validate uuidByString codename = normalized
   /\ convertComponentCodenameToId validate uuidByString normalized
      = normalized)
  /\ (validate normalized = false ->
      convertComponentCodenameToId validate uuidByString codename
      = uuidByString codename)
  /\ (forall again : string,
        again = codename ->
        convertComponentCodenameToId validate uuidByString again
        = convertComponentCodenameToId validate uuidByString codename).
Proof.
  cbv zeta. unfold convertComponentCodenameToId. repeat split.
  - now rewrite H.
  - rewrite replaceAllChar_idempotent by discriminate. now rewrite H.
  - intros H. now rewrite H.
  - intros again ->. reflexivity.
Qed.

Lemma convertComponentCodenameToId_witness :
  (convertComponentCodenameToId uuidValidate taggedHash
     "f47ac10b_58cc_4372_a567_0e02b2c3d479"
   = "f47ac10b-58cc-4372-a567-0e02b2c3d479"
   /\ convertComponentCodenameToId uuidValidate taggedHash
        "f47ac10b-58cc-4372-a567-0e02b2c3d479"
      = "f47ac10b-58cc-4372-a567-0e02b2c3d479")
  /\ convertComponentCodenameToId uuidValidate taggedHash "hero_banner"
     = taggedHash "hero_banner".
Proof.
  split.
  - apply (convertComponentCodenameToId_is_a_function_of_the_codename
             uuidValidate taggedHash "f47ac10b_58cc_4372_a567_0e02b2c3d479").
    vm_compute. reflexivity.
  - apply (convertComponentCodenameToId_is_a_function_of_the_codename
             uuidValidate taggedHash "hero_banner").
    vm_compute. reflexivity.
Defined.

(** C9, as stated, fails: for an absent value the custom transform gives
    the empty string, and for an empty string both transforms give the
    empty string, not [null]. *)
Lemma empty_or_absent_is_not_always_null :
  value (importTransforms.custom "teaser" Undefined) = StringValue ""
  /\ value (importTransforms.custom "teaser" Undefined) <> Null
  /\ value (importTransforms.text "teaser" (Str "")) = StringValue ""
  /\ value (importTransforms.text "teaser" (Str "")) <> Null
  /\ value (importTransforms.custom "teaser" (Str "")) <> Null.
Proof.
  repeat split; try reflexivity; discriminate.
Qed.

(** C9 (amended): on import the text and custom transforms keep the
    element codename and produce the string form of the portable value
    (a string as it is, the empty string included; an array joined by
    commas); for an absent value the text transform produces [null] and
    the custom transform produces the empty string. *)
Theorem text_and_custom_import_values (elementCodename : string) :
  (forall v,
     element_codename (importTransforms.text elementCodename v)
     = elementCodename
     /\ element_codename (importTransforms.custom elementCodename v)
        = elementCodename)
  /\ (forall s,
        value (importTransforms.text elementCodename (Str s)) = StringValue s
        /\ value (importTransforms.custom elementCodename (Str s))
           = StringValue s)
  /\ (forall items,
        value (importTransforms.text elementCodename (Arr items))
        = StringValue (Js.join "," items)
        /\ value (importTransforms.custom elementCodename (Arr items))
           = StringValue (Js.join "," items))
  /\ value (importTransforms.text elementCodename Undefined) = Null
  /\ value (importTransforms.custom elementCodename Undefined)
     = StringValue "".
Proof.
  repeat split.
Qed.

End ElementProperties.

(** ** Export context *)

Module ExportContextProperties.
Import Effects Models Mapi Vocabulary ExportContextService.
Import InMemoryEnvironment.

(** One entry per requested id, in the order of the request. *)
Lemma itemStatesOf_ids (items : list ContentItem) (itemIds : list string) :
  List.map item_state_id (itemStatesOf items itemIds) = itemIds.
Proof.
  induction itemIds as [|id ids IH]; simpl; [reflexivity|].
  rewrite IH. now destruct (Js.find _ items).
Qed.

Lemma assetStatesOf_ids (assets : list Asset) (assetIds : list string) :
  List.map asset_state_id (assetStatesOf assets assetIds) = assetIds.
Proof.
  induction assetIds as [|id ids IH]; simpl; [reflexivity|].
  rewrite IH. now destruct (Js.find _ assets).
Qed.

Lemma itemStatesOf_wellFormed (items : list ContentItem)
  (itemIds : list string) :
  List.Forall itemStateWellFormed (itemStatesOf items itemIds).
Proof.
  induction itemIds as [|id ids IH]; simpl; constructor; [|exact IH].
  unfold itemStateWellFormed.
  destruct (Js.find _ items) as [found|] eqn:F; simpl; [|reflexivity].
  split; [reflexivity|]. apply List.find_some in F.
  now apply String.eqb_eq.
Qed.

Lemma assetStatesOf_wellFormed (assets : list Asset)
  (assetIds : list string) :
  List.Forall assetStateWellFormed (assetStatesOf assets assetIds).
Proof.
  induction assetIds as [|id ids IH]; simpl; constructor; [|exact IH].
  unfold assetStateWellFormed.
  destruct (Js.find _ assets) as [found|] eqn:F; simpl; [|reflexivity].
  split; [reflexivity|]. apply List.find_some in F.
  now apply String.eqb_eq.
Qed.

(** A lookup by a requested id finds an entry with that id. *)
Lemma item_lookup_succeeds (states : list ItemStateInSourceEnvironmentById)
  (id : string) :
  In id (List.map item_state_id states) ->
  exists st,
    getItemStateInSourceEnvironment states id = Ok st
    /\ item_state_id st = id.
Proof.
  intros Hin. unfold getItemStateInSourceEnvironment.
  destruct (Js.find _ states) as [st|] eqn:F.
  - exists st. split; [reflexivity|].
    apply List.find_some in F. now apply String.eqb_eq.
  - exfalso. apply List.in_map_iff in Hin. destruct Hin as (st & <- & Hst).
    apply (List.find_none _ _ F) in Hst. simpl in Hst.
    now rewrite String.eqb_refl in Hst.
Qed.

Lemma asset_lookup_succeeds (states : list AssetStateInSourceEnvironmentById)
  (id : string) :
  In id (List.map asset_state_id states) ->
  exists st,
    getAssetStateInSourceEnvironment states id = Ok st
    /\ asset_state_id st = id.
Proof.
  intros Hin. unfold getAssetStateInSourceEnvironment.
  destruct (Js.find _ states) as [st|] eqn:F.
  - exists st. split; [reflexivity|].
    apply List.find_some in F. now apply String.eqb_eq.
  - exfalso. apply List.in_map_iff in Hin. destruct Hin as (st & <- & Hst).
    apply (List.find_none _ _ F) in Hst. simpl in Hst.
    now rewrite String.eqb_refl in Hst.
Qed.

Section AnyEnvironment.
Context {S : Type}.
Variable managementClient : ManagementClient S.

(** The fetch loops end with the entities fetched or with an error of
    the environment that is not a 404; they never exit the process. *)
Lemma getContentItemsByIdsLoop_outcome (itemIds : list string) :
  forall (contentItems : list ContentItem) (w : World S),
    match
      fst (getContentItemsByIdsLoop managementClient itemIds contentItems w)
    with
    | Ok _ => True
    | Throw error => is404Error error = false
    | Exit _ => False
    end.
Proof.
  induction itemIds as [|id ids IH]; intros contentItems w; [exact I|].
  cbn [getContentItemsByIdsLoop].
  unfold bind at 1, tryCatch, runMapiRequestAsync, bind, log, request.
  cbn [server].
  destruct (viewContentItemById managementClient id (server w))
    as [[found|error] s1]; cbn.
  - apply IH.
  - destruct (is404Error error) eqn:E; cbn; [apply IH | exact E].
Qed.

Lemma getAssetsByIdsLoop_outcome (assetIds : list string) :
  forall (assets : list Asset) (w : World S),
    match fst (getAssetsByIdsLoop managementClient assetIds assets w) with
    | Ok _ => True
    | Throw error => is404Error error = false
    | Exit _ => False
    end.
Proof.
  induction assetIds as [|id ids IH]; intros assets w; [exact I|].
  cbn [getAssetsByIdsLoop].
  unfold bind at 1, tryCatch, runMapiRequestAsync, bind, log, request.
  cbn [server].
  destruct (viewAssetById managementClient id (server w))
    as [[found|error] s1]; cbn.
  - apply IH.
  - destruct (is404Error error) eqn:E; cbn; [apply IH | exact E].
Qed.

(** The fetch loops against the answers of the environment: the loop
    returns the entities the environment returned, in order, after
    the ones it started with, and then every answer was an entity or
    a 404; the error it throws is an answer of the environment that
    is not a 404. *)
Lemma getContentItemsByIdsLoop_answers (itemIds : list string) :
  forall (contentItems : list ContentItem) (w : World S),
    match
      fst (getContentItemsByIdsLoop managementClient itemIds contentItems w)
    with
    | Ok items =>
        items
        = (contentItems
             ++ returnedBy
                  (answersOf (viewContentItemById managementClient) itemIds
                     (server w)))%list
        /\ List.Forall foundOr404
             (answersOf (viewContentItemById managementClient) itemIds
                (server w))
    | Throw error =>
        exists id,
          In (id, Failure error)
            (answersOf (viewContentItemById managementClient) itemIds
               (server w))
    | Exit _ => False
    end.
Proof.
  induction itemIds as [|id ids IH]; intros contentItems w.
  - cbn. split; [now rewrite List.app_nil_r | constructor].
  - cbn [getContentItemsByIdsLoop answersOf].
    unfold bind at 1, tryCatch, runMapiRequestAsync, bind, log, request.
    cbn [server].
    destruct (viewContentItemById managementClient id (server w))
      as [[found|error] s1]; cbn [fst snd outcomeOfResponse ret].
    + match goal with
      | |- context [getContentItemsByIdsLoop _ ids ?acc ?w1] =>
          specialize (IH acc w1)
      end.
      cbn [server] in IH.
      destruct (fst (getContentItemsByIdsLoop _ ids _ _))
        as [items|e|msg]; [| |exact IH].
      * destruct IH as [-> Hall]. cbn [returnedBy].
        split; [now rewrite <- List.app_assoc|].
        constructor; [exact I | exact Hall].
      * destruct IH as [id' Hin]. exists id'. now right.
    + destruct (is404Error error) eqn:E; cbn [negb fst snd throw ret].
      * match goal with
        | |- context [getContentItemsByIdsLoop _ ids ?acc ?w1] =>
            specialize (IH acc w1)
        end.
        cbn [server] in IH.
        destruct (fst (getContentItemsByIdsLoop _ ids _ _))
          as [items|e|msg]; [| |exact IH].
        -- destruct IH as [-> Hall]. cbn [returnedBy].
           split; [reflexivity|].
           constructor; [exact E | exact Hall].
        -- destruct IH as [id' Hin]. exists id'. now right.
      * exists id. now left.
Qed.

Lemma getAssetsByIdsLoop_answers (assetIds : list string) :
  forall (assets : list Asset) (w : World S),
    match fst (getAssetsByIdsLoop managementClient assetIds assets w) with
    | Ok fetched =>
        fetched
        = (assets
             ++ returnedBy
                  (answersOf (viewAssetById managementClient) assetIds
                     (server w)))%list
        /\ List.Forall foundOr404
             (answersOf (viewAssetById managementClient) assetIds
                (server w))
    | Throw error =>
        exists id,
          In (id, Failure error)
            (answersOf (viewAssetById managementClient) assetIds
               (server w))
    | Exit _ => False
    end.
Proof.
  induction assetIds as [|id ids IH]; intros assets w.
  - cbn. split; [now rewrite List.app_nil_r | constructor].
  - cbn [getAssetsByIdsLoop answersOf].
    unfold bind at 1, tryCatch, runMapiRequestAsync, bind, log, request.
    cbn [server].
    destruct (viewAssetById managementClient id (server w))
      as [[found|error] s1]; cbn [fst snd outcomeOfResponse ret].
    + match goal with
      | |- context [getAssetsByIdsLoop _ ids ?acc ?w1] =>
          specialize (IH acc w1)
      end.
      cbn [server] in IH.
      destruct (fst (getAssetsByIdsLoop _ ids _ _))
        as [fetched|e|msg]; [| |exact IH].
      * destruct IH as [-> Hall]. cbn [returnedBy].
        split; [now rewrite <- List.app_assoc|].
        constructor; [exact I | exact Hall].
      * destruct IH as [id' Hin]. exists id'. now right.
    + destruct (is404Error error) eqn:E; cbn [negb fst snd throw ret].
      * match goal with
        | |- context [getAssetsByIdsLoop _ ids ?acc ?w1] =>
            specialize (IH acc w1)
        end.
        cbn [server] in IH.
        destruct (fst (getAssetsByIdsLoop _ ids _ _))
          as [fetched|e|msg]; [| |exact IH].
        -- destruct IH as [-> Hall]. cbn [returnedBy].
           split; [reflexivity|].
           constructor; [exact E | exact Hall].
        -- destruct IH as [id' Hin]. exists id'. now right.
      * exists id. now left.
Qed.

(** The state of an id against the fetched entities: it carries the
    first fetched entity of that id and is ['exists'], or carries none
    and is ['doesNotExists'] when no fetched entity has that id. *)
Lemma itemStatesOf_found (items : list ContentItem) (itemIds : list string) :
  List.Forall
    (fun st =>
       item st
       = Js.find (fun m => String.eqb (ci_id m) (item_state_id st)) items
       /\ item_state st
          = match item st with
            | Some _ => exists_
            | None => doesNotExists
            end)
    (itemStatesOf items itemIds).
Proof.
  induction itemIds as [|id ids IH]; simpl; constructor; [|exact IH].
  destruct (Js.find _ items) as [found|] eqn:F; cbn; rewrite F; now split.
Qed.

Lemma assetStatesOf_found (assets : list Asset) (assetIds : list string) :
  List.Forall
    (fun st =>
       asset st
       = Js.find (fun m => String.eqb (asset_id m) (asset_state_id st)) assets
       /\ asset_state st
          = match asset st with
            | Some _ => exists_
            | None => doesNotExists
            end)
    (assetStatesOf assets assetIds).
Proof.
  induction assetIds as [|id ids IH]; simpl; constructor; [|exact IH].
  destruct (Js.find _ assets) as [found|] eqn:F; cbn; rewrite F; now split.
Qed.

(** An entity the environment returned under its own id gives the
    state of that id an entity. *)
Lemma returned_entity_is_found {A} (idOf : A -> string)
  (answers : list (string * response A)) (id : string) (entity : A) :
  In (id, Success entity) answers ->
  idOf entity = id ->
  exists found,
    Js.find (fun m => String.eqb (idOf m) id) (returnedBy answers)
    = Some found.
Proof.
  intros Hin Hid.
  destruct (Js.find (fun m => String.eqb (idOf m) id) (returnedBy answers))
    as [found|] eqn:F; [now exists found|].
  exfalso.
  assert (Hret : In entity (returnedBy answers)).
  { clear F Hid. induction answers as [|[i [d|e]] rest IH];
      [destruct Hin | |].
    - destruct Hin as [E|Hin].
      + injection E as _ ->. now left.
      + right. now apply IH.
    - destruct Hin as [E|Hin]; [discriminate|]. now apply IH. }
  apply (List.find_none _ _ F) in Hret. cbn in Hret.
  rewrite Hid, String.eqb_refl in Hret. discriminate.
Qed.

(** A returned entity is an answer of the environment. *)
Lemma returned_was_answered {A} (answers : list (string * response A))
  (entity : A) :
  In entity (returnedBy answers) ->
  exists id, In (id, Success entity) answers.
Proof.
  induction answers as [|[i [d|e]] rest IH]; cbn [returnedBy];
    [intros [] | |].
  - intros [->|Hin]; [exists i; now left|].
    destruct (IH Hin) as (id & H). exists id. now right.
  - intros Hin. destruct (IH Hin) as (id & H). exists id. now right.
Qed.

(** C10: [getItemStatesAsync] (likewise [getAssetStatesAsync]) asks the
    environment for every requested id and either rethrows an answer
    of the environment that is an error other than a 404, or returns
    one entry per requested id, in order.  Then every answer was an
    entity or a 404, the entities fetched are the ones the environment
    returned, and the entry of an id is ['exists'] with the first
    returned entity of that id, or ['doesNotExists'] without an entity
    when no returned entity has that id; in particular, an id for
    which the environment returned the entity of that id is
    ['exists'] with an entity of that id, which is the returned one
    when the environment returned no other of that id.  On the
    returned lists the lookups
    [getItemStateInSourceEnvironment] and
    [getAssetStateInSourceEnvironment] succeed for every requested
    id. *)
Theorem states_cover_every_requested_id
  (itemIds assetIds : list string) (w : World S) :
  match fst (getItemStatesAsync managementClient itemIds w) with
  | Ok itemStates =>
      List.map item_state_id itemStates = itemIds
      /\ List.Forall itemStateWellFormed itemStates
      /\ (exists items,
            fst (getContentItemsByIdsAsync managementClient itemIds w)
            = Ok items
            /\ itemStates = itemStatesOf items itemIds)
      /\ (forall id, In id itemIds ->
            exists st,
              getItemStateInSourceEnvironment itemStates id = Ok st
              /\ item_state_id st = id)
      /\ List.Forall foundOr404
           (answersOf (viewContentItemById managementClient) itemIds
              (server w))
      /\ fst (getContentItemsByIdsAsync managementClient itemIds w)
         = Ok (returnedBy
                 (answersOf (viewContentItemById managementClient) itemIds
                    (server w)))
      /\ List.Forall
           (fun st =>
              item st
              = Js.find
                  (fun m => String.eqb (ci_id m) (item_state_id st))
                  (returnedBy
                     (answersOf (viewContentItemById managementClient)
                        itemIds (server w)))
              /\ item_state st
                 = match item st with
            | Some _ => exists_
            | None => doesNotExists
            end)
           itemStates
      /\ (forall id entity,
            In (id, Success entity)
              (answersOf (viewContentItemById managementClient) itemIds
                 (server w)) ->
            ci_id entity = id ->
            exists st found,
              getItemStateInSourceEnvironment itemStates id = Ok st
              /\ item_state st = exists_
              /\ item st = Some found
              /\ ci_id found = id
              /\ ((forall id' other,
                     In (id', Success other)
                       (answersOf (viewContentItemById managementClient)
                          itemIds (server w)) ->
                     ci_id other = id -> other = entity) ->
                  found = entity))
  | Throw error =>
      is404Error error = false
      /\ exists id,
           In (id, Failure error)
             (answersOf (viewContentItemById managementClient) itemIds
                (server w))
  | Exit _ => False
  end
  /\
  match fst (getAssetStatesAsync managementClient assetIds w) with
  | Ok assetStates =>
      List.map asset_state_id assetStates = assetIds
      /\ List.Forall assetStateWellFormed assetStates
      /\ (exists assets,
            fst (getAssetsByIdsAsync managementClient assetIds w) = Ok assets
            /\ assetStates = assetStatesOf assets assetIds)
      /\ (forall id, In id assetIds ->
            exists st,
              getAssetStateInSourceEnvironment assetStates id = Ok st
              /\ asset_state_id st = id)
      /\ List.Forall foundOr404
           (answersOf (viewAssetById managementClient) assetIds (server w))
      /\ fst (getAssetsByIdsAsync managementClient assetIds w)
         = Ok (returnedBy
                 (answersOf (viewAssetById managementClient) assetIds
                    (server w)))
      /\ List.Forall
           (fun st =>
              asset st
              = Js.find
                  (fun m => String.eqb (asset_id m) (asset_state_id st))
                  (returnedBy
                     (answersOf (viewAssetById managementClient) assetIds
                        (server w)))
              /\ asset_state st
                 = match asset st with
            | Some _ => exists_
            | None => doesNotExists
            end)
           assetStates
      /\ (forall id entity,
            In (id, Success entity)
              (answersOf (viewAssetById managementClient) assetIds
                 (server w)) ->
            asset_id entity = id ->
            exists st found,
              getAssetStateInSourceEnvironment assetStates id = Ok st
              /\ asset_state st = exists_
              /\ asset st = Some found
              /\ asset_id found = id
              /\ ((forall id' other,
                     In (id', Success other)
                       (answersOf (viewAssetById managementClient) assetIds
                          (server w)) ->
                     asset_id other = id -> other = entity) ->
                  found = entity))
  | Throw error =>
      is404Error error = false
      /\ exists id,
           In (id, Failure error)
             (answersOf (viewAssetById managementClient) assetIds
                (server w))
  | Exit _ => False
  end.
Proof.
  split.
  - unfold getItemStatesAsync, getContentItemsByIdsAsync, bind.
    pose proof (getContentItemsByIdsLoop_outcome itemIds [] w) as H.
    pose proof (getContentItemsByIdsLoop_answers itemIds [] w) as HA.
    destruct (getContentItemsByIdsLoop managementClient itemIds [] w)
      as [[items|error|msg] w1]; cbn [fst snd ret] in *;
      [|now split|exact H].
    destruct HA as [HA Hall]. cbn [List.app] in HA. subst items.
    split; [apply itemStatesOf_ids|].
    split; [apply itemStatesOf_wellFormed|].
    split; [now eexists|].
    split.
    { intros id Hin. apply item_lookup_succeeds.
      now rewrite itemStatesOf_ids. }
    split; [exact Hall|].
    split; [reflexivity|].
    split; [apply itemStatesOf_found|].
    intros id entity Hin Hid.
    assert (Hreq : In id itemIds).
    { clear - Hin. revert Hin. generalize (server w).
      induction itemIds as [|i ids IH]; intros s Hin; [destruct Hin|].
      cbn [answersOf] in Hin. destruct Hin as [E|Hin].
      - injection E as -> _. now left.
      - right. exact (IH _ Hin). }
    destruct (item_lookup_succeeds
                (itemStatesOf
                   (returnedBy
                      (answersOf (viewContentItemById managementClient)
                         itemIds (server w))) itemIds) id)
      as (st & Hst & Hsid); [now rewrite itemStatesOf_ids|].
    destruct (returned_entity_is_found ci_id _ id entity Hin Hid)
      as (found & Hfound).
    exists st, found. split; [exact Hst|].
    assert (Hrel :
      item st
      = Js.find (fun m => String.eqb (ci_id m) (item_state_id st))
          (returnedBy
             (answersOf (viewContentItemById managementClient) itemIds
                (server w)))
      /\ item_state st = match item st with
            | Some _ => exists_
            | None => doesNotExists
            end).
    { unfold getItemStateInSourceEnvironment in Hst.
      destruct (Js.find _ (itemStatesOf _ itemIds)) as [st'|] eqn:F;
        [|discriminate].
      injection Hst as ->. apply List.find_some in F. destruct F as [F _].
      pose proof (itemStatesOf_found
                    (returnedBy
                       (answersOf (viewContentItemById managementClient)
                          itemIds (server w))) itemIds) as HF.
      rewrite List.Forall_forall in HF. exact (HF _ F). }
    destruct Hrel as [Hitem Hstate]. rewrite Hsid in Hitem.
    rewrite Hfound in Hitem. rewrite Hitem in Hstate.
    split; [exact Hstate|]. split; [exact Hitem|].
    apply List.find_some in Hfound. destruct Hfound as [Hret Heq].
    apply String.eqb_eq in Heq. split; [exact Heq|].
    intros Hone. destruct (returned_was_answered _ _ Hret) as (id' & Hin').
    exact (Hone id' found Hin' Heq).
  - unfold getAssetStatesAsync, getAssetsByIdsAsync, bind.
    pose proof (getAssetsByIdsLoop_outcome assetIds [] w) as H.
    pose proof (getAssetsByIdsLoop_answers assetIds [] w) as HA.
    destruct (getAssetsByIdsLoop managementClient assetIds [] w)
      as [[assets|error|msg] w1]; cbn [fst snd ret] in *;
      [|now split|exact H].
    destruct HA as [HA Hall]. cbn [List.app] in HA. subst assets.
    split; [apply assetStatesOf_ids|].
    split; [apply assetStatesOf_wellFormed|].
    split; [now eexists|].
    split.
    { intros id Hin. apply asset_lookup_succeeds.
      now rewrite assetStatesOf_ids. }
    split; [exact Hall|].
    split; [reflexivity|].
    split; [apply assetStatesOf_found|].
    intros id entity Hin Hid.
    assert (Hreq : In id assetIds).
    { clear - Hin. revert Hin. generalize (server w).
      induction assetIds as [|i ids IH]; intros s Hin; [destruct Hin|].
      cbn [answersOf] in Hin. destruct Hin as [E|Hin].
      - injection E as -> _. now left.
      - right. exact (IH _ Hin). }
    destruct (asset_lookup_succeeds
                (assetStatesOf
                   (returnedBy
                      (answersOf (viewAssetById managementClient)
                         assetIds (server w))) assetIds) id)
      as (st & Hst & Hsid); [now rewrite assetStatesOf_ids|].
    destruct (returned_entity_is_found asset_id _ id entity Hin Hid)
      as (found & Hfound).
    exists st, found. split; [exact Hst|].
    assert (Hrel :
      asset st
      = Js.find (fun m => String.eqb (asset_id m) (asset_state_id st))
          (returnedBy
             (answersOf (viewAssetById managementClient) assetIds
                (server w)))
      /\ asset_state st = match asset st with
            | Some _ => exists_
            | None => doesNotExists
            end).
    { unfold getAssetStateInSourceEnvironment in Hst.
      destruct (Js.find _ (assetStatesOf _ assetIds)) as [st'|] eqn:F;
        [|discriminate].
      injection Hst as ->. apply List.find_some in F. destruct F as [F _].
      pose proof (assetStatesOf_found
                    (returnedBy
                       (answersOf (viewAssetById managementClient)
                          assetIds (server w))) assetIds) as HF.
      rewrite List.Forall_forall in HF. exact (HF _ F). }
    destruct Hrel as [Hitem Hstate]. rewrite Hsid in Hitem.
    rewrite Hfound in Hitem. rewrite Hitem in Hstate.
    split; [exact Hstate|]. split; [exact Hitem|].
    apply List.find_some in Hfound. destruct Hfound as [Hret Heq].
    apply String.eqb_eq in Heq. split; [exact Heq|].
    intros Hone. destruct (returned_was_answered _ _ Hret) as (id' & Hin').
    exact (Hone id' found Hin' Heq).
Qed.

End AnyEnvironment.

(** In the reference environment, which holds "article" and nothing
    else: the states of ["id-article"; "id-gone"] are returned, the
    first ['exists'], the second ['doesNotExists'], and both lookups
    succeed. *)
Lemma states_cover_every_requested_id_example :
  exists first second,
    fst (getItemStatesAsync client ["id-article"; "id-gone"]
           (start withArticle))
    = Ok [first; second]
    /\ item first = Some existingArticle
    /\ item_state second = doesNotExists
    /\ getItemStateInSourceEnvironment [first; second] "id-article"
       = Ok first
    /\ getItemStateInSourceEnvironment [first; second] "id-gone"
       = Ok second.
Proof.
  do 2 eexists. vm_compute. repeat split.
Qed.

End ExportContextProperties.

(** ** Workflow transitions beyond the archive path *)

Module WorkflowTransitions.
Import Effects Models Mapi Vocabulary ImportWorkflowService.
Import InMemoryEnvironment.

Lemma published_step_iff (sc : string) (wfs : list Workflow) :
  doesWorkflowStepCodenameRepresentPublishedStep sc wfs = true
  <-> exists wf, In wf wfs /\ step_codename (wf_publishedStep wf) = sc.
Proof.
  induction wfs as [|w wfs IH]; simpl.
  - split; [discriminate | intros (wf & [] & _)].
  - destruct (String.eqb_spec (step_codename (wf_publishedStep w)) sc)
      as [E|N].
    + split; [intros _; exists w; auto | reflexivity].
    + rewrite IH. split.
      * intros (wf & Hin & E). exists wf. auto.
      * intros (wf & [->|Hin] & E); [contradiction | exists wf; auto].
Qed.

Lemma scheduled_step_iff (sc : string) (wfs : list Workflow) :
  doesWorkflowStepCodenameRepresentScheduledStep sc wfs = true
  <-> exists wf, In wf wfs /\ step_codename (wf_scheduledStep wf) = sc.
Proof.
  induction wfs as [|w wfs IH]; simpl.
  - split; [discriminate | intros (wf & [] & _)].
  - destruct (String.eqb_spec (step_codename (wf_scheduledStep w)) sc)
      as [E|N].
    + split; [intros _; exists w; auto | reflexivity].
    + rewrite IH. split.
      * intros (wf & Hin & E). exists wf. auto.
      * intros (wf & [->|Hin] & E); [contradiction | exists wf; auto].
Qed.

Lemma not_true_false (b : bool) : ~ b = true -> b = false.
Proof. now destruct b. Qed.

Section AnyEnvironment.
Context {S : Type}.
Variable colors : bool.
Variable managementClient : ManagementClient S.

(** X1: when the workflow and the step resolve and the step codename is
    the published step of some workflow of the list, the service sends
    the publish request for the variant and nothing else; the call ends
    as the request ends. *)
Theorem publish_sends_one_publish_request
  (wc sc : string) (migrationItem : IMigrationItem)
  (wfs : list Workflow) (ws : IWorkflowAndStep) (w : World S) :
  getWorkflowAndStep colors sc wc wfs = Ok ws ->
  (exists wf, In wf wfs /\ step_codename (wf_publishedStep wf) = sc) ->
  let itemCodename := ps_codename (system migrationItem) in
  let language := ps_language (system migrationItem) in
  let run :=
    setWorkflowOfLanguageVariantAsync colors managementClient wc sc
      migrationItem wfs w in
  let published :=
    publishLanguageVariant managementClient itemCodename language
      (server w) in
  sent w (snd run) [PublishLanguageVariant itemCodename language]
  /\ fst run = outcomeOfResponse (fst published)
  /\ server (snd run) = snd published.
Proof.
  intros Hws Hp. apply published_step_iff in Hp. cbv zeta.
  unfold sent, setWorkflowOfLanguageVariantAsync, bind, lift.
  rewrite Hws, Hp.
  unfold runMapiRequestAsync, bind, log, request. cbn [server].
  destruct (publishLanguageVariant managementClient _ _ (server w))
    as [r s1]; cbn. auto.
Qed.

(** X2: when the workflow and the step resolve
    ([getWorkflowAndStep] returns) and the step codename is the
    scheduled step of some workflow and the published step of none,
    nothing is sent: the environment is left as it is, one "skip" entry
    is logged and the call returns. *)
Theorem scheduled_step_is_skipped
  (wc sc : string) (migrationItem : IMigrationItem)
  (wfs : list Workflow) (ws : IWorkflowAndStep) (w : World S) :
  getWorkflowAndStep colors sc wc wfs = Ok ws ->
  (forall wf, In wf wfs -> step_codename (wf_publishedStep wf) <> sc) ->
  (exists wf, In wf wfs /\ step_codename (wf_scheduledStep wf) = sc) ->
  let run :=
    setWorkflowOfLanguageVariantAsync colors managementClient wc sc
      migrationItem wfs w in
  fst run = Ok tt
  /\ calls (snd run) = calls w
  /\ server (snd run) = server w
  /\ exists entry,
       logs (snd run) = (logs w ++ [entry])%list
       /\ log_type entry = "skip".
Proof.
  intros Hws Hnp Hs. apply scheduled_step_iff in Hs. cbv zeta.
  assert (Hp : doesWorkflowStepCodenameRepresentPublishedStep sc wfs = false).
  { apply not_true_false. intros H. apply published_step_iff in H.
    destruct H as (wf & Hin & E). now apply (Hnp wf Hin). }
  unfold setWorkflowOfLanguageVariantAsync, bind, lift.
  rewrite Hws, Hp, Hs. cbn. repeat split. eexists. split; reflexivity.
Qed.

(** X3: the workflow and the step are validated before anything else:
    when they do not resolve, the error is thrown and the world is
    untouched (no request, no log entry). *)
Theorem invalid_workflow_or_step_sends_nothing
  (wc sc : string) (migrationItem : IMigrationItem)
  (wfs : list Workflow) (error : JsError) (w : World S) :
  getWorkflowAndStep colors sc wc wfs = Throw error ->
  setWorkflowOfLanguageVariantAsync colors managementClient wc sc
    migrationItem wfs w
  = (Throw error, w).
Proof.
  intros H. unfold setWorkflowOfLanguageVariantAsync, bind, lift.
  now rewrite H.
Qed.

(** X4: whatever the workflows, the step and the environment, one call
    sends no request, or one publish, or one change-workflow, or one
    unpublish, or one unpublish followed by one change-workflow, all for
    the variant of the migration item; a publish and an unpublish are
    never sent by the same call. *)
Theorem requests_of_one_transition
  (wc sc : string) (migrationItem : IMigrationItem)
  (wfs : list Workflow) (w : World S) :
  let itemCodename := ps_codename (system migrationItem) in
  let language := ps_language (system migrationItem) in
  let run :=
    setWorkflowOfLanguageVariantAsync colors managementClient wc sc
      migrationItem wfs w in
  exists requests,
    sent w (snd run) requests
    /\ (requests = []
        \/ requests = [PublishLanguageVariant itemCodename language]
        \/ requests = [UnpublishLanguageVariant itemCodename language]
        \/ (exists data,
              requests
              = [UnpublishLanguageVariant itemCodename language;
                 ChangeWorkflowOfLanguageVariant itemCodename language data])
        \/ (exists data,
              requests
              = [ChangeWorkflowOfLanguageVariant itemCodename language
                   data])).
Proof.
  cbv zeta. unfold sent, setWorkflowOfLanguageVariantAsync, bind, lift.
  destruct (getWorkflowAndStep colors sc wc wfs) as [ws|e|m].
  2,3: exists []; rewrite List.app_nil_r; auto.
  destruct (doesWorkflowStepCodenameRepresentPublishedStep sc wfs).
  { unfold runMapiRequestAsync, bind, log, request. cbn [server].
    destruct (publishLanguageVariant managementClient _ _ (server w))
      as [r s1]; cbn. eexists. split; [reflexivity|]. auto. }
  destruct (doesWorkflowStepCodenameRepresentScheduledStep sc wfs).
  { cbn. exists []. rewrite List.app_nil_r. auto. }
  destruct (doesWorkflowStepCodenameRepresentArchivedStep sc wfs).
  { unfold tryCatch, runMapiRequestAsync, bind, log, request. cbn [server].
    destruct (unpublishLanguageVariant managementClient _ _ (server w))
      as [[[]|error] s1]; cbn.
    - destruct (changeWorkflowOfLanguageVariant managementClient _ _ _ s1)
        as [r s2]; cbn. rewrite <- List.app_assoc.
      eexists. split; [destruct r; reflexivity|].
      right. right. right. left. eexists. reflexivity.
    - destruct (isContentManagementError error); cbn.
      + destruct (changeWorkflowOfLanguageVariant managementClient _ _ _ s1)
          as [r s2]; cbn. rewrite <- List.app_assoc.
        eexists. split; [destruct r; reflexivity|].
        right. right. right. left. eexists. reflexivity.
      + eexists. split; [reflexivity|]. auto. }
  destruct (String.eqb (wf_codename (workflow ws)) sc).
  { cbn. exists []. rewrite List.app_nil_r. auto. }
  unfold runMapiRequestAsync, bind, log, request. cbn [server].
  destruct (changeWorkflowOfLanguageVariant managementClient _ _ _ (server w))
    as [r s1]; cbn.
  eexists. split; [reflexivity|].
  right. right. right. right. eexists. reflexivity.
Qed.

End AnyEnvironment.

Lemma publish_sends_one_publish_request_witness :
  let run :=
    setWorkflowOfLanguageVariantAsync false client "default" "published"
      article [defaultWorkflow] (start articleInDraft) in
  sent (start articleInDraft) (snd run)
    [PublishLanguageVariant "article" "en"]
  /\ fst run = Ok tt
  /\ server (snd run)
     = snd (publishLanguageVariant client "article" "en" articleInDraft).
Proof.
  apply (publish_sends_one_publish_request false client "default"
           "published" article [defaultWorkflow]
           {| workflow := defaultWorkflow;
              step := {| step_codename := "published";
                         step_id := "s-published" |} |}
           (start articleInDraft)).
  - reflexivity.
  - exists defaultWorkflow. split; [now left | reflexivity].
Defined.

Lemma scheduled_step_is_skipped_witness :
  let run :=
    setWorkflowOfLanguageVariantAsync false client "default" "scheduled"
      article [defaultWorkflow] (start articleInDraft) in
  fst run = Ok tt
  /\ calls (snd run) = calls (start articleInDraft)
  /\ server (snd run) = server (start articleInDraft)
  /\ exists entry,
       logs (snd run) = (logs (start articleInDraft) ++ [entry])%list
       /\ log_type entry = "skip".
Proof.
  apply (scheduled_step_is_skipped false client "default" "scheduled"
           article [defaultWorkflow]
           {| workflow := defaultWorkflow;
              step := {| step_codename := "scheduled";
                         step_id := "s-scheduled" |} |}
           (start articleInDraft)).
  - reflexivity.
  - intros wf [<-|[]]. discriminate.
  - exists defaultWorkflow. split; [now left | reflexivity].
Defined.

Lemma invalid_workflow_or_step_sends_nothing_witness :
  setWorkflowOfLanguageVariantAsync false client "default" "nope"
    article [defaultWorkflow] (start articleInDraft)
  = (Throw (OtherError (stepNotFoundMessage false "nope" defaultWorkflow)),
     start articleInDraft).
Proof.
  apply (invalid_workflow_or_step_sends_nothing false client "default"
           "nope" article [defaultWorkflow]).
  reflexivity.
Defined.

End WorkflowTransitions.

(** ** Resolution of workflows and steps *)

Module WorkflowResolution.
Import Effects Models Vocabulary ImportWorkflowService.
Import ExportContextService.

(** X5: a successful resolution returns a workflow of the list whose
    codename equals the requested one up to case, and a step of that
    workflow whose codename is exactly the requested step codename. *)
Theorem getWorkflowAndStep_sound
  (colors : bool) (sc wc : string) (wfs : list Workflow)
  (ws : IWorkflowAndStep) :
  getWorkflowAndStep colors sc wc wfs = Ok ws ->
  In (workflow ws) wfs
  /\ Js.toLowerCase (wf_codename (workflow ws)) = Js.toLowerCase wc
  /\ step_codename (step ws) = sc
  /\ In sc (validStepCodenames (workflow ws))
  /\ In (step_id (step ws))
       (List.map step_id
          (wf_archivedStep (workflow ws)
             :: wf_publishedStep (workflow ws)
             :: wf_scheduledStep (workflow ws)
             :: wf_steps (workflow ws))).
Proof.
  unfold getWorkflowAndStep.
  destruct (Js.find _ wfs) as [wf|] eqn:F; [|discriminate].
  destruct (getWorkflowStep wf sc) as [st|] eqn:G; [|discriminate].
  intros [= <-]. cbn [workflow step].
  apply List.find_some in F. destruct F as [Hin Hlow].
  apply String.eqb_eq in Hlow.
  assert (Hvalid : In sc (validStepCodenames wf)).
  { destruct (List.in_dec String.string_dec sc (validStepCodenames wf))
      as [H|H]; [exact H|].
    apply WorkflowProperties.getWorkflowStep_none in H. congruence. }
  repeat split; auto.
  - unfold getWorkflowStep in G.
    destruct (String.eqb_spec (step_codename (wf_archivedStep wf)) sc);
      [now injection G as <-|].
    destruct (String.eqb_spec (step_codename (wf_publishedStep wf)) sc);
      [now injection G as <-|].
    destruct (String.eqb_spec (step_codename (wf_scheduledStep wf)) sc);
      [now injection G as <-|].
    destruct (Js.find _ (wf_steps wf)) as [s|] eqn:Fs; [|discriminate].
    injection G as <-. apply List.find_some in Fs.
    now apply String.eqb_eq.
  - unfold getWorkflowStep in G. cbn [List.map].
    destruct (String.eqb (step_codename (wf_archivedStep wf)) sc);
      [injection G as <-; now left|].
    destruct (String.eqb (step_codename (wf_publishedStep wf)) sc);
      [injection G as <-; right; now left|].
    destruct (String.eqb (step_codename (wf_scheduledStep wf)) sc);
      [injection G as <-; right; right; now left|].
    destruct (Js.find _ (wf_steps wf)) as [s|] eqn:Fs; [|discriminate].
    injection G as <-. apply List.find_some in Fs. cbn [step_id].
    do 3 right. apply List.in_map. tauto.
Qed.

Lemma getWorkflowAndStep_sound_witness :
  let ws :=
    {| workflow := InMemoryEnvironment.defaultWorkflow;
       step := {| step_codename := "review"; step_id := "s-review" |} |} in
  In (workflow ws) [InMemoryEnvironment.defaultWorkflow]
  /\ Js.toLowerCase (wf_codename (workflow ws)) = Js.toLowerCase "DEFAULT"
  /\ step_codename (step ws) = "review"
  /\ In "review" (validStepCodenames (workflow ws))
  /\ In (step_id (step ws))
       (List.map step_id
          (wf_archivedStep (workflow ws)
             :: wf_publishedStep (workflow ws)
             :: wf_scheduledStep (workflow ws)
             :: wf_steps (workflow ws))).
Proof.
  apply (getWorkflowAndStep_sound true "review" "DEFAULT"
           [InMemoryEnvironment.defaultWorkflow]).
  reflexivity.
Defined.

(** X6: the workflow codename is matched without regard to case: two
    spellings that agree in lower case resolve to the same workflow and
    step.  (The step codename is compared as it is.) *)
Theorem workflow_codename_is_case_insensitive
  (colors : bool) (sc wc1 wc2 : string) (wfs : list Workflow)
  (ws : IWorkflowAndStep) :
  Js.toLowerCase wc1 = Js.toLowerCase wc2 ->
  getWorkflowAndStep colors sc wc1 wfs = Ok ws ->
  getWorkflowAndStep colors sc wc2 wfs = Ok ws.
Proof.
  unfold getWorkflowAndStep. intros ->.
  destruct (Js.find _ wfs) as [wf|]; [|discriminate].
  now destruct (getWorkflowStep wf sc).
Qed.

Lemma workflow_codename_is_case_insensitive_witness :
  getWorkflowAndStep true "draft" "Default"
    [InMemoryEnvironment.defaultWorkflow]
  = Ok {| workflow := InMemoryEnvironment.defaultWorkflow;
          step := {| step_codename := "draft"; step_id := "s-draft" |} |}.
Proof.
  apply (workflow_codename_is_case_insensitive true "draft" "DEFAULT"
           "Default"); reflexivity.
Defined.

(** X7: the existence check of the earlier helper and the resolution of
    the service accept the same inputs: the check answers [true] exactly
    when the service resolves a step, [false] exactly when the service
    throws its unknown-step error, and it throws what the service throws
    for an unknown workflow. *)
Theorem doesWorkflowStepExist_agrees_with_getWorkflowAndStep
  (colors : bool) (wc sc : string) (wfs : list Workflow) :
  match ImportWorkflowHelper.doesWorkflowStepExist colors wc sc wfs with
  | Ok true => exists ws, getWorkflowAndStep colors sc wc wfs = Ok ws
  | Ok false =>
      exists wf,
        ImportWorkflowHelper.getWorkflowByCodename colors wc wfs = Ok wf
        /\ getWorkflowAndStep colors sc wc wfs
           = Throw (OtherError (stepNotFoundMessage colors sc wf))
  | Throw e => getWorkflowAndStep colors sc wc wfs = Throw e
  | Exit _ => False
  end.
Proof.
  unfold ImportWorkflowHelper.doesWorkflowStepExist,
    ImportWorkflowHelper.getWorkflowByCodename, getWorkflowAndStep,
    getWorkflowStep.
  destruct (Js.find _ wfs) as [wf|]; [|reflexivity].
  destruct (String.eqb (step_codename (wf_archivedStep wf)) sc);
    [eexists; reflexivity|].
  destruct (String.eqb (step_codename (wf_publishedStep wf)) sc);
    [eexists; reflexivity|].
  destruct (String.eqb (step_codename (wf_scheduledStep wf)) sc);
    [eexists; reflexivity|].
  destruct (Js.find _ (wf_steps wf)) as [s|].
  - eexists; reflexivity.
  - exists wf. split; reflexivity.
Qed.

Lemma idIs_true (id : string) (v : option string) :
  idIs id v = true <-> v = Some id.
Proof.
  destruct v as [x|]; simpl; [|split; discriminate].
  rewrite String.eqb_eq. split; congruence.
Qed.

Lemma firstStepWithId_some (steps : list WorkflowStep) (v : option string)
  (c : string) :
  firstStepWithId steps v = Some c ->
  exists st, In st steps /\ v = Some (step_id st) /\ step_codename st = c.
Proof.
  induction steps as [|s steps IH]; simpl; [discriminate|].
  destruct (idIs (step_id s) v) eqn:E.
  - intros [= <-]. apply idIs_true in E. exists s. auto.
  - intros H. destruct (IH H) as (st & Hin & Hv & Hc). exists st. auto.
Qed.

Lemma firstStepWithId_none (steps : list WorkflowStep) (v : option string) :
  firstStepWithId steps v = None <->
  forall st, In st steps -> v <> Some (step_id st).
Proof.
  induction steps as [|s steps IH]; simpl.
  - split; [intros _ st [] | reflexivity].
  - destruct (idIs (step_id s) v) eqn:E.
    + apply idIs_true in E. split; [discriminate|].
      intros H. exfalso. apply (H s); auto.
    + rewrite IH. split.
      * intros H st [<-|Hin]; [|now apply H].
        intros Hv. apply idIs_true in Hv. congruence.
      * intros H st Hin. apply H. now right.
Qed.

Lemma getWorkflowStepCodename_none
  (wf : Workflow) (lv : LanguageVariantWorkflow) :
  getWorkflowStepCodename wf lv = None
  <-> forall st, In st (allSteps wf) -> lv_step_id lv <> Some (step_id st).
Proof.
  unfold getWorkflowStepCodename, allSteps.
  destruct (firstStepWithId (wf_steps wf) (lv_step_id lv)) as [c|] eqn:F.
  + split; [discriminate|]. intros H.
    apply firstStepWithId_some in F. destruct F as (st & Hin & Hv & _).
    exfalso. apply (H st); [apply List.in_or_app; now left | exact Hv].
  + rewrite firstStepWithId_none in F.
    destruct (idIs (step_id (wf_archivedStep wf)) _) eqn:Ea;
      [apply idIs_true in Ea; split; [discriminate|]; intros H; exfalso;
       apply (H (wf_archivedStep wf)); [|exact Ea];
       apply List.in_or_app; right; simpl; auto|].
    destruct (idIs (step_id (wf_scheduledStep wf)) _) eqn:Es;
      [apply idIs_true in Es; split; [discriminate|]; intros H; exfalso;
       apply (H (wf_scheduledStep wf)); [|exact Es];
       apply List.in_or_app; right; simpl; auto|].
    destruct (idIs (step_id (wf_publishedStep wf)) _) eqn:Ep;
      [apply idIs_true in Ep; split; [discriminate|]; intros H; exfalso;
       apply (H (wf_publishedStep wf)); [|exact Ep];
       apply List.in_or_app; right; simpl; auto|].
    split; [|reflexivity]. intros _ st Hin Hv.
    apply List.in_app_or in Hin. destruct Hin as [Hin|Hin].
    * now apply (F st Hin).
    * apply idIs_true in Hv. simpl in Hin.
      destruct Hin as [<-|[<-|[<-|[]]]]; congruence.
Qed.

Lemma getWorkflowStepCodename_some
  (wf : Workflow) (lv : LanguageVariantWorkflow) (c : string) :
  getWorkflowStepCodename wf lv = Some c ->
  exists st,
    In st (allSteps wf)
    /\ lv_step_id lv = Some (step_id st)
    /\ step_codename st = c.
Proof.
  unfold getWorkflowStepCodename, allSteps.
  destruct (firstStepWithId (wf_steps wf) (lv_step_id lv)) as [c'|] eqn:F.
  + intros [= <-]. apply firstStepWithId_some in F.
    destruct F as (st & Hin & Hv & Hc). exists st.
    split; [apply List.in_or_app; now left | auto].
  + destruct (idIs (step_id (wf_archivedStep wf)) _) eqn:Ea;
      [intros [= <-]; apply idIs_true in Ea; exists (wf_archivedStep wf);
       split; [apply List.in_or_app; right; simpl; auto | auto]|].
    destruct (idIs (step_id (wf_scheduledStep wf)) _) eqn:Es;
      [intros [= <-]; apply idIs_true in Es; exists (wf_scheduledStep wf);
       split; [apply List.in_or_app; right; simpl; auto | auto]|].
    destruct (idIs (step_id (wf_publishedStep wf)) _) eqn:Ep;
      [intros [= <-]; apply idIs_true in Ep; exists (wf_publishedStep wf);
       split; [apply List.in_or_app; right; simpl; auto | auto]|].
    discriminate.
Qed.

(** X8: [getWorkflowStepCodename] finds no codename exactly when no step
    of the workflow (regular, archived, scheduled or published) has the
    id of the variant's step; a codename it returns is the codename of a
    step with that id. *)
Theorem getWorkflowStepCodename_by_id
  (wf : Workflow) (lv : LanguageVariantWorkflow) :
  (getWorkflowStepCodename wf lv = None
   <-> forall st, In st (allSteps wf) -> lv_step_id lv <> Some (step_id st))
  /\ (forall c,
        getWorkflowStepCodename wf lv = Some c ->
        exists st,
          In st (allSteps wf)
          /\ lv_step_id lv = Some (step_id st)
          /\ step_codename st = c).
Proof.
  split.
  - apply getWorkflowStepCodename_none.
  - apply getWorkflowStepCodename_some.
Qed.

(** X9: export and import agree on steps: the codename the export
    context derives for a variant's step is always accepted by the
    import-side lookup on the same workflow, which returns a step with
    that codename. *)
Theorem exported_step_codename_resolves_on_import
  (wf : Workflow) (lv : LanguageVariantWorkflow) (c : string) :
  getWorkflowStepCodename wf lv = Some c ->
  exists st, getWorkflowStep wf c = Some st /\ step_codename st = c.
Proof.
  intros H.
  destruct (getWorkflowStepCodename_some wf lv c H)
    as (st & Hin & _ & Hc).
  assert (Hvalid : In c (validStepCodenames wf)).
  { unfold validStepCodenames. unfold allSteps in Hin.
    apply List.in_app_or in Hin. destruct Hin as [Hin|Hin].
    - do 3 right. rewrite <- Hc. now apply List.in_map.
    - simpl in Hin. destruct Hin as [<-|[<-|[<-|[]]]]; simpl; auto. }
  destruct (getWorkflowStep wf c) as [found|] eqn:G.
  - exists found. split; [reflexivity|].
    unfold getWorkflowStep in G.
    destruct (String.eqb_spec (step_codename (wf_archivedStep wf)) c);
      [now injection G as <-|].
    destruct (String.eqb_spec (step_codename (wf_publishedStep wf)) c);
      [now injection G as <-|].
    destruct (String.eqb_spec (step_codename (wf_scheduledStep wf)) c);
      [now injection G as <-|].
    destruct (Js.find _ (wf_steps wf)) as [s|] eqn:Fs; [|discriminate].
    injection G as <-. apply List.find_some in Fs.
    now apply String.eqb_eq.
  - apply WorkflowProperties.getWorkflowStep_none in G. contradiction.
Qed.

Lemma exported_step_codename_resolves_on_import_witness :
  exists st,
    getWorkflowStep InMemoryEnvironment.defaultWorkflow "review" = Some st
    /\ step_codename st = "review".
Proof.
  apply (exported_step_codename_resolves_on_import
           InMemoryEnvironment.defaultWorkflow
           {| lv_workflow_id := Some "wf-default";
              lv_step_id := Some "s-review" |} "review").
  reflexivity.
Defined.

End WorkflowResolution.

(** ** Bookkeeping of the content item import *)

Module ContentItemImport.
Import Effects Models Mapi Vocabulary ImportContentItemHelper.
Import InMemoryEnvironment.

Section AnyEnvironment.
Context {S : Type}.
Variable managementClient : ManagementClient S.
Variable categorizeParsedItems :
  list IParsedContentItem -> ICategorizedParsedItems.

Ltac run_import :=
  unfold sent, importContentItemAsync, prepareContentItemAsync,
    shouldUpdateContentItem, tryCatch, bind, request, log,
    pushImportedContentItem, pushPreparedItem, logErrorAndExit, ret, throw;
  cbn [server calls logs importedContentItems preparedItems].

Ltac requests_shown :=
  eexists; split;
  [rewrite <- ?List.app_assoc; reflexivity | repeat constructor].

Ltac appended :=
  first [discriminate | intros _; eexists; split; reflexivity].

(** What one [importContentItemAsync] does to the world: its requests
    are about the item at hand, and when it returns, the item it
    prepared is appended to [preparedItems] and, paired with the parsed
    item, to [importedData.contentItems]. *)
Lemma importContentItemAsync_effect
  (it : IParsedContentItem) (collections : list Collection) (w : World S) :
  let run := importContentItemAsync managementClient it collections w in
  (exists requests,
     sent w (snd run) requests
     /\ List.Forall
          (fun r => requestCodename r = Some (ps_codename (system it)))
          requests)
  /\ (fst run = Ok tt ->
      exists prepared,
        importedContentItems (snd run)
        = (importedContentItems w ++ [(it, prepared)])%list
        /\ preparedItems (snd run) = (preparedItems w ++ [prepared])%list).
Proof.
  cbv zeta. run_import.
  destruct (viewContentItemByCodename managementClient _ (server w))
    as [[existing|error] s1]; cbn.
  - destruct (Js.find _ collections) as [collection|]; cbn.
    + destruct (negb _ || negb _); cbn.
      * destruct (upsertContentItem managementClient _ _ s1)
          as [[upserted|e] s2]; cbn; (split; [requests_shown | appended]).
      * split; [requests_shown | appended].
    + split; [requests_shown | appended].
  - destruct (is404Error error); cbn.
    + destruct (addContentItem managementClient _ s1)
        as [[newItem|e] s2]; cbn; (split; [requests_shown | appended]).
    + split; [requests_shown | appended].
Qed.

(** One turn of the loop: the progress entry is logged, the item is
    imported, and the loop goes on when that returned. *)
Lemma importLoop_step (config : Config) (collections : list Collection)
  (totalCount itemIndex : nat) (it : IParsedContentItem)
  (rest : list IParsedContentItem) (w : World S) :
  importLoop managementClient config collections totalCount itemIndex
    (it :: rest) w
  = match
      importContentItemAsync managementClient it collections
        {| server := server w; calls := calls w;
           logs :=
             (logs w
                ++ [{| log_type := "contentItem";
                       log_message :=
                         "'" ++ ps_name (system it) ++ "' of type '"
                           ++ ps_type (system it) ++ "'";
                       log_parts :=
                         [Js.numberToString (Datatypes.S itemIndex);
                          Js.numberToString totalCount] |}])%list;
           importedContentItems := importedContentItems w;
           preparedItems := preparedItems w |}
    with
    | (Ok _, w1) =>
        importLoop managementClient config collections totalCount
          (Datatypes.S itemIndex) rest w1
    | (Throw e, w1) => (Throw e, w1)
    | (Exit m, w1) => (Exit m, w1)
    end.
Proof. reflexivity. Qed.

Lemma importLoop_effect (config : Config) (collections : list Collection)
  (totalCount : nat) (items : list IParsedContentItem) :
  forall (itemIndex : nat) (w : World S),
    let run :=
      importLoop managementClient config collections totalCount itemIndex
        items w in
    (exists requests,
       sent w (snd run) requests
       /\ List.Forall
            (fun r =>
               exists it,
                 In it items
                 /\ requestCodename r = Some (ps_codename (system it)))
            requests)
    /\ (fst run = Ok tt ->
        exists prepared,
          List.length prepared = List.length items
          /\ importedContentItems (snd run)
             = (importedContentItems w ++ List.combine items prepared)%list
          /\ preparedItems (snd run)
             = (preparedItems w ++ prepared)%list).
Proof.
  induction items as [|it rest IH]; intros itemIndex w; cbv zeta.
  - cbn. split.
    + exists []. split; [unfold sent; now rewrite List.app_nil_r|constructor].
    + intros _. exists []. now rewrite !List.app_nil_r.
  - rewrite importLoop_step.
    set (w0 := {| server := server w; calls := calls w;
                  logs := _; importedContentItems := importedContentItems w;
                  preparedItems := preparedItems w |}).
    pose proof (importContentItemAsync_effect it collections w0) as He.
    cbv zeta in He.
    destruct (importContentItemAsync managementClient it collections w0)
      as [[[]|e|m] w1]; cbn [fst snd] in He; destruct He as [Hreq Hok].
    + specialize (IH (Datatypes.S itemIndex) w1). cbv zeta in IH.
      destruct (importLoop managementClient config collections totalCount
                  (Datatypes.S itemIndex) rest w1) as [r w2].
      cbn [fst snd] in *. destruct IH as [IHreq IHok].
      destruct (Hok eq_refl) as (p & Himp & Hprep).
      split.
      * destruct Hreq as (q1 & Hs1 & Hf1).
        destruct IHreq as (q2 & Hs2 & Hf2).
        exists (q1 ++ q2)%list. split.
        -- unfold sent in *. rewrite Hs2, Hs1. cbn [calls w0].
           now rewrite List.app_assoc.
        -- apply List.Forall_app. split.
           ++ eapply List.Forall_impl; [|exact Hf1].
              intros r0 Hr. exists it. split; [now left | exact Hr].
           ++ eapply List.Forall_impl; [|exact Hf2].
              intros r0 (it' & Hin & Hr). exists it'. split; [now right|auto].
      * intros Hr. destruct (IHok Hr) as (ps & Hlen & Himp2 & Hprep2).
        exists (p :: ps). cbn [List.length List.combine].
        rewrite Hlen, Himp2, Hprep2, Himp, Hprep. cbn [w0 importedContentItems preparedItems].
        now rewrite <- !List.app_assoc.
    + cbn [fst snd]. split; [|discriminate].
      destruct Hreq as (q1 & Hs1 & Hf1). exists q1. split; [exact Hs1|].
      eapply List.Forall_impl; [|exact Hf1].
      intros r0 Hr. exists it. split; [now left | exact Hr].
    + cbn [fst snd]. split; [|discriminate].
      destruct Hreq as (q1 & Hs1 & Hf1). exists q1. split; [exact Hs1|].
      eapply List.Forall_impl; [|exact Hf1].
      intros r0 Hr. exists it. split; [now left | exact Hr].
Qed.

(** The run as a whole: the array of prepared items starts empty, the
    skipped components are reported, the loop runs over the regular
    items, and the array is returned. *)
Lemma importContentItemsAsync_unfold
  (parsed : list IParsedContentItem) (collections : list Collection)
  (config : Config) (w : World S) :
  importContentItemsAsync managementClient categorizeParsedItems parsed
    collections config w
  = match
      importLoop managementClient config collections
        (List.length (regularItems (categorizeParsedItems parsed))) 0
        (regularItems (categorizeParsedItems parsed))
        {| server := server w; calls := calls w;
           logs :=
             (logs w
                ++ [logAction "skip" "contentItem"
                      ("Skipping '"
                         ++ Js.numberToString
                              (List.length
                                 (componentItems
                                    (categorizeParsedItems parsed)))
                         ++ "' because they represent component items")
                      None])%list;
           importedContentItems := importedContentItems w;
           preparedItems := [] |}
    with
    | (Ok _, w1) => (Ok (preparedItems w1), w1)
    | (Throw e, w1) => (Throw e, w1)
    | (Exit m, w1) => (Exit m, w1)
    end.
Proof. reflexivity. Qed.

(** X10: whatever the outcome, every request sent by
    [importContentItemsAsync] is a view, create or upsert of a regular
    item of the categorisation; component items are never looked up,
    created or updated. *)
Theorem only_regular_items_are_requested
  (parsed : list IParsedContentItem) (collections : list Collection)
  (config : Config) (w : World S) :
  let run :=
    importContentItemsAsync managementClient categorizeParsedItems parsed
      collections config w in
  exists requests,
    sent w (snd run) requests
    /\ List.Forall
         (fun r =>
            exists it,
              In it (regularItems (categorizeParsedItems parsed))
              /\ requestCodename r = Some (ps_codename (system it)))
         requests.
Proof.
  cbv zeta. rewrite importContentItemsAsync_unfold.
  set (w0 := {| server := server w; calls := _; logs := _;
                importedContentItems := _; preparedItems := _ |}).
  pose proof (importLoop_effect config collections
                (List.length (regularItems (categorizeParsedItems parsed)))
                (regularItems (categorizeParsedItems parsed)) 0 w0) as H.
  cbv zeta in H. destruct H as [Hreq _].
  destruct (importLoop managementClient config collections _ 0 _ w0)
    as [[[]|e|m] w1]; cbn [fst snd] in *; exact Hreq.
Qed.

(** X11: when [importContentItemsAsync] returns, it returns one prepared
    item per regular item, in the order of the input, and
    [importedData.contentItems] has grown by exactly the pairs of each
    regular item with its prepared item, in the same order. *)
Theorem prepared_items_align_with_regular_items
  (parsed : list IParsedContentItem) (collections : list Collection)
  (config : Config) (w : World S) (prepared : list ContentItem) :
  let run :=
    importContentItemsAsync managementClient categorizeParsedItems parsed
      collections config w in
  fst run = Ok prepared ->
  List.length prepared
  = List.length (regularItems (categorizeParsedItems parsed))
  /\ importedContentItems (snd run)
     = (importedContentItems w
          ++ List.combine (regularItems (categorizeParsedItems parsed))
               prepared)%list.
Proof.
  cbv zeta. rewrite importContentItemsAsync_unfold.
  set (w0 := {| server := server w; calls := _; logs := _;
                importedContentItems := _; preparedItems := _ |}).
  pose proof (importLoop_effect config collections
                (List.length (regularItems (categorizeParsedItems parsed)))
                (regularItems (categorizeParsedItems parsed)) 0 w0) as H.
  cbv zeta in H. destruct H as [_ Hok].
  destruct (importLoop managementClient config collections _ 0 _ w0)
    as [[[]|e|m] w1]; cbn [fst snd] in *; try discriminate.
  destruct (Hok eq_refl) as (ps & Hlen & Himp & Hprep).
  intros [= <-]. rewrite Hprep. cbn [w0 preparedItems List.app].
  split; [exact Hlen|]. rewrite Himp. reflexivity.
Qed.

(** X12: when the item exists in the environment, its collection is
    among the collections and the incoming name differs from the name
    the environment holds, the view is followed by exactly one upsert
    by codename carrying the incoming name and collection codename; the
    call ends as the upsert ends and no create request is sent. *)
Theorem renamed_item_is_upserted
  (it : IParsedContentItem) (collections : list Collection)
  (existing : ContentItem) (found : Collection) (w : World S) :
  let codename := ps_codename (system it) in
  let data :=
    {| upsert_name := ps_name (system it);
       upsert_collection_codename := ps_collection (system it) |} in
  let viewed :=
    viewContentItemByCodename managementClient codename (server w) in
  let upserted :=
    upsertContentItem managementClient codename data (snd viewed) in
  let run := importContentItemAsync managementClient it collections w in
  fst viewed = Success existing ->
  Js.find
    (fun m => String.eqb (collection_codename m) (ps_collection (system it)))
    collections = Some found ->
  ps_name (system it) <> ci_name existing ->
  sent w (snd run)
    [ViewContentItemByCodename codename;
     UpsertContentItemByCodename codename data]
  /\ fst run
     = match fst upserted with
       | Success _ => Ok tt
       | Failure error => Throw error
       end.
Proof.
  cbv zeta. intros Hview Hfind Hname. run_import.
  destruct (viewContentItemByCodename managementClient _ (server w))
    as [r s1]. cbn [fst snd] in *. subst r. cbn.
  rewrite Hfind. cbn.
  apply String.eqb_neq in Hname. rewrite Hname. cbn.
  destruct (upsertContentItem managementClient _ _ s1)
    as [[u|e] s2]; cbn; rewrite <- List.app_assoc; auto.
Qed.

(** X13: when the item exists in the environment but the incoming
    collection codename is not among the collections, the import of
    the item does not return: it ends with the fatal error
    "Invalid collection '<codename>'", and the view is the only
    request sent: the item is neither added nor upserted. *)
Theorem unknown_collection_fails_after_the_view
  (it : IParsedContentItem) (collections : list Collection)
  (existing : ContentItem) (w : World S) :
  let codename := ps_codename (system it) in
  let run := importContentItemAsync managementClient it collections w in
  fst (viewContentItemByCodename managementClient codename (server w))
  = Success existing ->
  (forall c, In c collections ->
     collection_codename c <> ps_collection (system it)) ->
  failsWith (fst run)
    ("Invalid collection '" ++ ps_collection (system it) ++ "'")
  /\ sent w (snd run) [ViewContentItemByCodename codename].
Proof.
  cbv zeta. intros Hview Habsent. run_import.
  destruct (viewContentItemByCodename managementClient _ (server w))
    as [r s1]. cbn [fst snd] in *. subst r. cbn.
  assert (F : Js.find
                (fun m => String.eqb (collection_codename m)
                            (ps_collection (system it))) collections
              = None).
  { apply JsFacts.find_none_iff. intros c Hc.
    apply String.eqb_neq. now apply Habsent. }
  rewrite F. cbn. split; [now left | reflexivity].
Qed.

End AnyEnvironment.

Lemma only_regular_items_are_requested_example :
  calls
    (snd (importContentItemsAsync client categorizeByWorkflowStep
            [heroComponent; article] twoCollections
            {| skipFailedItems := false |} (start emptyEnv)))
  = [ViewContentItemByCodename "article";
     AddContentItem
       {| add_name := "Article"; add_type_codename := "post";
          add_codename := "article";
          add_collection_codename := "default" |}].
Proof. reflexivity. Qed.

Lemma prepared_items_align_with_regular_items_witness :
  let run :=
    importContentItemsAsync client categorizeByWorkflowStep
      [article; heroComponent; page] twoCollections
      {| skipFailedItems := false |} (start withArticle) in
  List.length
    [existingArticle;
     {| ci_id := "id-page"; ci_name := "Page"; ci_codename := "page";
        ci_type_id := "type-page";
        ci_collection_id := "collection-default" |}]
  = List.length
      (regularItems
         (categorizeByWorkflowStep [article; heroComponent; page]))
  /\ importedContentItems (snd run)
     = (importedContentItems (start withArticle)
          ++ List.combine
               (regularItems
                  (categorizeByWorkflowStep [article; heroComponent; page]))
               [existingArticle;
                {| ci_id := "id-page"; ci_name := "Page";
                   ci_codename := "page"; ci_type_id := "type-page";
                   ci_collection_id := "collection-default" |}])%list.
Proof.
  apply (prepared_items_align_with_regular_items client
           categorizeByWorkflowStep [article; heroComponent; page]
           twoCollections {| skipFailedItems := false |}
           (start withArticle)).
  reflexivity.
Defined.

Lemma renamed_item_is_upserted_witness :
  let data :=
    {| upsert_name := "Article (new)";
       upsert_collection_codename := "default" |} in
  let run :=
    importContentItemAsync client articleRenamed twoCollections
      (start withArticle) in
  sent (start withArticle) (snd run)
    [ViewContentItemByCodename "article";
     UpsertContentItemByCodename "article" data]
  /\ fst run = Ok tt.
Proof.
  apply (renamed_item_is_upserted client articleRenamed twoCollections
           existingArticle
           {| collection_id := "collection-default";
              collection_codename := "default" |} (start withArticle)).
  - reflexivity.
  - reflexivity.
  - discriminate.
Defined.

Lemma unknown_collection_fails_after_the_view_witness :
  let run :=
    importContentItemAsync client articleInUnknownCollection twoCollections
      (start withArticle) in
  failsWith (fst run) "Invalid collection 'press'"
  /\ sent (start withArticle) (snd run) [ViewContentItemByCodename "article"].
Proof.
  apply (unknown_collection_fails_after_the_view client
           articleInUnknownCollection twoCollections existingArticle
           (start withArticle)).
  - reflexivity.
  - intros c [<-|[<-|[]]]; discriminate.
Defined.

End ContentItemImport.

(** ** Requests of the export context *)

Module ExportRequests.
Import Effects Models Mapi Vocabulary ExportContextService.
Import InMemoryEnvironment.

Section AnyEnvironment.
Context {S : Type}.
Variable managementClient : ManagementClient S.

Lemma getContentItemsByIdsLoop_step (id : string) (rest : list string)
  (contentItems : list ContentItem) (w : World S) :
  getContentItemsByIdsLoop managementClient (id :: rest) contentItems w
  = let w1 :=
      viewed w (ViewContentItemById id)
        {| log_type := "view"; log_message := "contentItem";
           log_parts := ["id -> " ++ id] |}
        (snd (viewContentItemById managementClient id (server w))) in
    match fst (viewContentItemById managementClient id (server w)) with
    | Success found =>
        getContentItemsByIdsLoop managementClient rest
          (contentItems ++ [found])%list w1
    | Failure error =>
        if is404Error error then
          getContentItemsByIdsLoop managementClient rest contentItems w1
        else (Throw error, w1)
    end.
Proof.
  cbn [getContentItemsByIdsLoop].
  unfold bind at 1, tryCatch, runMapiRequestAsync, bind, log, request, viewed.
  cbn [server calls logs importedContentItems preparedItems].
  destruct (viewContentItemById managementClient id (server w))
    as [[found|error] s1]; cbn; [reflexivity|].
  destruct (is404Error error); reflexivity.
Qed.

Lemma getAssetsByIdsLoop_step (id : string) (rest : list string)
  (assets : list Asset) (w : World S) :
  getAssetsByIdsLoop managementClient (id :: rest) assets w
  = let w1 :=
      viewed w (ViewAssetById id)
        {| log_type := "view"; log_message := "asset";
           log_parts := ["id -> " ++ id] |}
        (snd (viewAssetById managementClient id (server w))) in
    match fst (viewAssetById managementClient id (server w)) with
    | Success found =>
        getAssetsByIdsLoop managementClient rest (assets ++ [found])%list w1
    | Failure error =>
        if is404Error error then
          getAssetsByIdsLoop managementClient rest assets w1
        else (Throw error, w1)
    end.
Proof.
  cbn [getAssetsByIdsLoop].
  unfold bind at 1, tryCatch, runMapiRequestAsync, bind, log, request, viewed.
  cbn [server calls logs importedContentItems preparedItems].
  destruct (viewAssetById managementClient id (server w))
    as [[found|error] s1]; cbn; [reflexivity|].
  destruct (is404Error error); reflexivity.
Qed.

Lemma getContentItemsByIdsLoop_requests (ids : list string) :
  forall (contentItems : list ContentItem) (w : World S),
    let run := getContentItemsByIdsLoop managementClient ids contentItems w in
    exists requests,
      sent w (snd run) requests
      /\ requestsOfFetch ViewContentItemById ids
           (answersOf (viewContentItemById managementClient) ids (server w))
           (fst run) requests
      /\ match fst run with
         | Ok items =>
             exists fetched,
               items = (contentItems ++ fetched)%list
               /\ List.length fetched <= List.length ids
         | _ => True
         end.
Proof.
  induction ids as [|id rest IH]; intros contentItems w; cbv zeta.
  - cbn. exists []. unfold sent. rewrite List.app_nil_r.
    repeat split; [constructor|]. exists []. now rewrite List.app_nil_r.
  - rewrite getContentItemsByIdsLoop_step. cbv zeta. cbn [answersOf].
    set (w1 := viewed w _ _ _).
    assert (Hcalls : calls w1 = (calls w ++ [ViewContentItemById id])%list)
      by reflexivity.
    change (snd (viewContentItemById managementClient id (server w)))
      with (server w1).
    destruct (fst (viewContentItemById managementClient id (server w)))
      as [found|error] eqn:Hanswer.
    + destruct (IH (contentItems ++ [found])%list w1)
        as (q & Hs & Hr & Hi). cbv zeta in *.
      exists (ViewContentItemById id :: q). unfold sent in *.
      rewrite Hs, Hcalls, <- List.app_assoc. split; [reflexivity|].
      destruct (getContentItemsByIdsLoop managementClient rest _ w1)
        as [[items|e|m] w2]; cbn [fst snd] in *.
      * destruct Hr as [-> Hall]. split.
        { split; [reflexivity|]. constructor; [exact I | exact Hall]. }
        destruct Hi as (fetched & -> & Hlen).
        exists (found :: fetched). rewrite <- List.app_assoc.
        split; [reflexivity|]. cbn. now apply le_n_S.
      * split; [|exact I].
        destruct Hr as (before & i & after & -> & -> & Hall & Hnth & H404).
        exists (id :: before), i, after.
        split; [reflexivity|]. split; [reflexivity|].
        cbn [List.length List.firstn List.nth_error].
        split; [constructor; [exact I | exact Hall]|].
        split; [exact Hnth | exact H404].
      * contradiction.
    + destruct (is404Error error) eqn:E404.
      * destruct (IH contentItems w1) as (q & Hs & Hr & Hi). cbv zeta in *.
        exists (ViewContentItemById id :: q). unfold sent in *.
        rewrite Hs, Hcalls, <- List.app_assoc. split; [reflexivity|].
        destruct (getContentItemsByIdsLoop managementClient rest _ w1)
          as [[items|e|m] w2]; cbn [fst snd] in *.
        -- destruct Hr as [-> Hall]. split.
           { split; [reflexivity|]. constructor; [exact E404 | exact Hall]. }
           destruct Hi as (fetched & -> & Hlen).
           exists fetched. split; [reflexivity|]. cbn. now apply le_S.
        -- split; [|exact I].
           destruct Hr
             as (before & i & after & -> & -> & Hall & Hnth & H404).
           exists (id :: before), i, after.
           split; [reflexivity|]. split; [reflexivity|].
           cbn [List.length List.firstn List.nth_error].
           split; [constructor; [exact E404 | exact Hall]|].
           split; [exact Hnth | exact H404].
        -- contradiction.
      * cbn [fst snd]. exists [ViewContentItemById id]. unfold sent.
        split; [exact Hcalls|]. split; [|exact I].
        exists [], id, rest.
        split; [reflexivity|]. split; [reflexivity|].
        cbn [List.length List.firstn List.nth_error].
        split; [constructor|]. split; [reflexivity | exact E404].
Qed.

Lemma getAssetsByIdsLoop_requests (ids : list string) :
  forall (assets : list Asset) (w : World S),
    let run := getAssetsByIdsLoop managementClient ids assets w in
    exists requests,
      sent w (snd run) requests
      /\ requestsOfFetch ViewAssetById ids
           (answersOf (viewAssetById managementClient) ids (server w))
           (fst run) requests
      /\ match fst run with
         | Ok items =>
             exists fetched,
               items = (assets ++ fetched)%list
               /\ List.length fetched <= List.length ids
         | _ => True
         end.
Proof.
  induction ids as [|id rest IH]; intros assets w; cbv zeta.
  - cbn. exists []. unfold sent. rewrite List.app_nil_r.
    repeat split; [constructor|]. exists []. now rewrite List.app_nil_r.
  - rewrite getAssetsByIdsLoop_step. cbv zeta. cbn [answersOf].
    set (w1 := viewed w _ _ _).
    assert (Hcalls : calls w1 = (calls w ++ [ViewAssetById id])%list)
      by reflexivity.
    change (snd (viewAssetById managementClient id (server w)))
      with (server w1).
    destruct (fst (viewAssetById managementClient id (server w)))
      as [found|error] eqn:Hanswer.
    + destruct (IH (assets ++ [found])%list w1)
        as (q & Hs & Hr & Hi). cbv zeta in *.
      exists (ViewAssetById id :: q). unfold sent in *.
      rewrite Hs, Hcalls, <- List.app_assoc. split; [reflexivity|].
      destruct (getAssetsByIdsLoop managementClient rest _ w1)
        as [[items|e|m] w2]; cbn [fst snd] in *.
      * destruct Hr as [-> Hall]. split.
        { split; [reflexivity|]. constructor; [exact I | exact Hall]. }
        destruct Hi as (fetched & -> & Hlen).
        exists (found :: fetched). rewrite <- List.app_assoc.
        split; [reflexivity|]. cbn. now apply le_n_S.
      * split; [|exact I].
        destruct Hr as (before & i & after & -> & -> & Hall & Hnth & H404).
        exists (id :: before), i, after.
        split; [reflexivity|]. split; [reflexivity|].
        cbn [List.length List.firstn List.nth_error].
        split; [constructor; [exact I | exact Hall]|].
        split; [exact Hnth | exact H404].
      * contradiction.
    + destruct (is404Error error) eqn:E404.
      * destruct (IH assets w1) as (q & Hs & Hr & Hi). cbv zeta in *.
        exists (ViewAssetById id :: q). unfold sent in *.
        rewrite Hs, Hcalls, <- List.app_assoc. split; [reflexivity|].
        destruct (getAssetsByIdsLoop managementClient rest _ w1)
          as [[items|e|m] w2]; cbn [fst snd] in *.
        -- destruct Hr as [-> Hall]. split.
           { split; [reflexivity|]. constructor; [exact E404 | exact Hall]. }
           destruct Hi as (fetched & -> & Hlen).
           exists fetched. split; [reflexivity|]. cbn. now apply le_S.
        -- split; [|exact I].
           destruct Hr
             as (before & i & after & -> & -> & Hall & Hnth & H404).
           exists (id :: before), i, after.
           split; [reflexivity|]. split; [reflexivity|].
           cbn [List.length List.firstn List.nth_error].
           split; [constructor; [exact E404 | exact Hall]|].
           split; [exact Hnth | exact H404].
        -- contradiction.
      * cbn [fst snd]. exists [ViewAssetById id]. unfold sent.
        split; [exact Hcalls|]. split; [|exact I].
        exists [], id, rest.
        split; [reflexivity|]. split; [reflexivity|].
        cbn [List.length List.firstn List.nth_error].
        split; [constructor|]. split; [reflexivity | exact E404].
Qed.

(** A fetch that meets entities and 404s only returns. *)
Lemma requestsOfFetch_returns {A B} (view : string -> ApiCall)
  (ids : list string) (answers : list (string * response B))
  (r : outcome A) (requests : list ApiCall) :
  requestsOfFetch view ids answers r requests ->
  List.Forall foundOr404 answers ->
  exists a, r = Ok a.
Proof.
  intros Hr Hall. destruct r as [a|error|m]; [now exists a| |destruct Hr].
  exfalso. destruct Hr as (before & id & after & _ & _ & _ & Hnth & H404).
  apply List.nth_error_In in Hnth.
  rewrite List.Forall_forall in Hall. apply Hall in Hnth.
  unfold foundOr404 in Hnth. cbn in Hnth. congruence.
Qed.

(** X14: [getItemStatesAsync] and [getAssetStatesAsync] send view-by-id
    requests, in the order of the ids, and nothing else.  An answer
    that is a 404 does not stop the loop: when every answer of the
    environment is an entity or a 404 the call returns and has sent
    one view per requested id.  An answer that is another error stops
    it: the call throws that error, the views up to and including the
    id that failed were sent and none after it, and every answer
    before was an entity or a 404.  The entities fetched are at most
    as many as the ids. *)
Theorem state_fetch_sends_one_view_per_id
  (itemIds assetIds : list string) (w : World S) :
  (let run := getItemStatesAsync managementClient itemIds w in
   let answers :=
     answersOf (viewContentItemById managementClient) itemIds (server w) in
   (exists requests,
      sent w (snd run) requests
      /\ requestsOfFetch ViewContentItemById itemIds answers (fst run)
           requests)
   /\ (List.Forall foundOr404 answers -> exists states, fst run = Ok states))
  /\
  (let run := getAssetStatesAsync managementClient assetIds w in
   let answers :=
     answersOf (viewAssetById managementClient) assetIds (server w) in
   (exists requests,
      sent w (snd run) requests
      /\ requestsOfFetch ViewAssetById assetIds answers (fst run) requests)
   /\ (List.Forall foundOr404 answers -> exists states, fst run = Ok states))
  /\
  (forall items,
     fst (getContentItemsByIdsAsync managementClient itemIds w) = Ok items ->
     List.length items <= List.length itemIds)
  /\
  (forall assets,
     fst (getAssetsByIdsAsync managementClient assetIds w) = Ok assets ->
     List.length assets <= List.length assetIds).
Proof.
  assert (Hitems :
    let run := getItemStatesAsync managementClient itemIds w in
    exists requests,
      sent w (snd run) requests
      /\ requestsOfFetch ViewContentItemById itemIds
           (answersOf (viewContentItemById managementClient) itemIds
              (server w))
           (fst run) requests).
  { cbv zeta.
    unfold getItemStatesAsync, getContentItemsByIdsAsync, bind.
    destruct (getContentItemsByIdsLoop_requests itemIds [] w)
      as (q & Hs & Hr & _). cbv zeta in *.
    destruct (getContentItemsByIdsLoop managementClient itemIds [] w)
      as [[items|e|m] w1]; cbn [fst snd ret] in *; exists q; auto. }
  assert (Hassets :
    let run := getAssetStatesAsync managementClient assetIds w in
    exists requests,
      sent w (snd run) requests
      /\ requestsOfFetch ViewAssetById assetIds
           (answersOf (viewAssetById managementClient) assetIds (server w))
           (fst run) requests).
  { cbv zeta.
    unfold getAssetStatesAsync, getAssetsByIdsAsync, bind.
    destruct (getAssetsByIdsLoop_requests assetIds [] w)
      as (q & Hs & Hr & _). cbv zeta in *.
    destruct (getAssetsByIdsLoop managementClient assetIds [] w)
      as [[items|e|m] w1]; cbn [fst snd ret] in *; exists q; auto. }
  cbv zeta in *.
  split; [split; [exact Hitems|]|split; [split; [exact Hassets|]|split]].
  - intros Hall. destruct Hitems as (q & _ & Hr).
    exact (requestsOfFetch_returns _ _ _ _ _ Hr Hall).
  - intros Hall. destruct Hassets as (q & _ & Hr).
    exact (requestsOfFetch_returns _ _ _ _ _ Hr Hall).
  - intros items H. unfold getContentItemsByIdsAsync in H.
    destruct (getContentItemsByIdsLoop_requests itemIds [] w)
      as (q & _ & _ & Hi). cbv zeta in Hi. rewrite H in Hi.
    destruct Hi as (fetched & -> & Hlen). exact Hlen.
  - intros assets H. unfold getAssetsByIdsAsync in H.
    destruct (getAssetsByIdsLoop_requests assetIds [] w)
      as (q & _ & _ & Hi). cbv zeta in Hi. rewrite H in Hi.
    destruct Hi as (fetched & -> & Hlen). exact Hlen.
Qed.

End AnyEnvironment.

End ExportRequests.

(** ** Asset export and the update decision *)

Module AssetRoundTrip.
Import Effects Models Vocabulary AssetUpdate ExportManager.
Import InMemoryEnvironment.

Lemma optionStringEq_refl (a : option string) : optionStringEq a a = true.
Proof. now apply AssetProperties.optionStringEq_eq. Qed.

Lemma nonEmptyOrUndefined_idempotent (x : option string) :
  nonEmptyOrUndefined (nonEmptyOrUndefined x) = nonEmptyOrUndefined x.
Proof.
  destruct x as [s|]; simpl; [|reflexivity].
  destruct (Nat.eqb (String.length s) 0) eqn:E; simpl;
    [reflexivity | now rewrite E].
Qed.

Lemma nonEmptyOrUndefined_default (title : option string) :
  nonEmptyOrUndefined
    (Some (match title with Some t => t | None => "" end))
  = nonEmptyOrUndefined title.
Proof. now destruct title. Qed.

(** The export and the update decision resolve the language of a
    description in the same way; only the message of the error
    differs. *)
Lemma exported_descriptions_match (colors : bool) (assetCodename : string)
  (languages : list Language) (descriptions : list AssetDescription) :
  forall exported,
    exportDescriptions colors assetCodename languages descriptions
    = Ok exported ->
    mapTargetDescriptions languages descriptions
    = Ok (List.map
            (fun d =>
               {| mad_description := nonEmptyOrUndefined (mad_description d);
                  mad_language :=
                    {| ref_codename := ref_codename (mad_language d) |} |})
            exported).
Proof.
  induction descriptions as [|d rest IH]; intros exported; simpl.
  - now intros [= <-].
  - unfold findRequired.
    destruct (Js.find _ languages) as [language|]; simpl; [|discriminate].
    destruct (exportDescriptions colors assetCodename languages rest)
      as [rest'|e|m]; simpl; try discriminate.
    intros [= <-]. now rewrite (IH rest' eq_refl).
Qed.

(** X15: an asset exported from an environment and compared with that
    same asset needs no update and no new binary file, provided the
    bytes downloaded are as many as the size the asset reports. *)
Theorem exported_asset_needs_no_update
  (colors : bool) (zipFilename : string) (asset : Asset)
  (binaryData : BinaryData) (collections : list Collection)
  (languages : list Language) (migrationAsset : MigrationAsset) :
  toMigrationAsset colors zipFilename asset binaryData collections languages
  = Ok migrationAsset ->
  geSizeInBytes binaryData = asset_size asset ->
  shouldUpdateAsset migrationAsset asset collections languages = Ok false
  /\ shouldReplaceBinaryFile migrationAsset asset = Ok false.
Proof.
  unfold toMigrationAsset. intros Hexport Hsize.
  destruct (exportDescriptions colors (asset_codename asset) languages
              (asset_descriptions asset)) as [exported|e|m] eqn:Hd;
    simpl in Hexport; try discriminate.
  injection Hexport as <-.
  assert (Hbin : forall m,
             ma_binaryData m = Some binaryData ->
             ma_filename m = asset_fileName asset ->
             isBinaryFileIdentical m asset = Ok true).
  { intros m Hb Hf. unfold isBinaryFileIdentical. rewrite Hb, Hf, Hsize.
    now rewrite Z.eqb_refl, String.eqb_refl. }
  split.
  - apply AssetProperties.shouldUpdateAsset_false_iff. repeat split.
    + unfold isInSameCollection, targetCollectionCodename. cbn [ma_collection].
      destruct (Js.find _ collections); apply optionStringEq_refl.
    + apply (AssetProperties.areDescriptionsIdentical_sequence _ _ _
               _ (exported_descriptions_match _ _ _ _ _ Hd)).
      reflexivity.
    + unfold isTitleIdentical. cbn [ma_title].
      rewrite nonEmptyOrUndefined_default. apply optionStringEq_refl.
    + now apply Hbin.
  - unfold shouldReplaceBinaryFile. now rewrite Hbin.
Qed.

Lemma exported_asset_needs_no_update_witness :
  exists migrationAsset,
    toMigrationAsset true "photo.png" photoInTarget (Buffer photoBytes)
      twoCollections twoLanguages = Ok migrationAsset
    /\ shouldUpdateAsset migrationAsset photoInTarget twoCollections
         twoLanguages = Ok false
    /\ shouldReplaceBinaryFile migrationAsset photoInTarget = Ok false.
Proof.
  eexists. split; [reflexivity|].
  apply (exported_asset_needs_no_update true "photo.png" photoInTarget
           (Buffer photoBytes) twoCollections twoLanguages);
    reflexivity.
Defined.

(** X16: a binary replacement is never decided without an update: when
    [shouldReplaceBinaryFile] answers [true], [shouldUpdateAsset] does
    not answer [false]. *)
Theorem binary_replacement_implies_update
  (migrationAsset : MigrationAsset) (targetAsset : Asset)
  (collections : list Collection) (languages : list Language) :
  shouldReplaceBinaryFile migrationAsset targetAsset = Ok true ->
  shouldUpdateAsset migrationAsset targetAsset collections languages
  <> Ok false.
Proof.
  intros Hr Hu. apply AssetProperties.shouldUpdateAsset_false_iff in Hu.
  destruct Hu as (_ & _ & _ & Hb).
  unfold shouldReplaceBinaryFile in Hr. rewrite Hb in Hr. discriminate.
Qed.

Lemma binary_replacement_implies_update_witness :
  shouldUpdateAsset photo
    {| asset_id := "id-photo"; asset_codename := "photo";
       asset_fileName := "photo-old.png"; asset_title := Some "Photo";
       asset_size := 3; asset_collection_id := Some "collection-default";
       asset_descriptions := [] |} twoCollections twoLanguages
  <> Ok false.
Proof.
  apply (binary_replacement_implies_update photo _ twoCollections
           twoLanguages).
  reflexivity.
Defined.

Lemma mapTargetDescriptions_failure (languages : list Language)
  (descriptions : list AssetDescription) :
  match mapTargetDescriptions languages descriptions with
  | Ok mapped => List.length mapped = List.length descriptions
  | Throw e =>
      exists d,
        In d descriptions
        /\ e = OtherError
                 ("Could not find language with id '" ++ ad_language_id d
                    ++ "'")
        /\ forall l, In l languages -> language_id l <> ad_language_id d
  | Exit _ => False
  end.
Proof.
  induction descriptions as [|d rest IH]; simpl; [reflexivity|].
  unfold findRequired.
  destruct (Js.find _ languages) as [language|] eqn:F; simpl.
  - destruct (mapTargetDescriptions languages rest) as [mapped|e|m]; simpl.
    + now rewrite IH.
    + destruct IH as (d' & Hin & He & Hl). exists d'. auto.
    + exact IH.
  - exists d. split; [now left|]. split; [reflexivity|].
    intros l Hl. apply (List.find_none _ _ F) in Hl.
    now apply String.eqb_neq.
Qed.

(** X17: [shouldUpdateAsset] never exits the process.  It throws only
    when the collections agree and either a description of the target
    names a language id that is not among the languages (the error
    names the id), or descriptions and title agree and the migration
    asset has no binary data.  When the collections differ it answers
    [true] and reads neither the languages nor the binary data. *)
Theorem shouldUpdateAsset_failures
  (migrationAsset : MigrationAsset) (targetAsset : Asset)
  (collections : list Collection) (languages : list Language) :
  (isInSameCollection migrationAsset targetAsset collections = false ->
   shouldUpdateAsset migrationAsset targetAsset collections languages
   = Ok true)
  /\
  match
    shouldUpdateAsset migrationAsset targetAsset collections languages
  with
  | Ok _ => True
  | Throw e =>
      isInSameCollection migrationAsset targetAsset collections = true
      /\ ((exists d,
             In d (asset_descriptions targetAsset)
             /\ e = OtherError
                      ("Could not find language with id '"
                         ++ ad_language_id d ++ "'")
             /\ forall l, In l languages ->
                  language_id l <> ad_language_id d)
          \/ (areDescriptionsIdentical migrationAsset targetAsset languages
              = Ok true
              /\ isTitleIdentical migrationAsset targetAsset = true
              /\ ma_binaryData migrationAsset = None))
  | Exit _ => False
  end.
Proof.
  unfold shouldUpdateAsset. split.
  - now intros ->.
  - destruct (isInSameCollection _ _ _); simpl; [|exact I].
    unfold areDescriptionsIdentical, mapToMigrationDescriptions.
    pose proof (mapTargetDescriptions_failure languages
                  (asset_descriptions targetAsset)) as Hm.
    destruct (mapTargetDescriptions languages
                (asset_descriptions targetAsset)) as [mapped|e|m]; simpl.
    + destruct (deepEqual _ _) eqn:Hdeep; simpl; [|exact I].
      destruct (isTitleIdentical _ _); simpl; [|exact I].
      unfold isBinaryFileIdentical.
      destruct (ma_binaryData migrationAsset); simpl.
      * now destruct (_ && _).
      * split; [reflexivity|]. right. auto.
    + split; [reflexivity|]. now left.
    + exact Hm.
Qed.

Lemma mapTargetDescriptions_normalised (languages : list Language)
  (descriptions : list AssetDescription) :
  mapTargetDescriptions languages
    (List.map
       (fun d =>
          {| ad_language_id := ad_language_id d;
             ad_description := nonEmptyOrUndefined (ad_description d) |})
       descriptions)
  = mapTargetDescriptions languages descriptions.
Proof.
  induction descriptions as [|d rest IH]; simpl; [reflexivity|].
  rewrite IH, nonEmptyOrUndefined_idempotent. reflexivity.
Qed.

Lemma sourceDescriptions_normalised (m : MigrationAsset) :
  sourceDescriptions (withoutEmptyTexts m) = sourceDescriptions m.
Proof.
  unfold withoutEmptyTexts, sourceDescriptions at 1. cbn [ma_descriptions].
  unfold sourceDescriptions. rewrite List.map_map.
  apply List.map_ext. intros d. cbn.
  now rewrite nonEmptyOrUndefined_idempotent.
Qed.

(** X18: an empty text counts as an absent one.  Writing the empty title
    and the empty descriptions of the migration asset as absent, or
    doing so on the target asset, or replacing an absent list of
    descriptions by an empty one, changes neither decision. *)
Theorem empty_texts_count_as_absent
  (migrationAsset : MigrationAsset) (targetAsset : Asset)
  (collections : list Collection) (languages : list Language) :
  shouldUpdateAsset (withoutEmptyTexts migrationAsset) targetAsset
    collections languages
  = shouldUpdateAsset migrationAsset targetAsset collections languages
  /\ shouldUpdateAsset migrationAsset
       {| asset_id := asset_id targetAsset;
          asset_codename := asset_codename targetAsset;
          asset_fileName := asset_fileName targetAsset;
          asset_title := nonEmptyOrUndefined (asset_title targetAsset);
          asset_size := asset_size targetAsset;
          asset_collection_id := asset_collection_id targetAsset;
          asset_descriptions :=
            List.map
              (fun d =>
                 {| ad_language_id := ad_language_id d;
                    ad_description :=
                      nonEmptyOrUndefined (ad_description d) |})
              (asset_descriptions targetAsset) |}
       collections languages
     = shouldUpdateAsset migrationAsset targetAsset collections languages
  /\ shouldReplaceBinaryFile (withoutEmptyTexts migrationAsset) targetAsset
     = shouldReplaceBinaryFile migrationAsset targetAsset.
Proof.
  repeat split.
  - unfold shouldUpdateAsset, areDescriptionsIdentical, isTitleIdentical.
    rewrite sourceDescriptions_normalised.
    unfold withoutEmptyTexts at 2. cbn [ma_title].
    rewrite nonEmptyOrUndefined_idempotent. reflexivity.
  - unfold shouldUpdateAsset, areDescriptionsIdentical, isTitleIdentical,
      mapToMigrationDescriptions, isInSameCollection,
      targetCollectionCodename, isBinaryFileIdentical.
    cbn [asset_title asset_descriptions asset_collection_id asset_size
           asset_fileName].
    rewrite mapTargetDescriptions_normalised, nonEmptyOrUndefined_idempotent.
    reflexivity.
Qed.

End AssetRoundTrip.

(** ** Export transforms *)

Module ExportTransformProperties.
Import Effects Models Vocabulary AssetUpdate ExportContextService.
Import ExportTransforms InMemoryEnvironment.

(** The search succeeds exactly when the id occurs in the taxonomy. *)
Lemma findTaxonomy_defined (termId : string) :
  forall t, isDefined (findTaxonomy termId t) = occursIn termId t.
Proof.
  fix IH 1. intros [id codename terms]. simpl.
  destruct (String.eqb id termId); [reflexivity|]. simpl.
  induction terms as [|term terms IHterms]; simpl; [reflexivity|].
  rewrite <- (IH term).
  destruct (isDefined (findTaxonomy termId term)); [reflexivity|].
  exact IHterms.
Qed.

(** X19: [findTaxonomy] finds a term exactly when the id occurs in the
    taxonomy.  What it returns is the taxonomy itself when the id is its
    own, and otherwise the first of its direct terms under which the id
    occurs: for an id deeper in the tree the term returned is that
    ancestor, not the term with the id. *)
Theorem findTaxonomy_returns_root_or_direct_term
  (termId : string) (taxonomy : Taxonomy) :
  (findTaxonomy termId taxonomy = None <-> occursIn termId taxonomy = false)
  /\ (forall found,
        findTaxonomy termId taxonomy = Some found ->
        (found = taxonomy /\ taxonomy_id taxonomy = termId)
        \/ (taxonomy_id taxonomy <> termId
            /\ Js.find (occursIn termId) (taxonomy_terms taxonomy)
               = Some found
            /\ In found (taxonomy_terms taxonomy)
            /\ occursIn termId found = true)).
Proof.
  split.
  - rewrite <- findTaxonomy_defined.
    destruct (findTaxonomy termId taxonomy); simpl; split; congruence.
  - intros found. destruct taxonomy as [id codename terms]. simpl.
    destruct (String.eqb_spec id termId) as [E|N].
    + intros [= <-]. now left.
    + assert (Hfind :
                Js.find (fun term => isDefined (findTaxonomy termId term))
                  terms
                = Js.find (occursIn termId) terms).
      { unfold Js.find. induction terms as [|t ts IHts]; simpl;
          [reflexivity|].
        now rewrite findTaxonomy_defined, IHts. }
      rewrite Hfind.
      destruct (Js.find (occursIn termId) terms) as [f|] eqn:F;
        [|discriminate].
      intros [= <-]. right. apply List.find_some in F. tauto.
Qed.

Lemma findTaxonomy_example :
  findTaxonomy "t-football" topics
  = Some (mkTaxonomy "t-sport" "sport"
            [mkTaxonomy "t-football" "football" []]).
Proof. reflexivity. Qed.

Section Values.
Context {Num : Type}.
Variable numberIsFalsy : Num -> bool.

Lemma mapThrowing_length {A B} (f : A -> outcome B) (l : list A) :
  forall out, mapThrowing f l = Ok out -> List.length out = List.length l.
Proof.
  induction l as [|x l IH]; simpl; intros out.
  - now intros [= <-].
  - destruct (f x) as [y|e|m]; simpl; try discriminate.
    destruct (mapThrowing f l) as [ys|e|m]; simpl; try discriminate.
    intros [= <-]. simpl. now rewrite (IH ys).
Qed.

(** The references of a linked-items value, against the states fetched
    for a list of requested ids. *)
Lemma item_references_against_states (colors : bool)
  (items : list ContentItem) (requested : list string) (ids : list string) :
  (forall id, In id ids -> In id requested) ->
  match
    mapThrowing
      (fun id =>
         andThen
           (getItemStateInSourceEnvironment (itemStatesOf items requested) id)
           (fun itemState =>
              match item itemState with
              | Some found => Ok {| ref_codename := ci_codename found |}
              | None =>
                  Throw (OtherError
                           ("Missing item with id '" ++ Chalk.red colors id
                              ++ "'"))
              end))
      ids
  with
  | Ok out =>
      List.Forall2
        (fun id r =>
           exists found,
             Js.find (fun m => String.eqb (ci_id m) id) items = Some found
             /\ ref_codename r = ci_codename found)
        ids out
  | Throw e =>
      exists id,
        In id ids
        /\ Js.find (fun m => String.eqb (ci_id m) id) items = None
        /\ e = OtherError
                 ("Missing item with id '" ++ Chalk.red colors id ++ "'")
  | Exit _ => False
  end.
Proof.
  induction ids as [|id ids IH]; intros Hreq; simpl; [constructor|].
  assert (Hst :
            getItemStateInSourceEnvironment (itemStatesOf items requested) id
            = Ok (match Js.find (fun m => String.eqb (ci_id m) id) items with
                  | Some found =>
                      {| item_state_id := id; item := Some found;
                         item_state := exists_ |}
                  | None =>
                      {| item_state_id := id; item := None;
                         item_state := doesNotExists |}
                  end)).
  { specialize (Hreq id (or_introl eq_refl)).
    clear IH. unfold getItemStateInSourceEnvironment.
    induction requested as [|r rs IHr]; [contradiction|].
    cbn [itemStatesOf Js.find List.find].
    destruct (String.eqb_spec r id) as [->|N].
    - destruct (Js.find _ items); cbn; now rewrite String.eqb_refl.
    - assert (Hn : String.eqb r id = false) by now apply String.eqb_neq.
      destruct (Js.find (fun m => String.eqb (ci_id m) r) items); cbn;
        rewrite Hn; apply IHr; destruct Hreq; congruence. }
  rewrite Hst. simpl.
  assert (IH' := IH (fun i Hi => Hreq i (or_intror Hi))).
  destruct (Js.find (fun m => String.eqb (ci_id m) id) items)
    as [found|] eqn:F; simpl.
  - destruct (mapThrowing _ ids) as [out|e|m]; simpl.
    + constructor; [exists found; auto | exact IH'].
    + destruct IH' as (i & Hin & Hf & He). exists i. auto.
    + exact IH'.
  - exists id. auto.
Qed.

(** X20: linked items and subpages on export, with the states
    [getItemStatesAsync] builds for a list of requested ids.  A falsy
    value gives no reference; a value that is not an array is refused;
    for an array whose ids were all requested, the result is, in order,
    the codename of the item fetched for each id, or the error "Missing
    item with id ..." for an id that was not found; the "Invalid state"
    error of the lookup is never thrown.  [subpages] is the same
    function. *)
Theorem linked_items_export_against_fetched_states
  (colors : bool) (items : list ContentItem) (requested : list string)
  (value : ElementValue (Num := Num)) :
  let lookup :=
    getItemStateInSourceEnvironment (itemStatesOf items requested) in
  subpages numberIsFalsy colors lookup value
  = modular_content numberIsFalsy colors lookup value
  /\ (isFalsy numberIsFalsy value = true ->
      modular_content numberIsFalsy colors lookup value = Ok [])
  /\ (isFalsy numberIsFalsy value = false ->
      (forall references, value <> VReferences references) ->
      modular_content numberIsFalsy colors lookup value
      = Throw (OtherError "Expected value to be an array"))
  /\ (forall references,
        value = VReferences references ->
        (forall id, In id (definedIds references) -> In id requested) ->
        match modular_content numberIsFalsy colors lookup value with
        | Ok out =>
            List.Forall2
              (fun id r =>
                 exists found,
                   Js.find (fun m => String.eqb (ci_id m) id) items
                   = Some found
                   /\ ref_codename r = ci_codename found)
              (definedIds references) out
        | Throw e =>
            exists id,
              In id (definedIds references)
              /\ Js.find (fun m => String.eqb (ci_id m) id) items = None
              /\ e = OtherError
                       ("Missing item with id '" ++ Chalk.red colors id
                          ++ "'")
        | Exit _ => False
        end).
Proof.
  cbv zeta. repeat split.
  - unfold modular_content. now intros ->.
  - unfold modular_content. intros -> Hna.
    destruct value; try reflexivity.
    exfalso. now apply (Hna references).
  - intros references -> Hreq. unfold modular_content.
    cbn [isFalsy].
    now apply item_references_against_states.
Qed.

(** X21: multiple choice on export.  For an array value the result is
    returned exactly when every id with a value is the id of an option
    that has a non-empty codename; it then lists, in order, the codename
    of the first option with each id. *)
Theorem multiple_choice_export
  (colors : bool) (options : list MultipleChoiceOption)
  (references : list ReferenceObject) :
  match
    multiple_choice numberIsFalsy colors options (VReferences references)
  with
  | Ok out =>
      List.Forall2
        (fun id r =>
           exists option,
             Js.find (fun o => String.eqb (option_id o) id) options
             = Some option
             /\ option_codename option = Some (ref_codename r)
             /\ ref_codename r <> "")
        (definedIds references) out
  | Throw e =>
      exists id,
        In id (definedIds references)
        /\ match Js.find (fun o => String.eqb (option_id o) id) options with
           | None =>
               e = OtherError
                     ("Could not find multiple choice element with option id '"
                        ++ Chalk.red colors id ++ "'")
           | Some option =>
               (option_codename option = None
                \/ option_codename option = Some "")
               /\ e = OtherError
                        ("Invalid codename for multiple choice option '"
                           ++ Chalk.red colors (option_name option) ++ "'")
           end
  | Exit _ => False
  end.
Proof.
  unfold multiple_choice. cbn [isFalsy].
  induction (definedIds references) as [|id ids IH]; simpl; [constructor|].
  unfold findRequired at 1.
  destruct (Js.find (fun o => String.eqb (option_id o) id) options)
    as [option|] eqn:F; simpl.
  - destruct (option_codename option) as [codename|] eqn:C; simpl.
    + destruct (Nat.eqb (String.length codename) 0) eqn:L; simpl.
      * exists id. split; [now left|]. rewrite F. split; [|reflexivity].
        right. destruct codename; [exact C | discriminate].
      * destruct (mapThrowing _ ids) as [out|e|m]; simpl.
        -- constructor; [|exact IH]. exists option. cbn.
           repeat split; auto. intros ->. discriminate.
        -- destruct IH as (i & Hin & Hi). exists i. auto.
        -- exact IH.
    + exists id. split; [now left|]. rewrite F. auto.
  - exists id. split; [now left|]. now rewrite F.
Qed.

End Values.

End ExportTransformProperties.

(** ** Flattened content types *)

Module FlattenProperties.
Import Effects Vocabulary FlattenedContentTypes.

Lemma truthy_some (x : option string) (s : string) :
  truthy x = Some s -> x = Some s /\ s <> "".
Proof.
  destruct x as [t|]; simpl; [|discriminate].
  destruct (Nat.eqb (String.length t) 0) eqn:E; [discriminate|].
  intros [= <-]. split; [reflexivity|]. intros ->. discriminate.
Qed.

Lemma excludeElement_false (element : ContentTypeElement) :
  excludeElement element = false -> el_type element <> "guidelines".
Proof.
  unfold excludeElement. simpl. rewrite orb_false_r.
  apply String.eqb_neq.
Qed.

Lemma snippetElements_wellFormed (element : ContentTypeElement)
  (elements : list ContentTypeElement) :
  List.Forall flattenedWellFormed (snippetElements element elements).
Proof.
  induction elements as [|e rest IH]; simpl; [constructor|].
  destruct (truthy (el_codename e)) as [c|] eqn:C; [|exact IH].
  destruct (truthy (el_id e)) as [i|] eqn:I; [|exact IH].
  destruct (excludeElement e) eqn:X; [exact IH|].
  constructor; [|exact IH].
  apply truthy_some in C, I. apply excludeElement_false in X.
  unfold flattenedWellFormed. cbn. tauto.
Qed.

Lemma flattenLoop_outcome (colors : bool) (contentType : ContentType)
  (snippets : list ContentTypeSnippet)
  (remaining : list ContentTypeElement) :
  forall elements,
    List.Forall flattenedWellFormed elements ->
    match flattenLoop colors contentType snippets remaining elements with
    | Ok flattened => List.Forall flattenedWellFormed flattened
    | Throw _ | Exit _ =>
        failsWith
          (flattenLoop colors contentType snippets remaining elements)
          (snippetNotFoundMessage colors contentType)
        /\ exists element,
             In element remaining
             /\ el_type element = "snippet"
             /\ forall s, In s snippets ->
                  Some (Js.toLowerCase (snippet_id s))
                  <> option_map Js.toLowerCase (el_snippet_id element)
    end.
Proof.
  induction remaining as [|e rest IH]; intros elements Hacc;
    [exact Hacc|].
  assert (Hrest : forall acc,
             List.Forall flattenedWellFormed acc ->
             match flattenLoop colors contentType snippets rest acc with
             | Ok flattened => List.Forall flattenedWellFormed flattened
             | Throw _ | Exit _ =>
                 failsWith
                   (flattenLoop colors contentType snippets rest acc)
                   (snippetNotFoundMessage colors contentType)
                 /\ exists element,
                      In element (e :: rest)
                      /\ el_type element = "snippet"
                      /\ forall s, In s snippets ->
                           Some (Js.toLowerCase (snippet_id s))
                           <> option_map Js.toLowerCase
                                (el_snippet_id element)
             end).
  { intros acc Ha. specialize (IH acc Ha).
    destruct (flattenLoop colors contentType snippets rest acc); auto.
    - destruct IH as (Hm & el & Hin & Ht & Hs).
      split; [exact Hm|]. exists el. split; [now right | auto].
    - destruct IH as (Hm & el & Hin & Ht & Hs).
      split; [exact Hm|]. exists el. split; [now right | auto]. }
  cbn [flattenLoop].
  destruct (truthy (el_codename e)) as [c|] eqn:C; [|now apply Hrest].
  destruct (truthy (el_id e)) as [i|] eqn:I; [|now apply Hrest].
  destruct (excludeElement e) eqn:X; [now apply Hrest|].
  destruct (String.eqb_spec (el_type e) "snippet") as [T|T].
  - destruct (Js.find _ snippets) as [snippet|] eqn:F.
    + apply Hrest. apply List.Forall_app. split; [exact Hacc|].
      apply snippetElements_wellFormed.
    + unfold fatalError. split; [now left|]. exists e. split; [now left|].
      split; [exact T|]. intros s Hs. apply (List.find_none _ _ F) in Hs.
      destruct (el_snippet_id e) as [sid|]; simpl; [|discriminate].
      apply String.eqb_neq in Hs. congruence.
  - apply Hrest. apply List.Forall_app. split; [exact Hacc|].
    constructor; [|constructor].
    apply truthy_some in C, I. apply excludeElement_false in X.
    unfold flattenedWellFormed. cbn. tauto.
Qed.

(** X22: when [getContentTypeElements] returns, no flattened element is
    a guidelines element and each has a non-empty codename and a
    non-empty id.  It fails to return only when a snippet element of
    the content type refers to a snippet that is not among the snippets
    (ids compared without regard to case), and then it ends with the
    fatal error that names the content type. *)
Theorem flattened_elements_are_well_formed
  (colors : bool) (contentType : ContentType)
  (snippets : list ContentTypeSnippet) :
  match getContentTypeElements colors contentType snippets with
  | Ok flattened => List.Forall flattenedWellFormed flattened
  | Throw _ | Exit _ =>
      failsWith (getContentTypeElements colors contentType snippets)
        (snippetNotFoundMessage colors contentType)
      /\ exists element,
           In element (ct_elements contentType)
           /\ el_type element = "snippet"
           /\ forall s, In s snippets ->
                Some (Js.toLowerCase (snippet_id s))
                <> option_map Js.toLowerCase (el_snippet_id element)
  end.
Proof.
  unfold getContentTypeElements.
  apply flattenLoop_outcome. constructor.
Qed.

Lemma flattenLoop_plain (colors : bool) (contentType : ContentType)
  (snippets : list ContentTypeSnippet)
  (remaining : list ContentTypeElement) :
  (forall e, In e remaining -> el_type e <> "snippet") ->
  forall elements,
    flattenLoop colors contentType snippets remaining elements
    = Ok (elements ++ List.flat_map plainFlattened remaining)%list.
Proof.
  induction remaining as [|e rest IH]; intros Hplain elements; simpl.
  - now rewrite List.app_nil_r.
  - assert (Hrest : forall e', In e' rest -> el_type e' <> "snippet")
      by (intros e' He'; apply Hplain; now right).
    unfold plainFlattened at 1.
    destruct (truthy (el_codename e)) as [c|]; [|now apply IH].
    destruct (truthy (el_id e)) as [i|]; [|now apply IH].
    destruct (excludeElement e); [now apply IH|].
    destruct (String.eqb_spec (el_type e) "snippet") as [T|T].
    + exfalso. apply (Hplain e); [now left | exact T].
    + rewrite (IH Hrest). now rewrite <- List.app_assoc.
Qed.

(** X23: for a content type without snippet elements the flattened
    elements are, in the order of the type, its elements that have a
    codename and an id and are not guidelines, each with its own
    codename, id and type; the snippets are not consulted. *)
Theorem flattening_without_snippets
  (colors : bool) (contentType : ContentType)
  (snippets : list ContentTypeSnippet) :
  (forall e, In e (ct_elements contentType) -> el_type e <> "snippet") ->
  getContentTypeElements colors contentType snippets
  = Ok (List.flat_map plainFlattened (ct_elements contentType)).
Proof.
  intros H. unfold getContentTypeElements.
  now rewrite flattenLoop_plain.
Qed.

Lemma flattening_without_snippets_witness :
  getContentTypeElements true
    {| ct_codename := "post"; ct_id := "type-post";
       ct_elements :=
         [ {| el_codename := Some "title"; el_id := Some "e1";
              el_type := "text"; el_snippet_id := None |};
           {| el_codename := Some "help"; el_id := Some "e2";
              el_type := "guidelines"; el_snippet_id := None |};
           {| el_codename := None; el_id := Some "e3";
              el_type := "text"; el_snippet_id := None |} ] |}
    []
  = Ok [ {| fe_codename := "title"; fe_id := "e1"; fe_type := "text";
            fe_element :=
              {| el_codename := Some "title"; el_id := Some "e1";
                 el_type := "text"; el_snippet_id := None |} |} ].
Proof.
  apply (flattening_without_snippets true
           {| ct_codename := "post"; ct_id := "type-post";
              ct_elements :=
                [ {| el_codename := Some "title"; el_id := Some "e1";
                     el_type := "text"; el_snippet_id := None |};
                  {| el_codename := Some "help"; el_id := Some "e2";
                     el_type := "guidelines"; el_snippet_id := None |};
                  {| el_codename := None; el_id := Some "e3";
                     el_type := "text"; el_snippet_id := None |} ] |} []).
  intros e [<-|[<-|[<-|[]]]]; discriminate.
Defined.

End FlattenProperties.

(** ** Filtering of the data to import *)

Module ImportFilterProperties.
Import Effects Mapi Vocabulary DefaultImportAdapter.

Lemma filterLoop_filter {X} (p : X -> bool) (source : list X) :
  forall kept removed,
    filterLoop p source kept removed
    = ((kept ++ List.filter p source)%list,
       removed + (List.length source - List.length (List.filter p source))).
Proof.
  induction source as [|x rest IH]; intros kept removed.
  - cbn. rewrite List.app_nil_r. f_equal. lia.
  - pose proof (List.filter_length_le p rest) as Hle.
    cbn [filterLoop List.filter List.length].
    destruct (p x); rewrite IH; cbn [List.length].
    + rewrite <- List.app_assoc. f_equal.
    + f_equal. lia.
Qed.

Section AnyWorld.
Context {S MigrationAsset MigrationItem : Type}.

(** X24: [filterDataToImport] returns, in the order of the source, the
    assets and the items its predicates accept (all of them where a
    predicate is absent), sends no request and leaves the environment as
    it is.  It logs the number of assets removed and the number of items
    removed, each only when it is not zero. *)
Theorem filterDataToImport_keeps_what_predicates_accept
  (colors : bool) (canImport : CanImport MigrationAsset MigrationItem)
  (source : ImportData MigrationAsset MigrationItem) (w : World S) :
  let keptAssets :=
    match canImportAsset canImport with
    | Some p => List.filter p (assets source)
    | None => assets source
    end in
  let keptItems :=
    match canImportContentItem canImport with
    | Some p => List.filter p (items source)
    | None => items source
    end in
  let removedAssets :=
    List.length (assets source) - List.length keptAssets in
  let removedItems := List.length (items source) - List.length keptItems in
  let run := filterDataToImport colors canImport source w in
  fst run = Ok {| assets := keptAssets; items := keptItems |}
  /\ calls (snd run) = calls w
  /\ server (snd run) = server w
  /\ logs (snd run)
     = (logs w
          ++ (if Nat.eqb removedAssets 0 then []
              else [logEntry "info"
                      (removedMessage colors removedAssets "assets")])
          ++ (if Nat.eqb removedItems 0 then []
              else [logEntry "info"
                      (removedMessage colors removedItems
                         "content items")]))%list.
Proof.
  cbv zeta. unfold filterDataToImport.
  assert (Ha : match canImportAsset canImport with
               | Some predicate => filterLoop predicate (assets source) [] 0
               | None => (assets source, 0)
               end
               = (match canImportAsset canImport with
                  | Some p => List.filter p (assets source)
                  | None => assets source
                  end,
                  List.length (assets source)
                  - List.length
                      match canImportAsset canImport with
                      | Some p => List.filter p (assets source)
                      | None => assets source
                      end)).
  { destruct (canImportAsset canImport) as [p|].
    - now rewrite filterLoop_filter.
    - now rewrite Nat.sub_diag. }
  assert (Hi : match canImportContentItem canImport with
               | Some predicate => filterLoop predicate (items source) [] 0
               | None => (items source, 0)
               end
               = (match canImportContentItem canImport with
                  | Some p => List.filter p (items source)
                  | None => items source
                  end,
                  List.length (items source)
                  - List.length
                      match canImportContentItem canImport with
                      | Some p => List.filter p (items source)
                      | None => items source
                      end)).
  { destruct (canImportContentItem canImport) as [p|].
    - now rewrite filterLoop_filter.
    - now rewrite Nat.sub_diag. }
  rewrite Ha, Hi. cbn [fst snd].
  set (ra := List.length (assets source) - _).
  set (ri := List.length (items source) - _).
  unfold bind, log, ret.
  destruct ra as [|ra]; destruct ri as [|ri]; cbn;
    rewrite ?List.app_nil_r, <- ?List.app_assoc; repeat split.
Qed.

End AnyWorld.

End ImportFilterProperties.

(** ** White space in rich text *)

Module RichTextProperties.
Import Vocabulary RichText.

Lemma space_is_white : isWhiteSpace space = true.
Proof. reflexivity. Qed.

(** After a run of white space has begun, the result does not start
    with white space. *)
Lemma collapseRuns_true_head (text : CodeUnits) :
  match collapseRuns true text with
  | [] => True
  | c :: _ => isWhiteSpace c = false
  end.
Proof.
  induction text as [|c rest IH]; simpl; [exact I|].
  destruct (isWhiteSpace c) eqn:E; [exact IH | exact E].
Qed.

Lemma collapseRuns_idempotent (text : CodeUnits) :
  collapseRuns true (collapseRuns true text) = collapseRuns true text
  /\ collapseRuns false (collapseRuns false text) = collapseRuns false text.
Proof.
  induction text as [|c rest [IHt IHf]]; simpl; [split; reflexivity|].
  destruct (isWhiteSpace c) eqn:E; simpl.
  - split; [exact IHt|]. rewrite ?space_is_white. now rewrite IHt.
  - rewrite E, IHf. split; reflexivity.
Qed.

Lemma collapseRuns_visible (text : CodeUnits) :
  forall inRun, visibleUnits (collapseRuns inRun text) = visibleUnits text.
Proof.
  unfold visibleUnits.
  induction text as [|c rest IH]; intros inRun; simpl; [reflexivity|].
  destruct (isWhiteSpace c) eqn:E; simpl.
  - destruct inRun; simpl; [apply IH|].
    rewrite ?space_is_white. simpl. apply IH.
  - rewrite E. simpl. now rewrite IH.
Qed.

Lemma collapseRuns_no_adjacent (text : CodeUnits) :
  forall inRun, hasAdjacentWhiteSpace (collapseRuns inRun text) = false.
Proof.
  induction text as [|c rest IH]; intros inRun; simpl; [reflexivity|].
  destruct (isWhiteSpace c) eqn:E.
  - destruct inRun; [apply IH|].
    pose proof (collapseRuns_true_head rest) as Hh.
    pose proof (IH true) as Ht.
    cbn [hasAdjacentWhiteSpace].
    destruct (collapseRuns true rest) as [|d tl]; [reflexivity|].
    now rewrite Hh, andb_false_r, Ht.
  - pose proof (IH false) as Hf. cbn [hasAdjacentWhiteSpace].
    destruct (collapseRuns false rest) as [|d tl]; [reflexivity|].
    now rewrite E, Hf.
Qed.

Lemma collapseRuns_only_spaces (text : CodeUnits) :
  forall inRun,
    List.Forall (fun c => isWhiteSpace c = true -> c = space)
      (collapseRuns inRun text).
Proof.
  induction text as [|c rest IH]; intros inRun; simpl; [constructor|].
  destruct (isWhiteSpace c) eqn:E.
  - destruct inRun; [apply IH|]. constructor; [reflexivity | apply IH].
  - constructor; [congruence | apply IH].
Qed.

Lemma collapseRuns_length (text : CodeUnits) :
  forall inRun,
    List.length (collapseRuns inRun text) <= List.length text.
Proof.
  induction text as [|c rest IH]; intros inRun; simpl; [constructor|].
  destruct (isWhiteSpace c); [destruct inRun|]; simpl;
    auto using le_n_S, le_S.
Qed.

(** X25: [replaceMultipleSpacesWithSingleOne] leaves no two neighbouring
    white space units, and the only white space left is the space
    U+0020; the other code units are kept, in order; the text does not
    grow; and applying the function again changes nothing. *)
Theorem white_space_is_collapsed (text : CodeUnits) :
  let result := replaceMultipleSpacesWithSingleOne text in
  hasAdjacentWhiteSpace result = false
  /\ List.Forall (fun c => isWhiteSpace c = true -> c = space) result
  /\ visibleUnits result = visibleUnits text
  /\ List.length result <= List.length text
  /\ replaceMultipleSpacesWithSingleOne result = result.
Proof.
  cbv zeta. unfold replaceMultipleSpacesWithSingleOne. repeat split.
  - apply collapseRuns_no_adjacent.
  - apply collapseRuns_only_spaces.
  - apply collapseRuns_visible.
  - apply collapseRuns_length.
  - apply collapseRuns_idempotent.
Qed.

End RichTextProperties.

(** ** Download of binary data *)

Module BinaryDataProperties.
Import Effects Vocabulary BinaryDataUtils.

Lemma replaceFirstHash_without_hash (url : string) :
  hasHash url = false -> replaceFirstHash url = url.
Proof.
  induction url as [|c rest IH]; simpl; [reflexivity|].
  destruct (Ascii.eqb c "#"); [discriminate|]. simpl.
  intros H. now rewrite IH.
Qed.

Lemma replaceFirstHash_first (pre post : string) :
  hasHash pre = false ->
  replaceFirstHash (pre ++ "#" ++ post) = pre ++ "%23" ++ post.
Proof.
  induction pre as [|c pre IH]; intros H; [reflexivity|].
  cbn [hasHash] in H.
  change (String c pre ++ "#" ++ post) with (String c (pre ++ "#" ++ post)).
  cbn [replaceFirstHash].
  destruct (Ascii.eqb c "#"); [discriminate|].
  rewrite (IH H). reflexivity.
Qed.

(** A URL with a '#' splits at its first '#'. *)
Lemma hasHash_split (url : string) :
  hasHash url = true ->
  exists pre post, url = pre ++ "#" ++ post /\ hasHash pre = false.
Proof.
  induction url as [|c rest IH]; cbn [hasHash]; [discriminate|].
  destruct (Ascii.eqb_spec c "#") as [->|N]; cbn [orb].
  - intros _. exists EmptyString, rest. split; reflexivity.
  - intros H. destruct (IH H) as (pre & post & -> & Hpre).
    exists (String c pre), post. split; [reflexivity|].
    cbn [hasHash]. apply Ascii.eqb_neq in N. now rewrite N.
Qed.

Section Http.
Context {Data Num : Type}.
Variable getAsync : string -> outcome (Data * list Header).
Variable toNumber : string -> Num.
Variable zero : Num.

(** X26: [getBinaryDataFromUrlAsync] sends one request, for the URL
    with its first '#' written as "%23": a URL without '#' is
    requested as it is, and in a URL with '#' what follows the first
    one (a further '#' included) is requested as it is.  A failure of
    the request is the failure of the call.  Otherwise the call
    returns the data of the response; the content length is the number
    in the first header named "content-length" in any case, and zero
    when there is no such header. *)
Theorem download_escapes_the_first_hash (url : string) :
  exists requested,
    (hasHash url = false -> requested = url)
    /\ (forall pre post,
          url = pre ++ "#" ++ post -> hasHash pre = false ->
          requested = pre ++ "%23" ++ post)
    /\ (hasHash url = true ->
        exists pre post, url = pre ++ "#" ++ post /\ hasHash pre = false)
    /\ match getAsync requested with
       | Ok (data, headers) =>
           exists contentLength,
             getBinaryDataFromUrlAsync getAsync toNumber zero url
             = Ok (data, contentLength)
             /\ ((forall h, In h headers ->
                    Js.toLowerCase (header h) <> "content-length") ->
                 contentLength = zero)
             /\ (forall h,
                   Js.find
                     (fun m =>
                        String.eqb (Js.toLowerCase (header m))
                          "content-length")
                     headers = Some h ->
                   contentLength = toNumber (value h))
       | Throw error =>
           getBinaryDataFromUrlAsync getAsync toNumber zero url = Throw error
       | Exit message =>
           getBinaryDataFromUrlAsync getAsync toNumber zero url
           = Exit message
       end.
Proof.
  exists (replaceFirstHash url).
  split; [apply replaceFirstHash_without_hash|].
  split; [intros pre post -> Hpre; now apply replaceFirstHash_first|].
  split; [apply hasHash_split|].
  unfold getBinaryDataFromUrlAsync.
  destruct (getAsync (replaceFirstHash url)) as [[data headers]|error|m];
    [|reflexivity|reflexivity].
  eexists. split; [reflexivity|]. split.
  - intros Hnone.
    assert (F : Js.find
                  (fun m =>
                     String.eqb (Js.toLowerCase (header m)) "content-length")
                  headers = None).
    { apply JsFacts.find_none_iff. intros h Hh.
      apply String.eqb_neq. now apply Hnone. }
    now rewrite F.
  - intros h F. now rewrite F.
Qed.

End Http.

Lemma download_with_hash_example :
  getBinaryDataFromUrlAsync
    (fun url =>
       if String.eqb url "https://assets/a%23b#c.png" then
         Ok (3%nat, [{| header := "Content-Length"; value := "3" |}])
       else Throw (OtherError "Not found"))
    String.length 0 "https://assets/a#b#c.png"
  = Ok (3, 1).
Proof. reflexivity. Qed.

Lemma download_without_hash_example :
  getBinaryDataFromUrlAsync
    (fun url =>
       if String.eqb url "https://assets/a.png" then
         Ok (3%nat, [{| header := "etag"; value := "x" |}])
       else Throw (OtherError "Not found"))
    String.length 0 "https://assets/a.png"
  = Ok (3, 0).
Proof. reflexivity. Qed.

End BinaryDataProperties.

(** ** Lookup of a content type element *)

Module ItemProcessorProperties.
Import Effects Vocabulary BaseItemProcessorService.

(** X27: [getElement] returns an element of the first content type
    whose codename equals the requested type up to case, and the
    element's codename equals the requested codename up to case.  It
    does not return when no type matches, or when the first matching
    type has no such element: it ends with the fatal error that names
    what was not found. *)
Theorem getElement_is_case_insensitive
  (types : list IImportContentType)
  (contentItemType elementCodename : string) :
  match getElement types contentItemType elementCodename with
  | Ok element =>
      exists foundType,
        Js.find
          (fun m =>
             String.eqb (Js.toLowerCase (contentTypeCodename m))
               (Js.toLowerCase contentItemType))
          types = Some foundType
        /\ In foundType types
        /\ Js.toLowerCase (contentTypeCodename foundType)
           = Js.toLowerCase contentItemType
        /\ In element (elements foundType)
        /\ Js.toLowerCase (codename element)
           = Js.toLowerCase elementCodename
  | Throw _ | Exit _ =>
      (failsWith (getElement types contentItemType elementCodename)
         ("Could not find content type '" ++ contentItemType ++ "'")
       /\ forall t, In t types ->
            Js.toLowerCase (contentTypeCodename t)
            <> Js.toLowerCase contentItemType)
      \/ (exists foundType,
            Js.find
              (fun m =>
                 String.eqb (Js.toLowerCase (contentTypeCodename m))
                   (Js.toLowerCase contentItemType))
              types = Some foundType
            /\ In foundType types
            /\ failsWith (getElement types contentItemType elementCodename)
                 ("Could not find element with codename '"
                    ++ elementCodename ++ "' for type '"
                    ++ contentTypeCodename foundType ++ "'")
            /\ forall e, In e (elements foundType) ->
                 Js.toLowerCase (codename e)
                 <> Js.toLowerCase elementCodename)
  end.
Proof.
  unfold getElement.
  destruct (Js.find _ types) as [foundType|] eqn:F.
  - pose proof (List.find_some _ _ F) as [Hin Ht].
    apply String.eqb_eq in Ht.
    destruct (Js.find _ (elements foundType)) as [element|] eqn:G.
    + pose proof (List.find_some _ _ G) as [Hine He].
      apply String.eqb_eq in He. exists foundType. auto.
    + unfold fatalError. right. exists foundType.
      split; [reflexivity|]. split; [exact Hin|]. split; [now left|].
      intros e He. apply (List.find_none _ _ G) in He.
      now apply String.eqb_neq.
  - unfold fatalError. left. split; [now left|]. intros t Ht.
    apply (List.find_none _ _ F) in Ht. now apply String.eqb_neq.
Qed.

End ItemProcessorProperties.

(** ** Asset element on import *)

Module ImportAssetProperties.
Import Effects Mapi Vocabulary ImportAssetTransform.

Section AnyWorld.
Context {S : Type}.

Lemma assetLoop_effect (colors : bool) (importedAssets : list ImportedAsset)
  (assetCodenames : list string) :
  forall (assetReferences : list string) (w : World S),
    let run :=
      assetLoop colors importedAssets assetCodenames assetReferences w in
    fst run
    = Ok (assetReferences
            ++ List.flat_map
                 (fun c =>
                    match Js.find (isImportedAs c) importedAssets with
                    | Some a => [imported_id a]
                    | None => []
                    end)
                 assetCodenames)%list
    /\ calls (snd run) = calls w
    /\ server (snd run) = server w
    /\ logs (snd run)
       = (logs w
            ++ List.map (missingAssetWarning colors)
                 (List.filter
                    (fun c =>
                       negb (List.existsb (isImportedAs c) importedAssets))
                    assetCodenames))%list.
Proof.
  induction assetCodenames as [|c rest IH]; intros refs w; cbv zeta.
  - cbn. now rewrite !List.app_nil_r.
  - cbn [assetLoop List.flat_map List.filter].
    destruct (Js.find (isImportedAs c) importedAssets) as [a|] eqn:F.
    + assert (E : List.existsb (isImportedAs c) importedAssets = true).
      { apply List.existsb_exists. apply List.find_some in F.
        exists a. exact F. }
      rewrite E. cbn [negb].
      specialize (IH (refs ++ [imported_id a])%list w). cbv zeta in IH.
      destruct IH as (H1 & H2 & H3 & H4).
      rewrite H1, <- List.app_assoc. auto.
    + assert (E : List.existsb (isImportedAs c) importedAssets = false).
      { destruct (List.existsb _ importedAssets) eqn:X; [|reflexivity].
        apply List.existsb_exists in X. destruct X as (a & Hin & Ha).
        apply (List.find_none _ _ F) in Hin. congruence. }
      rewrite E. cbn [negb List.map].
      pose (w1 := {| server := server w; calls := calls w;
                     logs := (logs w ++ [missingAssetWarning colors c])%list;
                     importedContentItems := importedContentItems w;
                     preparedItems := preparedItems w |}).
      change (bind (log (missingAssetWarning colors c))
                (fun _ => assetLoop colors importedAssets rest refs) w)
        with (assetLoop colors importedAssets rest refs w1).
      specialize (IH refs w1). cbv zeta in IH.
      destruct IH as (H1 & H2 & H3 & H4).
      rewrite H1, H2, H3, H4. cbn [w1 logs calls server List.app].
      rewrite <- List.app_assoc. auto.
Qed.

(** X28: the asset element on import refers, in the order of the
    codenames, to the id of the first imported asset whose original
    codename equals each codename up to case; a codename without such an
    asset is skipped with one warning that names it.  No request is
    sent and the transform always returns. *)
Theorem imported_asset_references
  (colors : bool) (elementCodename : string)
  (importedAssets : list ImportedAsset) (assetCodenames : list string)
  (w : World S) :
  let run := asset colors elementCodename importedAssets assetCodenames w in
  fst run
  = Ok {| asset_element_codename := elementCodename;
          asset_references :=
            List.flat_map
              (fun c =>
                 match Js.find (isImportedAs c) importedAssets with
                 | Some a => [imported_id a]
                 | None => []
                 end)
              assetCodenames |}
  /\ calls (snd run) = calls w
  /\ server (snd run) = server w
  /\ logs (snd run)
     = (logs w
          ++ List.map (missingAssetWarning colors)
               (List.filter
                  (fun c =>
                     negb (List.existsb (isImportedAs c) importedAssets))
                  assetCodenames))%list.
Proof.
  cbv zeta. unfold asset, bind.
  pose proof (assetLoop_effect colors importedAssets assetCodenames [] w)
    as H. cbv zeta in H.
  destruct (assetLoop colors importedAssets assetCodenames [] w)
    as [r w1]. cbn [fst snd] in H. destruct H as (-> & H2 & H3 & H4).
  cbn. auto.
Qed.

End AnyWorld.

End ImportAssetProperties.
